(** * Element-location engine of the RPA workflow recorder

    A shallow embedding of three Python modules,

    - [workflow_use/healing/xpath_optimizer.py], module [xpath_optimizer],
    - [workflow_use/healing/selector_generator.py], module
      [selector_generator],
    - [workflow_use/workflow/element_finder.py], module [element_finder],

    followed by the properties established about them.

    Conventions of the embedding.  A Python [str] is a [string]; one
    [ascii] stands for one code point below 256, and [isspace], [lower]
    and the regular-expression classes are the restrictions of the
    Python ones to that range.  A Python [int] is a [Z] where its sign
    matters and an [N] where the code only produces naturals.  A [dict]
    whose iteration order the code observes is an association list in
    insertion order; [None] and missing keys are [option]s.  A call
    that can raise has an [outcome]: [int] of a string of digits
    raises [ValueError] beyond the 4300 digits the interpreter
    converts, and the callers propagate or catch it as the code does.
    A [float] is the rational number the double denotes, and a float
    operation is the exact one followed by rounding to the nearest
    double, ties to even.  The browser is a record of the answers it
    gives to the three calls the locator makes. *)

From Stdlib Require Import List Bool Arith ZArith NArith QArith Lia.
From Stdlib Require Import Ascii String.
From Stdlib Require Import Sorting.Permutation Sorting.Sorted.
From Stdlib Require DecimalString.
Import ListNotations.

Close Scope Q_scope.
Open Scope nat_scope.
Open Scope string_scope.
Open Scope list_scope.

(** String concatenation is written [^]; [++] is kept for lists. *)
Notation "a ^ b" := (String.append a b) : string_scope.

(* ================================================================== *)
(** * Calls that may raise *)
(* ================================================================== *)

Inductive exception :=
| ValueError.

(** What a call does: it returns a value or raises. *)
Inductive outcome (A : Type) :=
| Returns (a : A)
| Raises (e : exception).

Arguments Returns {A} a.
Arguments Raises {A} e.

(* ================================================================== *)
(** * Python string primitives *)
(* ================================================================== *)

Module PyStr.

(** The double-quote character, and the one-character strings used
    when quoting. *)
Definition dq_char : ascii := ascii_of_nat 34.
Definition sq_char : ascii := ascii_of_nat 39.
Definition nl_char : ascii := ascii_of_nat 10.
Definition dq : string := String dq_char EmptyString.
Definition sq : string := String sq_char EmptyString.

(** [bool(s)] for a [str]. *)
Definition truthy (s : string) : bool :=
  match s with EmptyString => false | String _ _ => true end.

(** [s.startswith(p)]. *)
Definition startswith (s p : string) : bool := String.prefix p s.

(** [needle in hay]. *)
Fixpoint contains (needle hay : string) : bool :=
  String.prefix needle hay ||
  match hay with
  | EmptyString => false
  | String _ rest => contains needle rest
  end.

(** [s.count(c)] for a one-character [c]. *)
Fixpoint count_char (c : ascii) (s : string) : nat :=
  match s with
  | EmptyString => 0%nat
  | String a rest =>
      ((if Ascii.eqb a c then 1 else 0) + count_char c rest)%nat
  end.

(** [s.lstrip(c)] for a one-character set. *)
Fixpoint lstrip_char (c : ascii) (s : string) : string :=
  match s with
  | EmptyString => EmptyString
  | String a rest => if Ascii.eqb a c then lstrip_char c rest else s
  end.

(** [s.split(c)] with an explicit one-character separator: every
    occurrence separates, and the result is never empty. *)
Fixpoint split_on (c : ascii) (s : string) : list string :=
  match s with
  | EmptyString => [EmptyString]
  | String a rest =>
      if Ascii.eqb a c then EmptyString :: split_on c rest
      else match split_on c rest with
           | [] => [String a EmptyString]
           | w :: ws => String a w :: ws
           end
  end.

(** [sep.join(l)]. *)
Definition join (sep : string) (l : list string) : string :=
  String.concat sep l.

(** [str.isspace] on one code point below 256. *)
Definition isspace (a : ascii) : bool :=
  let n := nat_of_ascii a in
  (((9 <=? n) && (n <=? 13)) || ((28 <=? n) && (n <=? 32))
   || (n =? 133) || (n =? 160))%nat.

Fixpoint lstrip (s : string) : string :=
  match s with
  | EmptyString => EmptyString
  | String a rest => if isspace a then lstrip rest else s
  end.

Fixpoint rstrip (s : string) : string :=
  match s with
  | EmptyString => EmptyString
  | String a rest =>
      match rstrip rest with
      | EmptyString => if isspace a then EmptyString else String a EmptyString
      | r => String a r
      end
  end.

(** [s.strip()]. *)
Definition strip (s : string) : string := rstrip (lstrip s).

(** [s.split()]: the maximal runs of non-space characters.  [cur] is
    the run being read, reversed. *)
Fixpoint split_ws_aux (cur : list ascii) (s : string) : list string :=
  let flush := match cur with
               | [] => []
               | _ => [string_of_list_ascii (rev cur)]
               end in
  match s with
  | EmptyString => flush
  | String a rest =>
      if isspace a then flush ++ split_ws_aux [] rest
      else split_ws_aux (a :: cur) rest
  end.

Definition split_ws (s : string) : list string := split_ws_aux [] s.

(** [str.lower] on one code point below 256: A-Z and the upper-case
    letters of U+00C0..U+00DE except the multiplication sign. *)
Definition lower_char (a : ascii) : ascii :=
  let n := nat_of_ascii a in
  if (((65 <=? n) && (n <=? 90))
      || ((192 <=? n) && (n <=? 222) && negb (n =? 215)))%nat
  then ascii_of_nat (n + 32) else a.

Fixpoint lower (s : string) : string :=
  match s with
  | EmptyString => EmptyString
  | String a rest => String (lower_char a) (lower rest)
  end.

Definition is_digit (a : ascii) : bool :=
  let n := nat_of_ascii a in ((48 <=? n) && (n <=? 57))%nat.

(** The number a string of decimal digits denotes. *)
Fixpoint int_of_digits_aux (acc : N) (s : string) : N :=
  match s with
  | EmptyString => acc
  | String a rest =>
      int_of_digits_aux (acc * 10 + (N.of_nat (nat_of_ascii a) - 48))%N rest
  end.

(** [sys.get_int_max_str_digits()], at its default. *)
Definition int_max_str_digits : nat := 4300.

(** [int(s)] for a string of decimal digits: [ValueError] when the
    string, leading zeros included, has more digits than the
    interpreter converts. *)
Definition int_of_digits (s : string) : outcome N :=
  if (int_max_str_digits <? String.length s)%nat then Raises ValueError
  else Returns (int_of_digits_aux 0%N s).

(** [str(n)] for a natural number. *)
Definition str_of_N (n : N) : string :=
  DecimalString.NilZero.string_of_uint (N.to_uint n).

(** [x in l] for a list of strings. *)
Definition mem (x : string) (l : list string) : bool :=
  existsb (String.eqb x) l.

End PyStr.

(** Attribute dictionaries: keys in insertion order. *)
Definition attrs := list (string * string).

(** [d.get(k)]. *)
Fixpoint attrs_get (k : string) (d : attrs) : option string :=
  match d with
  | [] => None
  | (k', v) :: rest => if String.eqb k k' then Some v else attrs_get k rest
  end.

(** [k in d]. *)
Definition attrs_has (k : string) (d : attrs) : bool :=
  match attrs_get k d with Some _ => true | None => false end.

(** [d.get(k)] as a truth value and its content: present and non-empty. *)
Definition attrs_get_truthy (k : string) (d : attrs) : option string :=
  match attrs_get k d with
  | Some v => if PyStr.truthy v then Some v else None
  | None => None
  end.

(** ** Python list primitives *)

Module PyList.

Section Sorting.
Context {A : Type} (key : A -> Z).

(** [x] goes before the first element whose key is not smaller, so
    that equal keys keep their order of arrival. *)
Fixpoint insert (x : A) (l : list A) : list A :=
  match l with
  | [] => [x]
  | y :: rest =>
      if (key x <=? key y)%Z then x :: y :: rest
      else y :: insert x rest
  end.

(** [sorted(l, key=key)] and [l.sort(key=key)]: a stable sort. *)
Fixpoint sorted (l : list A) : list A :=
  match l with
  | [] => []
  | x :: rest => insert x (sorted rest)
  end.
End Sorting.

(** [l[:k]], for a [k] of either sign. *)
Definition prefix {A : Type} (k : Z) (l : list A) : list A :=
  if (0 <=? k)%Z then firstn (Z.to_nat k) l
  else firstn (Z.to_nat (Z.of_nat (List.length l) + k)) l.

End PyList.

(* ================================================================== *)
(** * Python floats *)
(* ================================================================== *)

(** A finite [float] is the rational number the binary64 value
    denotes; [fl] is the rounding every float operation ends with. *)
Module PyFloat.
Local Open Scope Z_scope.

(** [n / d] rounded to the nearest integer, ties to the even one, for
    an [n] that is not negative. *)
Definition round_half_even (n : Z) (d : positive) : Z :=
  let q := n / Zpos d in
  let r := n mod Zpos d in
  match 2 * r ?= Zpos d with
  | Lt => q
  | Gt => q + 1
  | Eq => if Z.even q then q else q + 1
  end.

(** The exponent [k] with [2^k <= n / d < 2^(k+1)], for a positive
    [n]. *)
Definition binade (n : Z) (d : positive) : Z :=
  let k := Z.log2 n - Z.log2 (Zpos d) in
  if (if 0 <=? k then Zpos d * 2 ^ k <=? n else Zpos d <=? n * 2 ^ (- k))
  then k else k - 1.

(** The double nearest to [q], ties to the even significand: 53
    significant bits, the last of weight [2^e] with [e] not below
    -1074.  The numbers rounded in this development lie between 0 and
    1, so the overflow to infinity is not represented. *)
Definition fl (q : Q) : Q :=
  let n := Qnum q in
  let d := Qden q in
  if n =? 0 then 0%Q
  else
    let m := Z.abs n in
    let e := Z.max (binade m d - 52) (-1074) in
    if 0 <=? e
    then inject_Z (Z.sgn n * round_half_even m (d * Z.to_pos (2 ^ e)) * 2 ^ e)
    else Qmake (Z.sgn n * round_half_even (m * 2 ^ (- e)) d)
               (Z.to_pos (2 ^ (- e))).

End PyFloat.

(* ================================================================== *)
(** * xpath_optimizer.py *)
(* ================================================================== *)

Module xpath_optimizer.
Import PyStr.

(** [escape_xpath_string]: the pieces of the [concat(...)] expression
    built from the parts between single quotes. *)
Fixpoint concat_parts (parts : list string) : list string :=
  match parts with
  | [] => []
  | part :: rest =>
      ((if truthy part then [dq ^ part ^ dq] else [])
       ++ (match rest with [] => [] | _ :: _ => [dq ^ sq ^ dq] end)
       ++ concat_parts rest)
  end.

Definition escape_xpath_string (value : string) : string :=
  if negb (truthy value) then sq ^ sq
  else if negb (contains sq value) then sq ^ value ^ sq
  else if negb (contains dq value) then dq ^ value ^ dq
  else "concat(" ^ join ", " (concat_parts (split_on sq_char value)) ^ ")".

(** The descriptor handed to the optimizer: a dict with the keys
    [tag], [text] and [attributes]. *)
Record element_info := mkInfo {
  ei_tag : string;
  ei_text : string;
  ei_attributes : attrs
}.

(** One parsed segment: the dict [{'tag', 'index', 'original'}]. *)
Record part := mkPart {
  tag : string;
  index : option N;
  original : string
}.

(** [bool(part['index'])]: present and not zero. *)
Definition index_truthy (i : option N) : option N :=
  match i with
  | Some n => if N.eqb n 0 then None else Some n
  | None => None
  end.

(** The character class [[a-zA-Z0-9_-]]. *)
Definition is_tag_char (a : ascii) : bool :=
  let n := nat_of_ascii a in
  (((97 <=? n) && (n <=? 122)) || ((65 <=? n) && (n <=? 90))
   || ((48 <=? n) && (n <=? 57)) || (n =? 95) || (n =? 45))%nat.

(** The longest prefix whose characters satisfy [p], and the rest. *)
Fixpoint span (p : ascii -> bool) (s : string) : string * string :=
  match s with
  | EmptyString => (EmptyString, EmptyString)
  | String a rest =>
      if p a then let (t, r) := span p rest in (String a t, r)
      else (EmptyString, s)
  end.

(** A whole string against [([a-zA-Z0-9_-]+)(?:\[(\d+)\])?]: groups 1
    and 2. *)
Definition match_body (s : string) : option (string * option string) :=
  let (t, r) := span is_tag_char s in
  if negb (truthy t) then None
  else match r with
       | EmptyString => Some (t, None)
       | String a r' =>
           if Ascii.eqb a "["%char then
             let (d, r'') := span is_digit r' in
             if truthy d && String.eqb r'' "]"
             then Some (t, Some d)
             else None
           else None
       end.

(** [s] without its last character when that is a newline. *)
Fixpoint chop_newline (s : string) : option string :=
  match s with
  | EmptyString => None
  | String a EmptyString =>
      if Ascii.eqb a nl_char then Some EmptyString else None
  | String a rest =>
      match chop_newline rest with
      | Some r => Some (String a r)
      | None => None
      end
  end.

(** [re.match(r'^([a-zA-Z0-9_-]+)(?:\[(\d+)\])?$', segment)]: groups 1
    and 2.  [$] also matches just before a newline that ends the
    string. *)
Definition match_segment (segment : string)
  : option (string * option string) :=
  match match_body segment with
  | Some m => Some m
  | None =>
      match chop_newline segment with
      | Some body => match_body body
      | None => None
      end
  end.

(** [int(match.group(2)) if match.group(2) else None]. *)
Definition index_of_group (group2 : option string) : outcome (option N) :=
  match group2 with
  | Some digits =>
      if truthy digits then
        match int_of_digits digits with
        | Returns n => Returns (Some n)
        | Raises e => Raises e
        end
      else Returns None
  | None => Returns None
  end.

(** The loop of [_parse_xpath] over the segments: the first index
    that [int] refuses ends it with the exception. *)
Fixpoint parse_segments (segments : list string) : outcome (list part) :=
  match segments with
  | [] => Returns []
  | segment :: rest =>
      match match_segment segment with
      | Some (t, group2) =>
          match index_of_group group2 with
          | Returns i =>
              match parse_segments rest with
              | Returns parts => Returns (mkPart t i segment :: parts)
              | Raises e => Raises e
              end
          | Raises e => Raises e
          end
      | None => parse_segments rest
      end
  end.

Definition _parse_xpath (xpath : string) : outcome (list part) :=
  let xpath := lstrip_char "/"%char xpath in
  let segments := split_on "/"%char xpath in
  parse_segments segments.

(** The loop over [attrs.items()] emitting one path per non-empty
    [data-*] attribute. *)
Fixpoint data_attr_xpaths (t : string) (items : attrs) : list string :=
  match items with
  | [] => []
  | (attr_name, attr_value) :: rest =>
      ((if startswith attr_name "data-" && truthy attr_value
        then ["//" ^ t ^ "[@" ^ attr_name ^ "="
                   ^ escape_xpath_string attr_value ^ "]"]
        else [])
       ++ data_attr_xpaths t rest)
  end.

(** The loop over the class tokens: the first one that is not
    auto-generated, then [break]. *)
Fixpoint first_class_xpath (t : string) (classes : list string)
  : list string :=
  match classes with
  | [] => []
  | cls :: rest =>
      if truthy cls && negb (startswith cls "css-")
      then ["//" ^ t ^ "[contains(@class, "
                 ^ escape_xpath_string cls ^ ")]"]
      else first_class_xpath t rest
  end.

Definition _generate_attribute_based_xpaths
    (info : element_info) (parts : list part) : list string :=
  let t := lower (ei_tag info) in
  let attrs := ei_attributes info in
  let text := strip (ei_text info) in
  let by_attr k := match attrs_get_truthy k attrs with
              | Some v => ["//" ^ t ^ "[@" ^ k ^ "="
                                ^ escape_xpath_string v ^ "]"]
              | None => []
              end in
  (by_attr "id"
  ++ by_attr "name"
  ++ data_attr_xpaths t attrs
  ++ by_attr "aria-label"
  ++ by_attr "aria-labelledby"
  ++ (match attrs_get_truthy "role" attrs with
      | Some r =>
          if truthy text
          then [("//" ^ t ^ "[@role=" ^ escape_xpath_string r
                      ^ " and contains(text(), "
                      ^ escape_xpath_string text ^ ")]")]
          else [("//" ^ t ^ "[@role=" ^ escape_xpath_string r
                      ^ "]")]
      | None => []
      end)
  ++ (match attrs_get_truthy "class" attrs with
      | Some c => first_class_xpath t (split_ws c)
      | None => []
      end)
  ++ (if truthy text
      then ("//" ^ t ^ "[text()=" ^ escape_xpath_string text
                 ^ "]")
           :: (if (3 <? String.length text)%nat
               then [("//" ^ t ^ "[contains(text(), "
                           ^ escape_xpath_string text ^ ")]")]
               else [])
      else [])).

(** The body of the loop of [_build_relative_path]; [first] tells that
    [path_segments] is still empty. *)
Fixpoint relative_segments (first : bool) (parts : list part)
  : list string :=
  match parts with
  | [] => []
  | p :: rest =>
      ((if first then "//" else "/") ^ tag p
       ^ match index_truthy (index p) with
          | Some n => "[" ^ str_of_N n ^ "]"
          | None => ""
          end)
      :: relative_segments false rest
  end.

Definition _build_relative_path (parts : list part) : string :=
  join "" (relative_segments true (tl parts)).

Definition anchor_tags : list string :=
  ["table"; "form"; "nav"; "header"; "footer"; "section"; "article";
   "aside"; "main"].

(** First loop of [_generate_anchored_xpaths], over the suffixes
    [parts[i:]]; [ctx] is [element_info['text']] when it is set. *)
Fixpoint anchored_loop (target_tag : string) (ctx : option string)
    (suffix : list part) : list string :=
  match suffix with
  | [] => []
  | p :: rest =>
      ((if mem (tag p) anchor_tags
       then ("//" ^ tag p ^ _build_relative_path suffix)
            :: match ctx with
               | Some text =>
                   [("//" ^ tag p ^ "//" ^ target_tag
                          ^ "[contains(text(), "
                          ^ escape_xpath_string text ^ ")]")]
               | None => []
               end
       else [])
      ++ anchored_loop target_tag ctx rest)
  end.

(** [next((p['index'] for p in ps if p['tag'] == t and p['index']), None)]. *)
Fixpoint first_index (t : string) (ps : list part) : option N :=
  match ps with
  | [] => None
  | p :: rest =>
      match (if String.eqb (tag p) t then index_truthy (index p) else None)
      with
      | Some n => Some n
      | None => first_index t rest
      end
  end.

(** Second loop, [for i in range(len(parts) - 2)], again over the
    suffixes [parts[i:]]: those with at least three segments. *)
Fixpoint table_cell_loop (target_tag : string) (suffix : list part)
  : list string :=
  match suffix with
  | [] => []
  | p :: rest =>
      ((if (3 <=? List.length suffix)%nat
          && String.eqb (tag p) "table"
          && existsb (fun q => String.eqb (tag q) "tr") suffix
          && existsb (fun q => String.eqb (tag q) "td") suffix
       then match first_index "tr" suffix, first_index "td" suffix with
            | Some tr_idx, Some td_idx =>
                let cell := "//table//tr[" ^ str_of_N tr_idx ^ "]/td["
                              ^ str_of_N td_idx ^ "]" in
                [cell ^ "//" ^ target_tag; cell ^ "/" ^ target_tag]
            | _, _ => []
            end
       else [])
      ++ table_cell_loop target_tag rest)
  end.

Definition last_tag (parts : list part) : string :=
  last (map tag parts) "*".

Definition _generate_anchored_xpaths
    (parts : list part) (info : option element_info) : list string :=
  let ctx := match info with
             | Some e => if truthy (ei_text e) then Some (ei_text e) else None
             | None => None
             end in
  (anchored_loop (last_tag parts) ctx parts
   ++ (if (3 <=? List.length parts)%nat
       then table_cell_loop (last_tag parts) parts
       else [])).

Definition _generate_positional_xpaths
    (parts : list part) (info : option element_info) : list string :=
  match parts with
  | [] => []
  | _ :: _ =>
      let has_table := existsb (fun p => String.eqb (tag p) "table") parts in
      match info with
      | Some _ =>
          if has_table then ["(//table//" ^ last_tag parts ^ ")[1]"]
          else []
      | None => []
      end
  end.

Definition stable_tags : list string :=
  ["html"; "body"; "table"; "form"; "nav"; "header"; "footer"; "main"].

(** The loop that leaves in [last_stable_idx] the last position whose
    tag is stable; [i] is the position of the head of [ps]. *)
Fixpoint last_stable (i acc : nat) (ps : list part) : nat :=
  match ps with
  | [] => acc
  | p :: rest =>
      last_stable (S i) (if mem (tag p) stable_tags then i else acc) rest
  end.

Definition _shorten_absolute_xpath (parts : list part) : option string :=
  let n := List.length parts in
  if (n <=? 4)%nat then None
  else
    let last_stable_idx := last_stable 0 0 parts in
    if (last_stable_idx <? n - 3)%nat then
      let keep_from := Nat.max last_stable_idx (n - 3) in
      Some ("/" ^ join "/" (map original (skipn keep_from parts)))
    else None.

(** Everything [optimize_xpath] has put in [alternatives] before the
    duplicates are removed, from the [parts] it has parsed. *)
Definition candidates (absolute_xpath : string)
    (info : option element_info) (parts : list part) : list string :=
  ((match info with
   | Some e => _generate_attribute_based_xpaths e parts
   | None => []
   end)
  ++ _generate_anchored_xpaths parts info
  ++ _generate_positional_xpaths parts info
  ++ (match _shorten_absolute_xpath parts with
      | Some shortened =>
          if truthy shortened && negb (String.eqb shortened absolute_xpath)
          then [shortened] else []
      | None => []
      end)).

(** The loop that removes duplicates and the absolute path, keeping
    the first occurrence; [seen] is the set of paths already kept. *)
Fixpoint unique (seen : list string) (absolute_xpath : string)
    (alternatives : list string) : list string :=
  match alternatives with
  | [] => []
  | xpath :: rest =>
      if negb (mem xpath seen) && negb (String.eqb xpath absolute_xpath)
      then xpath :: unique (xpath :: seen) absolute_xpath rest
      else unique seen absolute_xpath rest
  end.

(** The path is parsed first, whatever [max_alternatives] is, and an
    exception of the parser leaves the call. *)
Definition optimize_xpath (absolute_xpath : string)
    (info : option element_info) (max_alternatives : Z)
  : outcome (list string) :=
  match _parse_xpath absolute_xpath with
  | Raises e => Raises e
  | Returns parts =>
      let unique_alternatives :=
        unique [] absolute_xpath (candidates absolute_xpath info parts) in
      Returns
        (if (max_alternatives <=? 1)%Z then [absolute_xpath]
         else (firstn (Z.to_nat (max_alternatives - 1)) unique_alternatives
               ++ [absolute_xpath]))
  end.

End xpath_optimizer.

(* ================================================================== *)
(** * selector_generator.py *)
(* ================================================================== *)

Module selector_generator.
Import PyStr.

(** Values stored in a strategy's [metadata]; a float is the rational
    it denotes, and the literal [0.8] is [PyFloat.fl (8 # 10)]. *)
Inductive meta_value :=
| MStr (s : string)
| MNum (q : Q)
| MInt (z : Z)
| MBool (b : bool).

Definition metadata_t := list (string * meta_value).

(** The dataclass [SelectorStrategy]. *)
Record SelectorStrategy := mkStrategy {
  type : string;
  value : string;
  priority : Z;
  metadata : metadata_t
}.

(** The fields [__init__] stores.  [max_total_strategies] is [None]
    when the caller asks for no limit. *)
Record SelectorGenerator := mkGenerator {
  enable_xpath_optimization : bool;
  max_xpath_alternatives : Z;
  max_total_strategies : option Z
}.

(** The captured element: the dict [element_data]. *)
Record element_data := mkElement {
  tag_name : string;
  text : string;
  attributes : attrs;
  xpath : option string
}.

Definition role_map : attrs :=
  [("button", "button"); ("a", "link"); ("input", "textbox");
   ("textarea", "textbox"); ("select", "combobox");
   ("h1", "heading"); ("h2", "heading"); ("h3", "heading");
   ("h4", "heading"); ("h5", "heading"); ("h6", "heading");
   ("img", "img"); ("table", "table"); ("ul", "list"); ("ol", "list");
   ("nav", "navigation")].

Definition _infer_role (tag : string) (attrs : attrs) : option string :=
  match attrs_get "role" attrs with
  | Some r => Some r
  | None =>
      let special :=
        if String.eqb tag "input" then
          match attrs_get "type" attrs with
          | Some ty =>
              let input_type := lower ty in
              if String.eqb input_type "checkbox" then Some "checkbox"
              else if String.eqb input_type "radio" then Some "radio"
              else if String.eqb input_type "submit" then Some "button"
              else None
          | None => None
          end
        else None in
      match special with
      | Some r => Some r
      | None => attrs_get tag role_map
      end
  end.

Definition _escape_xpath_value (value : string) : string :=
  if contains sq value then
    if contains dq value then
      "concat('" ^ join (sq ^ ", " ^ dq ^ sq ^ dq ^ ", " ^ sq)
                        (split_on sq_char value) ^ "')"
    else dq ^ value ^ dq
  else sq ^ value ^ sq.

(** The loop of [_generate_xpath] over [attrs.items()]: the first
    [data-*] attribute with a non-empty value, then [break]. *)
Fixpoint first_data_condition (items : attrs) : list string :=
  match items with
  | [] => []
  | (k, v) :: rest =>
      if startswith k "data-" && truthy v
      then ["@" ^ k ^ "=" ^ _escape_xpath_value v]
      else first_data_condition rest
  end.

Definition _generate_xpath (tag text : string) (attrs : attrs)
  : option string :=
  let head := if truthy tag then "//" ^ tag else "//*" in
  let conditions :=
    match attrs_get_truthy "id" attrs with
    | Some v => ["@id=" ^ _escape_xpath_value v]
    | None =>
    match attrs_get_truthy "name" attrs with
    | Some v => ["@name=" ^ _escape_xpath_value v]
    | None =>
    if existsb (fun kv => startswith (fst kv) "data-") attrs
    then first_data_condition attrs
    else
    match attrs_get_truthy "aria-label" attrs with
    | Some v => ["@aria-label=" ^ _escape_xpath_value v]
    | None =>
    match attrs_get_truthy "placeholder" attrs with
    | Some v => ["@placeholder=" ^ _escape_xpath_value v]
    | None =>
    if truthy text
    then ["contains(text(), " ^ _escape_xpath_value text ^ ")"]
    else []
    end end end end in
  match conditions with
  | [] => None
  | _ :: _ => Some (head ^ "[" ^ join " and " conditions ^ "]")
  end.

Definition _calculate_xpath_priority (xpath : string) (is_absolute : bool)
  : Z :=
  let has s := contains s xpath in
  if is_absolute || startswith xpath "/html/body" then 10
  else if has "@id=" || has "@id =" then 2
  else if has "@name=" || has "@name =" then 2
  else if has "@data-" then 2
  else if has "@aria-label=" || has "@aria-labelledby=" || has "@role="
       then 3
  else if has "//table//" && (has "tr[" || has "td[") then 4
  else if has "//form//" then 4
  else if (has "//table//" || has "//form//" || has "//nav//")
          && has "text()" then 5
  else if has "@class=" || has "contains(@class" then 6
  else if has "text()" || has "contains(text()" then 7
  else if has "[" && has "]" && (1 <? count_char "["%char xpath)%nat then 8
  else 5.

Definition _determine_xpath_strategy (xpath : string) : string :=
  let has s := contains s xpath in
  if startswith xpath "/html/body" then "absolute-fallback"
  else if has "@id=" || has "@id =" then "id-based"
  else if has "@name=" || has "@name =" then "name-based"
  else if has "@data-" then "data-attribute"
  else if has "@aria-label=" || has "@aria-labelledby=" then "aria-based"
  else if has "@role=" then "role-based"
  else if has "//table//" && (has "tr[" || has "td[") then "table-anchored"
  else if has "//form//" then "form-anchored"
  else if has "//nav//" then "nav-anchored"
  else if has "text()=" then "text-exact"
  else if has "contains(text()" then "text-contains"
  else if has "@class=" || has "contains(@class" then "class-based"
  else if has "[" && has "]" then "positional"
  else "relative-xpath".

(** The seven semantic strategies, in the order they are appended. *)
Definition semantic_strategies (tag text : string) (attrs : attrs)
  : list SelectorStrategy :=
  let tagged := [("tag", MStr tag)] in
  let by_attr k ty prio :=
    match attrs_get_truthy k attrs with
    | Some v => [mkStrategy ty v prio tagged]
    | None => []
    end in
  (if truthy text then [mkStrategy "text_exact" text 1 tagged] else [])
  ++ (match _infer_role tag attrs with
      | Some role =>
          if truthy role && truthy text
          then [mkStrategy "role_text" text 2
                  [("role", MStr role); ("tag", MStr tag)]]
          else []
      | None => []
      end)
  ++ by_attr "aria-label" "aria_label" 3%Z
  ++ by_attr "placeholder" "placeholder" 4%Z
  ++ by_attr "title" "title" 5%Z
  ++ by_attr "alt" "alt_text" 6%Z
  ++ (if truthy text && (3 <? String.length text)%nat
      then [mkStrategy "text_fuzzy" text 7
              [("threshold", MNum (PyFloat.fl (8 # 10))); ("tag", MStr tag)]]
      else []).

(** The loop over [enumerate(optimized_xpaths)]; [i] is the position
    of the head of [l] and [n] is [len(optimized_xpaths)]. *)
Fixpoint optimized_strategies (tag absolute_xpath : string) (n i : nat)
    (l : list string) : list SelectorStrategy :=
  match l with
  | [] => []
  | opt_xpath :: rest =>
      (if String.eqb opt_xpath absolute_xpath && (i <? n - 1)%nat
       then []
       else [mkStrategy "xpath" opt_xpath
               (_calculate_xpath_priority opt_xpath
                  (String.eqb opt_xpath absolute_xpath))
               [("tag", MStr tag);
                ("strategy", MStr (_determine_xpath_strategy opt_xpath));
                ("optimized", MBool true);
                ("index", MInt (Z.of_nat i))]])
      ++ optimized_strategies tag absolute_xpath n (S i) rest
  end.

(** The single path expression used when no optimization applies. *)
Definition fallback_strategy (tag : string) (x : option string)
  : list SelectorStrategy :=
  match x with
  | Some v =>
      if truthy v
      then [mkStrategy "xpath" v 8
              [("tag", MStr tag); ("fallback", MBool true)]]
      else []
  | None => []
  end.

(** Strategy 8.  The [try] block appends nothing before the call of
    the optimizer returns, so when that call raises, the strategies
    of the [except] branch are all there is. *)
Definition xpath_strategies (self : SelectorGenerator)
    (e : element_data) (tag text : string) : list SelectorStrategy :=
  let attrs := attributes e in
  if enable_xpath_optimization self then
    let absolute_xpath := match xpath e with Some x => x | None => "" end in
    if truthy absolute_xpath then
      let info := xpath_optimizer.mkInfo tag text attrs in
      match xpath_optimizer.optimize_xpath absolute_xpath (Some info)
              (max_xpath_alternatives self) with
      | Returns optimized_xpaths =>
          optimized_strategies tag absolute_xpath
            (List.length optimized_xpaths) 0 optimized_xpaths
      | Raises _ => fallback_strategy tag (_generate_xpath tag text attrs)
      end
    else fallback_strategy tag (_generate_xpath tag text attrs)
  else
    fallback_strategy tag
      (match xpath e with
       | Some x => if truthy x then Some x
                   else _generate_xpath tag text attrs
       | None => _generate_xpath tag text attrs
       end).

(** The cap applied after sorting: [None] and [0] are falsy. *)
Definition limit (cap : option Z) (strategies : list SelectorStrategy)
  : list SelectorStrategy :=
  match cap with
  | Some m =>
      if negb (m =? 0)%Z && (m <? Z.of_nat (List.length strategies))%Z
      then PyList.prefix m strategies
      else strategies
  | None => strategies
  end.

Definition generate_strategies (self : SelectorGenerator)
    (e : element_data) (include_xpath_fallback : bool)
  : list SelectorStrategy :=
  let tag := lower (tag_name e) in
  let text := strip (text e) in
  let attrs := attributes e in
  let strategies :=
    semantic_strategies tag text attrs
    ++ (if include_xpath_fallback
        then xpath_strategies self e tag text
        else []) in
  limit (max_total_strategies self) (PyList.sorted priority strategies).

End selector_generator.

(* ================================================================== *)
(** * difflib.SequenceMatcher, as the locator uses it *)
(* ================================================================== *)

(** [SequenceMatcher(None, a, b).ratio()] of the Python standard
    library, for two strings, with no junk predicate and the default
    [autojunk].  Positions are counted from 0. *)
Module difflib.
Local Open Scope nat_scope.

Section Matcher.
Variables a b : list ascii.

Definition at_ (l : list ascii) (i : nat) : ascii := nth i l Ascii.zero.

(** [__chain_b]: an element that fills more than 1% of a [b] of at
    least 200 elements is purged from [b2j]. *)
Definition popular (c : ascii) : bool :=
  (200 <=? List.length b)
  && (List.length b / 100 + 1 <? count_occ ascii_dec b c).

Fixpoint positions (c : ascii) (j : nat) (l : list ascii) : list nat :=
  match l with
  | [] => []
  | x :: rest =>
      (if Ascii.eqb x c then [j] else []) ++ positions c (S j) rest
  end.

Definition b2j (c : ascii) : list nat :=
  if popular c then [] else positions c 0 b.

(** [j2len.get(j, 0)]. *)
Fixpoint j2len_get (j : nat) (j2len : list (nat * nat)) : nat :=
  match j2len with
  | [] => 0
  | (j', k) :: rest => if j =? j' then k else j2len_get j rest
  end.

(** The inner loop of [find_longest_match] over [b2j[a[i]]]. *)
Fixpoint scan_row (i blo bhi : nat) (j2len : list (nat * nat))
    (js : list nat) (newj2len : list (nat * nat))
    (best : nat * nat * nat) : list (nat * nat) * (nat * nat * nat) :=
  match js with
  | [] => (newj2len, best)
  | j :: rest =>
      if j <? blo then scan_row i blo bhi j2len rest newj2len best
      else if bhi <=? j then (newj2len, best)
      else
        let k := match j with
                 | O => 0
                 | S j' => j2len_get j' j2len
                 end + 1 in
        let '(_, _, bestsize) := best in
        scan_row i blo bhi j2len rest ((j, k) :: newj2len)
          (if bestsize <? k then (i + 1 - k, j + 1 - k, k) else best)
  end.

(** The outer loop, [for i in range(alo, ahi)]; [n] counts the rows
    still to visit. *)
Fixpoint scan_rows (n i blo bhi : nat) (j2len : list (nat * nat))
    (best : nat * nat * nat) : nat * nat * nat :=
  match n with
  | O => best
  | S n' =>
      let '(newj2len, best') :=
        scan_row i blo bhi j2len (b2j (at_ a i)) [] best in
      scan_rows n' (S i) blo bhi newj2len best'
  end.

(** The two loops that grow the block over equal neighbours; with no
    junk predicate the junk set is empty. *)
Fixpoint extend_left (fuel alo blo besti bestj bestsize : nat)
  : nat * nat * nat :=
  match fuel with
  | O => (besti, bestj, bestsize)
  | S fuel' =>
      if (alo <? besti) && (blo <? bestj)
         && Ascii.eqb (at_ a (besti - 1)) (at_ b (bestj - 1))
      then extend_left fuel' alo blo (besti - 1) (bestj - 1) (bestsize + 1)
      else (besti, bestj, bestsize)
  end.

Fixpoint extend_right (fuel ahi bhi besti bestj bestsize : nat)
  : nat * nat * nat :=
  match fuel with
  | O => (besti, bestj, bestsize)
  | S fuel' =>
      if (besti + bestsize <? ahi) && (bestj + bestsize <? bhi)
         && Ascii.eqb (at_ a (besti + bestsize)) (at_ b (bestj + bestsize))
      then extend_right fuel' ahi bhi besti bestj (bestsize + 1)
      else (besti, bestj, bestsize)
  end.

Definition find_longest_match (alo ahi blo bhi : nat) : nat * nat * nat :=
  let '(besti, bestj, bestsize) :=
    scan_rows (ahi - alo) alo blo bhi [] (alo, blo, 0) in
  let '(besti, bestj, bestsize) :=
    extend_left besti alo blo besti bestj bestsize in
  extend_right ahi ahi bhi besti bestj bestsize.

(** The total size of the blocks [get_matching_blocks] collects
    from the window and, recursively, from what lies left and right
    of its longest match.  Sorting the blocks and merging adjacent
    ones does not change the total. *)
Fixpoint matched (fuel alo ahi blo bhi : nat) : nat :=
  match fuel with
  | O => 0
  | S fuel' =>
      let '(i, j, k) := find_longest_match alo ahi blo bhi in
      if k =? 0 then 0
      else k
           + (if (alo <? i) && (blo <? j)
              then matched fuel' alo i blo j else 0)
           + (if (i + k <? ahi) && (j + k <? bhi)
              then matched fuel' (i + k) ahi (j + k) bhi else 0)
  end.

(** [ratio()]: the float [2.0 * matches / length], and [1.0] for two
    empty sequences.  The lengths of strings are below [2^53], so
    [matches] and [length] become floats and [matches] is doubled
    without rounding; the division rounds.  Every non-empty match
    uses up an element of [a], so [length a] levels of recursion are
    enough. *)
Definition ratio : Q :=
  let la := List.length a in
  let lb := List.length b in
  let matches := matched (S la) 0 la 0 lb in
  if la + lb =? 0 then 1%Q
  else PyFloat.fl (Qmake (2 * Z.of_nat matches) (Pos.of_nat (la + lb))).
End Matcher.

Definition string_ratio (a b : string) : Q :=
  ratio (list_ascii_of_string a) (list_ascii_of_string b).

End difflib.

(* ================================================================== *)
(** * element_finder.py *)
(* ================================================================== *)

Module element_finder.
Import PyStr.
Import selector_generator (meta_value(..), metadata_t).

(** A strategy as the locator receives it: a dict whose keys may be
    missing. *)
Record strategy := mkStrategyDict {
  type : option string;
  value : string;
  priority : option Z;
  metadata : metadata_t
}.

(** [SelectorStrategy.to_dict], the producer of these dicts. *)
Definition to_dict (s : selector_generator.SelectorStrategy) : strategy :=
  mkStrategyDict (Some (selector_generator.type s))
                 (selector_generator.value s)
                 (Some (selector_generator.priority s))
                 (selector_generator.metadata s).

(** [s.get('priority', 999)]. *)
Definition priority_of (s : strategy) : Z :=
  match priority s with Some p => p | None => 999%Z end.

(** Modelled from the spec: the audit record [StrategyAttempt] of
    [error_reporter.py], one per strategy tried: kind, value,
    priority, success flag, optional error message, metadata. *)
Record StrategyAttempt := mkAttempt {
  strategy_type : option string;
  strategy_value : string;
  attempt_priority : Z;
  success : bool;
  error_message : option string;
  attempt_metadata : metadata_t
}.

(** A node of the selector map.  A text field that is missing or
    [None] reads as the empty string; [is_visible] is [None] when the
    node does not carry the field. *)
Record node := mkNode {
  text : string;
  role : string;
  tag_name : string;
  aria_label : string;
  placeholder : string;
  title : string;
  alt : string;
  attributes : attrs;
  is_visible : option bool
}.

Definition selector_map_t := list (Z * node).

(** What the page answers to the script of [_find_with_xpath]. *)
Inductive js_result :=
| JsNull
| JsError (message : string)
| JsFound (visible : bool) (tag text : string)
| JsRaises (message : string).

Inductive page_answer :=
| PageOk
| PageNone
| PageRaises (message : string).

(** The browser session, as far as one call observes it:
    [get_selector_map] is [None] when the call raises or returns
    nothing, and [evaluate] answers for the normalized expression the
    script embeds. *)
Record browser_session := mkSession {
  get_current_page : page_answer;
  get_selector_map : option selector_map_t;
  evaluate : string -> js_result
}.

(** What a successful strategy hands back: an index of the selector
    map, or the path expression itself. *)
Inductive located :=
| ElementIndex (index : Z)
| XPathString (xpath : string).

Fixpoint meta_get (k : string) (m : metadata_t) : option meta_value :=
  match m with
  | [] => None
  | (k', v) :: rest => if String.eqb k k' then Some v else meta_get k rest
  end.

(** [ratio >= threshold]: Python compares the double with the
    threshold, a float or an int, by their exact values. *)
Definition _fuzzy_match (target candidate : string) (threshold : Q) : bool :=
  Qle_bool threshold (difflib.string_ratio (lower target) (lower candidate)).

(** [metadata.get('role', '').lower()]; [None] when the stored value
    has no [lower], which raises. *)
Definition expected_role (m : metadata_t) : option string :=
  match meta_get "role" m with
  | None => Some ""
  | Some (MStr s) => Some (lower s)
  | Some _ => None
  end.

(** [metadata.get('threshold', 0.8)]; [None] when the stored value
    does not compare with a number, which raises. *)
Definition threshold_of (m : metadata_t) : option Q :=
  match meta_get "threshold" m with
  | None => Some (PyFloat.fl (8 # 10))
  | Some (MNum q) => Some q
  | Some (MInt z) => Some (inject_Z z)
  | Some (MBool b) => Some (if b then 1%Q else 0%Q)
  | Some (MStr _) => None
  end.

(** An exception inside the body makes the answer [False]. *)
Definition _matches_strategy (n : node) (strategy_type : option string)
    (v : string) (m : metadata_t) : bool :=
  match strategy_type with
  | None => false
  | Some ty =>
      if String.eqb ty "text_exact" then String.eqb (strip (text n)) v
      else if String.eqb ty "role_text" then
        match expected_role m with
        | Some expected =>
            let node_role :=
              lower (if truthy (role n) then role n else tag_name n) in
            String.eqb node_role expected && String.eqb (strip (text n)) v
        | None => false
        end
      else if String.eqb ty "aria_label" then
        String.eqb (strip (aria_label n)) v
      else if String.eqb ty "placeholder" then
        String.eqb (strip (placeholder n)) v
      else if String.eqb ty "title" then String.eqb (strip (title n)) v
      else if String.eqb ty "alt_text" then String.eqb (strip (alt n)) v
      else if String.eqb ty "text_fuzzy" then
        match threshold_of m with
        | Some threshold => _fuzzy_match v (strip (text n)) threshold
        | None => false
        end
      else false
  end.

(** The [text_sources] list that [_validate_element_in_map] builds. *)
Definition text_sources (n : node) : list string :=
  let source s := if truthy s then [strip (lower s)] else [] in
  source (text n) ++ source (aria_label n) ++ source (placeholder n)
  ++ source (title n) ++ source (alt n)
  ++ match attrs_get "name" (attributes n) with
     | Some name => [strip (lower name)]
     | None => []
     end.

(** [found_match]: containment either way with a non-empty source. *)
Definition found_match (n : node) (target_text : string) : bool :=
  let target_lower := strip (lower target_text) in
  existsb (fun source =>
             contains target_lower source || contains source target_lower)
          (filter truthy (text_sources n)).

(** What the validation writes to the log about the target text. *)
Inductive advisory :=
| TargetValidated
| TargetNotFound.

(** [_validate_element_in_map], with the note it logs next to the
    answer it returns. *)
Definition _validate_element_in_map (index : Z) (n : node)
    (target_text : option string) : bool * option advisory :=
  let visible := match is_visible n with Some v => v | None => true end in
  if negb visible then (false, None)
  else
    match target_text with
    | Some t =>
        if truthy t
        then (true, Some (if found_match n t then TargetValidated
                          else TargetNotFound))
        else (true, None)
    | None => (true, None)
    end.

(** The loop of [_find_with_semantic_strategy] over
    [selector_map.items()]. *)
Fixpoint _find_with_semantic_strategy (strategy_type : option string)
    (strategy_value : string) (m : metadata_t) (selector_map : selector_map_t)
    (target_text : option string) : option (Z * node) :=
  match selector_map with
  | [] => None
  | (index, n) :: rest =>
      if _matches_strategy n strategy_type strategy_value m
         && fst (_validate_element_in_map index n target_text)
      then Some (index, n)
      else _find_with_semantic_strategy strategy_type strategy_value m
             rest target_text
  end.

Definition normalize_xpath (xpath : string) : string :=
  if truthy xpath && negb (startswith xpath "/")
     && negb (startswith xpath "(")
  then "/" ^ xpath else xpath.

Definition _find_with_xpath (xpath : string) (session : browser_session)
    (target_text : option string) : option (string * string) :=
  let normalized_xpath := normalize_xpath xpath in
  match evaluate session normalized_xpath with
  | JsFound true _ _ => Some (normalized_xpath, normalized_xpath)
  | JsFound false _ _ => None
  | JsNull => None
  | JsError _ => None
  | JsRaises _ => None
  end.

Definition semantic_types : list string :=
  ["text_exact"; "role_text"; "aria_label"; "placeholder"; "title";
   "alt_text"; "text_fuzzy"].

Definition is_semantic (strategy_type : option string) : bool :=
  match strategy_type with
  | Some ty => mem ty semantic_types
  | None => false
  end.

(** [bool(selector_map)]: retrieved and not empty. *)
Definition usable_map (selector_map : option selector_map_t)
  : option selector_map_t :=
  match selector_map with
  | Some [] => None
  | Some (entry :: rest) => Some (entry :: rest)
  | None => None
  end.

(** The body of the loop for one strategy: what was located, or the
    error message of the failed attempt. *)
Definition try_strategy (session : browser_session)
    (target_text : option string) (s : strategy) : located + string :=
  if match type s with Some ty => String.eqb ty "xpath" | None => false end
  then
    match _find_with_xpath (value s) session target_text with
    | Some (xpath_string, _) => inl (XPathString xpath_string)
    | None => inr "XPath query returned no results"
    end
  else
    match usable_map (get_selector_map session) with
    | Some selector_map =>
        if is_semantic (type s) then
          match _find_with_semantic_strategy (type s) (value s)
                  (metadata s) selector_map target_text with
          | Some (element_index, _) => inl (ElementIndex element_index)
          | None => inr "No matching element found in DOM"
          end
        else
          inr ("Strategy type " ^ dq
               ^ match type s with Some ty => ty | None => "None" end
               ^ dq ^ " not supported")
    | None => inr "Selector map not available for semantic strategy"
    end.

Definition attempt_of (s : strategy) (ok : bool) (msg : option string)
  : StrategyAttempt :=
  mkAttempt (type s) (value s) (priority_of s) ok msg (metadata s).

(** The loop over [sorted_strategies]; [strategy_attempts] is the
    list built so far. *)
Fixpoint attempt_loop (session : browser_session)
    (target_text : option string) (sorted_strategies : list strategy)
    (strategy_attempts : list StrategyAttempt)
  : option (located * strategy) * list StrategyAttempt :=
  match sorted_strategies with
  | [] => (None, strategy_attempts)
  | s :: rest =>
      match try_strategy session target_text s with
      | inl found =>
          (Some (found, s), strategy_attempts ++ [attempt_of s true None])
      | inr error_msg =>
          attempt_loop session target_text rest
            (strategy_attempts ++ [attempt_of s false (Some error_msg)])
      end
  end.

Definition find_element_with_strategies (strategies : list strategy)
    (session : browser_session) (target_text : option string)
  : option (located * strategy) * list StrategyAttempt :=
  match strategies with
  | [] => (None, [])
  | _ :: _ =>
      match get_current_page session with
      | PageOk =>
          attempt_loop session target_text
            (PyList.sorted priority_of strategies) []
      | PageNone => (None, [])
      | PageRaises _ => (None, [])
      end
  end.

End element_finder.

(* ================================================================== *)
(** * Vocabulary of the statements *)
(* ================================================================== *)

(** Ascending order of a key. *)
Definition key_le {A : Type} (key : A -> Z) (x y : A) : Prop :=
  (key x <= key y)%Z.

(** The candidates of the optimizer that survive the removal of
    duplicates. *)
Definition distinct_candidates (absolute_xpath : string)
    (info : option xpath_optimizer.element_info)
    (parts : list xpath_optimizer.part) : list string :=
  xpath_optimizer.unique [] absolute_xpath
    (xpath_optimizer.candidates absolute_xpath info parts).

(** The segments of a path: what lies between its separators, the
    leading ones set aside. *)
Definition segments_of (xpath : string) : list string :=
  PyStr.split_on "/"%char (PyStr.lstrip_char "/"%char xpath).

(** Every character of the string satisfies [p]. *)
Fixpoint all_chars (p : ascii -> bool) (s : string) : bool :=
  match s with
  | EmptyString => true
  | String a rest => p a && all_chars p rest
  end.

Definition not_slash (a : ascii) : bool := negb (Ascii.eqb a "/"%char).

(** The text of a segment: a tag, the bracketed digits when there is
    an index, and possibly a final newline. *)
Definition segment_text (t : string) (digits : option string)
    (newline : bool) : string :=
  t ^ (match digits with Some d => "[" ^ d ^ "]" | None => "" end)
    ^ (if newline then String PyStr.nl_char "" else "").

(** A tag token: letters, digits, [_] and [-], at least one. *)
Definition tag_token (t : string) : Prop :=
  t <> "" /\ all_chars xpath_optimizer.is_tag_char t = true.

(** The digits of a bracketed index, when there is one: at least one
    digit and nothing else. *)
Definition index_digits (digits : option string) : Prop :=
  match digits with
  | Some d => d <> "" /\ all_chars PyStr.is_digit d = true
  | None => True
  end.

(** A well-formed segment: a tag token and an optional bracketed
    index.  A newline that ends the segment is tolerated. *)
Definition well_formed_segment (segment : string) : Prop :=
  exists t digits newline,
    tag_token t /\ index_digits digits
    /\ segment = segment_text t digits newline.

(** The number a string of decimal digits denotes. *)
Definition digits_value (d : string) : N := PyStr.int_of_digits_aux 0%N d.

(** The parts that keep, in order, the well-formed segments of a list
    and skip the other ones: each part holds the tag token, the index
    its digits denote and the text of the segment. *)
Inductive keeps_well_formed
  : list string -> list xpath_optimizer.part -> Prop :=
| keeps_nil : keeps_well_formed [] []
| keeps_segment t digits newline segments parts :
    tag_token t -> index_digits digits ->
    keeps_well_formed segments parts ->
    keeps_well_formed
      (segment_text t digits newline :: segments)
      (xpath_optimizer.mkPart t (option_map digits_value digits)
         (segment_text t digits newline) :: parts)
| skips_segment segment segments parts :
    ~ well_formed_segment segment ->
    keeps_well_formed segments parts ->
    keeps_well_formed (segment :: segments) parts.

(** A path none of whose well-formed segments has an index of more
    digits than [int] converts. *)
Definition index_digits_within_limit (xpath : string) : Prop :=
  forall t d newline,
    In (segment_text t (Some d) newline) (segments_of xpath) ->
    tag_token t -> all_chars PyStr.is_digit d = true ->
    (String.length d <= PyStr.int_max_str_digits)%nat.

(** A path whose segments are all short enough for that. *)
Definition short_segments (xpath : string) : bool :=
  forallb (fun segment =>
             (String.length segment <=? PyStr.int_max_str_digits)%nat)
          (segments_of xpath).

(** A path whose last segment has an index of 4301 digits, and a
    [div] captured with that path. *)
Definition long_index : string :=
  string_of_list_ascii (repeat "9"%char 4301).

Definition long_index_xpath : string :=
  "/html/body/div[" ^ long_index ^ "]".

Definition long_index_element : selector_generator.element_data :=
  selector_generator.mkElement "DIV" "Go" [("id", "main")]
    (Some long_index_xpath).

(** The link of the recorded licence table, used by the tests. *)
Definition license_xpath : string :=
  "/html/body/form/div[3]/table/tbody/tr[2]/td[3]/a".

Definition license_info : xpath_optimizer.element_info :=
  xpath_optimizer.mkInfo "a" "License 12345"
    [("class", "license-link"); ("href", "/license/12345")].

(** What identifies a strategy in a list: its kind and its value. *)
Definition strategy_key (s : selector_generator.SelectorStrategy)
  : string * string :=
  (selector_generator.type s, selector_generator.value s).

(** A generator whose total cap, when given, is not negative. *)
Definition nonnegative_cap (self : selector_generator.SelectorGenerator)
  : Prop :=
  match selector_generator.max_total_strategies self with
  | Some m => (0 <= m)%Z
  | None => True
  end.

(** A [span] of which only the text is known. *)
Definition text_only_span : selector_generator.element_data :=
  selector_generator.mkElement "span" " Go " [] None.

(** The same element as the recorder captures it, and the generator
    with the arguments [__init__] takes by default. *)
Definition license_element : selector_generator.element_data :=
  selector_generator.mkElement "A" " License 12345 "
    [("class", "license-link"); ("href", "/license/12345")]
    (Some license_xpath).

Definition default_generator : selector_generator.SelectorGenerator :=
  selector_generator.mkGenerator true 2 (Some 2%Z).

(** A strategy that does not locate anything in this session. *)
Definition fails (session : element_finder.browser_session)
    (target_text : option string) (s : element_finder.strategy) : Prop :=
  exists error_msg,
    element_finder.try_strategy session target_text s = inr error_msg.

(** The record the loop appends for a strategy that failed. *)
Definition failed_attempt (session : element_finder.browser_session)
    (target_text : option string) (s : element_finder.strategy)
  : element_finder.StrategyAttempt :=
  element_finder.attempt_of s false
    (match element_finder.try_strategy session target_text s with
     | inr error_msg => Some error_msg
     | inl _ => None
     end).

(** An audit record that describes the given strategy. *)
Definition records (s : element_finder.strategy)
    (a : element_finder.StrategyAttempt) : Prop :=
  element_finder.strategy_type a = element_finder.type s
  /\ element_finder.strategy_value a = element_finder.value s
  /\ element_finder.attempt_priority a = element_finder.priority_of s
  /\ element_finder.attempt_metadata a = element_finder.metadata s.

(** A node that is not marked invisible. *)
Definition visible (n : element_finder.node) : Prop :=
  element_finder.is_visible n <> Some false.

(** The two strategies of the unsorted-input scenario. *)
Definition aria_label_strategy (v : string)
    (m : selector_generator.metadata_t) : element_finder.strategy :=
  element_finder.mkStrategyDict (Some "aria_label") v (Some 3%Z) m.

Definition text_exact_strategy (v : string)
    (m : selector_generator.metadata_t) : element_finder.strategy :=
  element_finder.mkStrategyDict (Some "text_exact") v (Some 1%Z) m.

(** A page with a visible [Submit] button at index 4 and a hidden one
    at index 2. *)
Definition submit_button (shown : bool) : element_finder.node :=
  element_finder.mkNode " Submit " "" "button" "" "" "" "" []
    (Some shown).

Definition submit_page : element_finder.browser_session :=
  element_finder.mkSession element_finder.PageOk
    (Some [(2%Z, submit_button false); (4%Z, submit_button true)])
    (fun _ => element_finder.JsNull).

(** A session whose page cannot be obtained. *)
Definition no_page : element_finder.browser_session :=
  element_finder.mkSession element_finder.PageNone
    (Some [(4%Z, submit_button true)])
    (fun _ => element_finder.JsFound true "A" "").

(** A block of the matcher that lies in the rows from [alo] up to
    [hi], and a table of run lengths none of which exceeds [r]. *)
Definition block_within (alo hi : nat) (best : nat * nat * nat) : Prop :=
  let '(i, _, k) := best in (alo <= i /\ i + k <= hi)%nat.

Definition lengths_below (r : nat) (j2len : list (nat * nat)) : Prop :=
  forall j k, In (j, k) j2len -> (k <= r)%nat.

(* ================================================================== *)
(** * selector_generator.py: serialization and CSS selectors *)
(* ================================================================== *)

Module selector_strategy.
Import selector_generator.

(** A strategy dict as it is stored: any key may be missing. *)
Record strategy_dict := mkDict {
  d_type : option string;
  d_value : option string;
  d_priority : option Z;
  d_metadata : option metadata_t
}.

(** [SelectorStrategy.to_dict]. *)
Definition to_dict (s : SelectorStrategy) : strategy_dict :=
  mkDict (Some (type s)) (Some (value s)) (Some (priority s))
         (Some (metadata s)).


(** The dict as the locator reads it, every key through [get] with the
    locator's defaults. *)
Definition read (data : strategy_dict) : element_finder.strategy :=
  element_finder.mkStrategyDict (d_type data)
    (match d_value data with Some v => v | None => "" end)
    (d_priority data)
    (match d_metadata data with Some m => m | None => [] end).

(** [SelectorGenerator.generate_strategies_dict]. *)
Definition generate_strategies_dict (self : SelectorGenerator)
    (e : element_data) : list strategy_dict :=
  map to_dict (generate_strategies self e true).

End selector_strategy.

Module css_selector.
Import PyStr.

(** [s.replace(c, by)] for a one-character [c]. *)
Fixpoint replace_char (c : ascii) (by_ : string) (s : string) : string :=
  match s with
  | EmptyString => EmptyString
  | String a rest =>
      if Ascii.eqb a c then by_ ^ replace_char c by_ rest
      else String a (replace_char c by_ rest)
  end.

Definition backslash : string := String (ascii_of_nat 92) EmptyString.

Definition _escape_quotes (value : string) : string :=
  replace_char dq_char (backslash ^ dq)
    (replace_char sq_char (backslash ^ sq) value).

(** The loop of [_generate_css_selector] over [attrs.items()]: the
    first [data-*] attribute with a non-empty value, then [return]. *)
Fixpoint first_data_selector (items : attrs) : option string :=
  match items with
  | [] => None
  | (k, v) :: rest =>
      if startswith k "data-" && truthy v
      then Some ("[" ^ k ^ "=" ^ dq ^ _escape_quotes v ^ dq ^ "]")
      else first_data_selector rest
  end.

Definition _generate_css_selector (tag text : string) (attrs : attrs)
  : option string :=
  let quoted k v := "[" ^ k ^ "=" ^ dq ^ _escape_quotes v ^ dq ^ "]" in
  match attrs_get_truthy "id" attrs with
  | Some v =>
      Some (tag ^ "#" ^ replace_char "."%char (backslash ^ ".")
                          (replace_char ":"%char (backslash ^ ":") v))
  | None =>
  match attrs_get_truthy "name" attrs with
  | Some v => Some (tag ^ quoted "name" v)
  | None =>
  match first_data_selector attrs with
  | Some sel => Some (tag ^ sel)
  | None =>
  match attrs_get_truthy "aria-label" attrs with
  | Some v => Some (tag ^ quoted "aria-label" v)
  | None =>
  match attrs_get_truthy "placeholder" attrs with
  | Some v => Some (tag ^ quoted "placeholder" v)
  | None => None
  end end end end end.

End css_selector.

Module xpath_node_match.
Import PyStr.

(** The node as [_xpath_node_matches] reads it: the node of the
    selector map and its [element_id]. *)
Record dom_node := mkDomNode {
  node : element_finder.node;
  element_id : string
}.

(** The element data returned by the page; a missing key reads as the
    empty string. *)
Record element_data := mkElementData {
  tagName : string;
  text : string;
  id : string;
  ariaLabel : string;
  placeholder : string;
  name : string
}.

(** One comparison: whether it was made, and the points it gave. *)
Definition compare_with (points : nat) (present agree : bool)
  : nat * nat :=
  if present then (if agree then points else 0%nat, 1%nat)
  else (0%nat, 0%nat).

(** The pairs [(matches, checks)] of the six comparisons, in order. *)
Definition comparisons (n : dom_node) (e : element_data)
  : list (nat * nat) :=
  let node_tag := lower (element_finder.tag_name (node n)) in
  let node_text := strip (element_finder.text (node n)) in
  let element_text := strip (text e) in
  [ compare_with 1 (truthy node_tag && truthy (tagName e))
      (String.eqb node_tag (tagName e));
    compare_with 1 (truthy node_text && truthy element_text)
      (String.eqb node_text element_text
       || contains element_text node_text
       || contains node_text element_text);
    compare_with 2 (truthy (element_id n) && truthy (id e))
      (String.eqb (element_id n) (id e));
    compare_with 1
      (truthy (element_finder.aria_label (node n)) && truthy (ariaLabel e))
      (String.eqb (element_finder.aria_label (node n)) (ariaLabel e));
    compare_with 1
      (truthy (element_finder.placeholder (node n))
       && truthy (placeholder e))
      (String.eqb (element_finder.placeholder (node n)) (placeholder e));
    match attrs_get "name" (element_finder.attributes (node n)) with
    | Some v => compare_with 1 (truthy (name e)) (String.eqb v (name e))
    | None => (0%nat, 0%nat)
    end ].

Definition matches (n : dom_node) (e : element_data) : nat :=
  list_sum (map fst (comparisons n e)).

Definition checks (n : dom_node) (e : element_data) : nat :=
  list_sum (map snd (comparisons n e)).

(** [matches >= 2 or (matches > 0 and checks > 0 and
    matches / checks >= 0.7)].  There are at most seven points and
    six comparisons, and on these the test of the quotient, a double,
    against the double 0.7 is the test of the integers. *)
Definition _xpath_node_matches (n : dom_node) (e : element_data) : bool :=
  ((2 <=? matches n e)
   || ((0 <? matches n e) && (0 <? checks n e)
       && (7 * checks n e <=? 10 * matches n e)))%nat.

End xpath_node_match.

(* ================================================================== *)
(** * Further vocabulary *)
(* ================================================================== *)

(** A block of the matcher that lies in the columns from [blo] up to
    [hi], and a table of run lengths whose runs start at [blo] or
    later. *)
Definition block_in_columns (blo hi : nat) (best : nat * nat * nat) : Prop :=
  let '(_, j, k) := best in (blo <= j /\ j + k <= hi)%nat.

Definition runs_in_columns (blo : nat) (j2len : list (nat * nat)) : Prop :=
  forall j k, In (j, k) j2len -> (blo <= j /\ k <= j + 1 - blo)%nat.

(** A quote character that does not occur in the string. *)
Definition free_of (q : string) (s : string) : Prop :=
  PyStr.contains q s = false.

(** The semantic kinds, as a predicate on a generated strategy. *)
Definition is_path_strategy (s : selector_generator.SelectorStrategy) : Prop :=
  selector_generator.type s = "xpath".

(** The attributes from which a semantic strategy can be made. *)
Definition no_semantic_attribute (a : attrs) : Prop :=
  attrs_get_truthy "aria-label" a = None
  /\ attrs_get_truthy "placeholder" a = None
  /\ attrs_get_truthy "title" a = None
  /\ attrs_get_truthy "alt" a = None.

(** The keys of the attributes that are [data-*]. *)
Definition data_items (a : attrs) : attrs :=
  filter (fun kv => PyStr.startswith (fst kv) "data-") a.

(** A button carrying an [id], and a widget whose only [data-*]
    attribute is empty. *)
Definition save_button : selector_generator.element_data :=
  selector_generator.mkElement "button" "Save"
    [("id", "save"); ("title", "Save changes")] None.

Definition empty_data_widget : attrs :=
  [("data-reactid", ""); ("aria-label", "Close"); ("placeholder", "Name")].

(** A part whose tag [_shorten_absolute_xpath] counts as stable. *)
Definition stable_part (p : xpath_optimizer.part) : bool :=
  PyStr.mem (xpath_optimizer.tag p) xpath_optimizer.stable_tags.

(** What the source of each semantic kind must be for a strategy of
    that kind, with that value and that priority, to be generated. *)
Definition semantic_source (tag text : string) (a : attrs)
    (s : selector_generator.SelectorStrategy) : Prop :=
  let ty := selector_generator.type s in
  let v := selector_generator.value s in
  let p := selector_generator.priority s in
  (ty = "text_exact" /\ v = text /\ p = 1%Z /\ text <> "")
  \/ (ty = "role_text" /\ v = text /\ p = 2%Z /\ text <> ""
      /\ exists role, selector_generator._infer_role tag a = Some role
                      /\ role <> "")
  \/ (ty = "aria_label" /\ p = 3%Z
      /\ attrs_get_truthy "aria-label" a = Some v)
  \/ (ty = "placeholder" /\ p = 4%Z
      /\ attrs_get_truthy "placeholder" a = Some v)
  \/ (ty = "title" /\ p = 5%Z /\ attrs_get_truthy "title" a = Some v)
  \/ (ty = "alt_text" /\ p = 6%Z /\ attrs_get_truthy "alt" a = Some v)
  \/ (ty = "text_fuzzy" /\ v = text /\ p = 7%Z
      /\ (3 < String.length text)%nat).

(** What backs a match: for a path expression the page's answer to
    the normalized expression, for a semantic strategy a visible node
    of the selector map that satisfies the strategy. *)
Definition backed_by (session : element_finder.browser_session)
    (s : element_finder.strategy) (found : element_finder.located) : Prop :=
  (element_finder.type s = Some "xpath"
   /\ found = element_finder.XPathString
                (element_finder.normalize_xpath (element_finder.value s))
   /\ exists t x,
        element_finder.evaluate session
          (element_finder.normalize_xpath (element_finder.value s))
        = element_finder.JsFound true t x)
  \/ (element_finder.is_semantic (element_finder.type s) = true
      /\ exists index n selector_map,
           found = element_finder.ElementIndex index
           /\ element_finder.get_selector_map session = Some selector_map
           /\ In (index, n) selector_map
           /\ element_finder._matches_strategy n (element_finder.type s)
                (element_finder.value s) (element_finder.metadata s) = true
           /\ visible n).

(** A strategy that is not a path expression. *)
Definition not_xpath (s : element_finder.strategy) : Prop :=
  element_finder.type s <> Some "xpath".

(* ================================================================== *)
(** * Facts about the list primitives *)
(* ================================================================== *)

Section SortedFacts.
Context {A : Type} (key : A -> Z).

Lemma insert_perm (x : A) (l : list A) :
  Permutation (PyList.insert key x l) (x :: l).
Proof.
  induction l as [|y l IH]; simpl.
  - apply Permutation_refl.
  - destruct (key x <=? key y)%Z.
    + apply Permutation_refl.
    + eapply perm_trans; [apply perm_skip, IH | apply perm_swap].
Qed.

Lemma sorted_perm (l : list A) : Permutation (PyList.sorted key l) l.
Proof.
  induction l as [|x l IH]; simpl.
  - constructor.
  - eapply perm_trans; [apply insert_perm | apply perm_skip, IH].
Qed.

Lemma insert_sorted (x : A) (l : list A) :
  StronglySorted (key_le key) l ->
  StronglySorted (key_le key) (PyList.insert key x l).
Proof.
  induction 1 as [|y l Hl IH Hy]; simpl.
  - repeat constructor.
  - destruct (key x <=? key y)%Z eqn:E.
    + apply Z.leb_le in E.
      constructor; [constructor; assumption|].
      constructor; [exact E|].
      eapply Forall_impl; [|exact Hy].
      unfold key_le; intros; lia.
    + apply Z.leb_gt in E.
      constructor; [exact IH|].
      eapply Permutation_Forall; [apply Permutation_sym, insert_perm|].
      constructor; [unfold key_le; lia | exact Hy].
Qed.

Lemma sorted_sorted (l : list A) :
  StronglySorted (key_le key) (PyList.sorted key l).
Proof.
  induction l; simpl; [constructor | apply insert_sorted; assumption].
Qed.

(** An element that is strictly smaller than all others and comes
    first stays first. *)
Lemma insert_below (x : A) (l : list A) :
  Forall (fun y => (key x <= key y)%Z) l ->
  PyList.insert key x l = x :: l.
Proof.
  destruct 1 as [|y l Hy _]; simpl; [reflexivity|].
  apply Z.leb_le in Hy. now rewrite Hy.
Qed.

Lemma sorted_head (x : A) (l : list A) :
  Forall (fun y => (key x <= key y)%Z) l ->
  PyList.sorted key (x :: l) = x :: PyList.sorted key l.
Proof.
  intros H; simpl. apply insert_below.
  eapply Permutation_Forall; [apply Permutation_sym, sorted_perm | exact H].
Qed.

Lemma sorted_nil_iff (l : list A) : PyList.sorted key l = [] <-> l = [].
Proof.
  split; intros H; [|now subst].
  apply Permutation_nil. rewrite <- H. apply sorted_perm.
Qed.
End SortedFacts.

Lemma NoDup_firstn {A : Type} (n : nat) (l : list A) :
  NoDup l -> NoDup (firstn n l).
Proof.
  intros H. rewrite <- (firstn_skipn n l) in H.
  exact (NoDup_app_remove_r _ _ H).
Qed.

Lemma In_firstn {A : Type} (n : nat) (l : list A) (x : A) :
  In x (firstn n l) -> In x l.
Proof.
  intros H. rewrite <- (firstn_skipn n l). apply in_or_app. now left.
Qed.

Lemma prefix_firstn {A : Type} (k : Z) (l : list A) :
  exists n, PyList.prefix k l = firstn n l.
Proof.
  unfold PyList.prefix. destruct (0 <=? k)%Z; eexists; reflexivity.
Qed.

Lemma StronglySorted_firstn {A : Type} (R : A -> A -> Prop) (n : nat)
    (l : list A) :
  StronglySorted R l -> StronglySorted R (firstn n l).
Proof.
  revert n. induction l as [|x l IH]; intros [|n] H; simpl;
    try constructor.
  - apply IH. now inversion H.
  - inversion H as [|? ? _ Hx]; subst.
    rewrite Forall_forall in *. intros y Hy. apply Hx.
    eapply In_firstn; eassumption.
Qed.

(* ================================================================== *)
(** * Segments and the parser *)
(* ================================================================== *)

Section SegmentFacts.
Import PyStr xpath_optimizer.

Lemma append_nil_r (s : string) : s ^ "" = s.
Proof. induction s; simpl; congruence. Qed.

Lemma append_assoc (s1 s2 s3 : string) : (s1 ^ s2) ^ s3 = s1 ^ s2 ^ s3.
Proof. induction s1; simpl; congruence. Qed.

Lemma length_append (s1 s2 : string) :
  String.length (s1 ^ s2) = (String.length s1 + String.length s2)%nat.
Proof. induction s1; simpl; congruence. Qed.

Lemma all_chars_append (p : ascii -> bool) (s1 s2 : string) :
  all_chars p (s1 ^ s2) = all_chars p s1 && all_chars p s2.
Proof.
  induction s1 as [|a s1 IH]; simpl; [reflexivity|].
  now rewrite IH, andb_assoc.
Qed.

Lemma all_chars_impl (p q : ascii -> bool) (s : string) :
  (forall a, p a = true -> q a = true) ->
  all_chars p s = true -> all_chars q s = true.
Proof.
  intros Hpq. induction s as [|a s IH]; simpl; [reflexivity|].
  intros H. apply andb_prop in H as [Ha Hs].
  now rewrite (Hpq _ Ha), IH.
Qed.

Lemma truthy_nonempty (s : string) : s <> "" -> truthy s = true.
Proof. destruct s; [congruence | reflexivity]. Qed.

(** [span] cuts the string in two: a prefix that satisfies the test
    throughout and a rest that does not start with such a character. *)
Lemma span_spec (p : ascii -> bool) (s : string) :
  s = fst (span p s) ^ snd (span p s)
  /\ all_chars p (fst (span p s)) = true
  /\ match snd (span p s) with
     | EmptyString => True
     | String a _ => p a = false
     end.
Proof.
  induction s as [|a s (IH1 & IH2 & IH3)]; simpl; [auto|].
  destruct (p a) eqn:E.
  - destruct (span p s) as [t r]. simpl in *.
    rewrite E, IH2. repeat split; auto. now f_equal.
  - simpl. auto.
Qed.

(** And there is one such cut. *)
Lemma span_app (p : ascii -> bool) (t r : string) :
  all_chars p t = true ->
  match r with
  | EmptyString => True
  | String a _ => p a = false
  end ->
  span p (t ^ r) = (t, r).
Proof.
  intros Ht Hr. induction t as [|c t IH]; simpl.
  - destruct r as [|a r]; simpl; [reflexivity | now rewrite Hr].
  - simpl in Ht. apply andb_prop in Ht as [Hc Ht].
    now rewrite Hc, (IH Ht).
Qed.

Lemma chop_newline_spec (s body : string) :
  chop_newline s = Some body -> s = body ^ String nl_char "".
Proof.
  revert body. induction s as [|a s IH]; intros body; simpl; [discriminate|].
  destruct s as [|a' s'].
  - destruct (Ascii.eqb_spec a nl_char); [|discriminate].
    intros [= <-]. now subst.
  - destruct (chop_newline (String a' s')) as [r|]; [|discriminate].
    intros [= <-]. simpl. f_equal. now apply IH.
Qed.

Lemma chop_newline_app (body : string) :
  chop_newline (body ^ String nl_char "") = Some body.
Proof.
  induction body as [|a body IH]; [reflexivity|].
  cbn [String.append chop_newline].
  destruct (body ^ String nl_char "") as [|a' rest] eqn:E.
  - destruct body; discriminate.
  - now rewrite IH.
Qed.

(** What the body of the pattern accepts, and what it reads. *)
Lemma match_body_spec (s t : string) (g : option string) :
  match_body s = Some (t, g) ->
  tag_token t /\ index_digits g /\ s = segment_text t g false.
Proof.
  unfold match_body, tag_token, segment_text.
  destruct (span_spec is_tag_char s) as (Hs & Ht & _).
  destruct (span is_tag_char s) as [t0 r]. simpl in Hs, Ht.
  destruct t0 as [|c t0]; simpl; [discriminate|].
  destruct r as [|a r'].
  - intros [= <- <-]. simpl. rewrite append_nil_r in *.
    repeat split; auto; discriminate.
  - destruct (Ascii.eqb_spec a "["%char) as [->|]; [|discriminate].
    destruct (span_spec is_digit r') as (Hr & Hd & _).
    destruct (span is_digit r') as [d r'']. simpl in Hr, Hd.
    destruct d as [|c' d]; simpl; [discriminate|].
    destruct (String.eqb_spec r'' "]") as [->|]; [|discriminate].
    intros [= <- <-]. repeat split; auto; try discriminate.
    rewrite Hs, Hr. simpl. now rewrite !append_nil_r.
Qed.

Lemma match_body_complete (t : string) (g : option string) :
  tag_token t -> index_digits g ->
  match_body (segment_text t g false) = Some (t, g).
Proof.
  intros [Ht Hc] Hg. unfold match_body, segment_text.
  destruct g as [d|].
  - destruct Hg as [Hd Hdc].
    rewrite append_nil_r.
    change ("[" ^ d ^ "]") with (String "["%char (d ^ "]")).
    rewrite (span_app is_tag_char t _ Hc) by reflexivity.
    rewrite (truthy_nonempty _ Ht). cbn [negb].
    change (Ascii.eqb "[" "[") with true. cbv iota.
    rewrite (span_app is_digit d "]" Hdc) by reflexivity.
    now rewrite (truthy_nonempty _ Hd).
  - simpl. rewrite (span_app is_tag_char t "" Hc) by exact I.
    now rewrite (truthy_nonempty _ Ht).
Qed.

(** With the final newline the body alone does not match. *)
Lemma match_body_newline (t : string) (g : option string) :
  tag_token t -> index_digits g ->
  match_body (segment_text t g true) = None.
Proof.
  intros [Ht Hc] Hg. unfold match_body, segment_text.
  destruct g as [d|].
  - destruct Hg as [Hd Hdc].
    change (("[" ^ d ^ "]") ^ String nl_char "")
      with (String "["%char ((d ^ "]") ^ String nl_char "")).
    rewrite append_assoc.
    rewrite (span_app is_tag_char t _ Hc) by reflexivity.
    rewrite (truthy_nonempty _ Ht). cbn [negb].
    change (Ascii.eqb "[" "[") with true. cbv iota.
    rewrite (span_app is_digit d _ Hdc) by reflexivity.
    rewrite (truthy_nonempty _ Hd). reflexivity.
  - simpl. rewrite (span_app is_tag_char t _ Hc) by reflexivity.
    now rewrite (truthy_nonempty _ Ht).
Qed.

Lemma segment_text_newline (t : string) (g : option string) :
  segment_text t g true = segment_text t g false ^ String nl_char "".
Proof.
  unfold segment_text. rewrite !append_assoc. reflexivity.
Qed.

(** What the pattern accepts, and what it reads from it. *)
Lemma match_segment_spec (s t : string) (g : option string) :
  match_segment s = Some (t, g) ->
  tag_token t /\ index_digits g
  /\ exists newline, s = segment_text t g newline.
Proof.
  unfold match_segment.
  destruct (match_body s) as [[t0 g0]|] eqn:E.
  - intros [= -> ->].
    destruct (match_body_spec _ _ _ E) as (Ht & Hg & Hs). eauto.
  - destruct (chop_newline s) as [body|] eqn:Ec; [|discriminate].
    intros Hm. destruct (match_body_spec _ _ _ Hm) as (Ht & Hg & Hs).
    split; [exact Ht|]. split; [exact Hg|]. exists true.
    now rewrite segment_text_newline, <- Hs, (chop_newline_spec _ _ Ec).
Qed.

(** The pattern accepts every well-formed segment, and reads its tag
    and its digits. *)
Lemma match_segment_complete (t : string) (g : option string)
    (newline : bool) :
  tag_token t -> index_digits g ->
  match_segment (segment_text t g newline) = Some (t, g).
Proof.
  intros Ht Hg. unfold match_segment. destruct newline.
  - rewrite (match_body_newline _ _ Ht Hg), segment_text_newline,
      chop_newline_app.
    now apply match_body_complete.
  - now rewrite (match_body_complete _ _ Ht Hg).
Qed.

Lemma match_segment_well_formed (s : string) :
  match_segment s = None -> ~ well_formed_segment s.
Proof.
  intros E (t & g & newline & Ht & Hg & ->).
  now rewrite (match_segment_complete _ _ _ Ht Hg) in E.
Qed.
End SegmentFacts.

Section ParserFacts.
Import PyStr xpath_optimizer.

Lemma split_on_cons (c : ascii) (s : string) :
  exists w ws, split_on c s = w :: ws.
Proof.
  induction s as [|a s (w & ws & IH)]; simpl.
  - eauto.
  - destruct (Ascii.eqb a c); [eauto|]. rewrite IH. eauto.
Qed.

Lemma concat_cons (sep x y : string) (l : list string) :
  String.concat sep (x :: y :: l)
  = x ^ sep ^ String.concat sep (y :: l).
Proof. reflexivity. Qed.

(** Joining what [split] produced gives the string back. *)
Lemma join_split_on (c : ascii) (s : string) :
  join (String c EmptyString) (split_on c s) = s.
Proof.
  unfold join. induction s as [|a s IH]; simpl; [reflexivity|].
  destruct (split_on_cons c s) as (w & ws & E).
  rewrite E in *. destruct (Ascii.eqb_spec a c) as [->|_].
  - rewrite concat_cons, IH. reflexivity.
  - destruct ws as [|y ws].
    + simpl in *. now rewrite IH.
    + rewrite concat_cons in *. rewrite <- IH. reflexivity.
Qed.

(** [int] converts the digits of an index that is short enough. *)
Lemma index_of_group_returns (g : option string) :
  index_digits g ->
  match g with
  | Some d => (String.length d <= int_max_str_digits)%nat
  | None => True
  end ->
  index_of_group g = Returns (option_map digits_value g).
Proof.
  destruct g as [d|]; [|reflexivity]. intros [Hd _] Hlen.
  unfold index_of_group, int_of_digits.
  rewrite (truthy_nonempty _ Hd).
  destruct (Nat.ltb_spec int_max_str_digits (String.length d));
    [lia | reflexivity].
Qed.

(** And refuses the other ones. *)
Lemma index_of_group_raises (d : string) :
  d <> "" ->
  (int_max_str_digits < String.length d)%nat ->
  index_of_group (Some d) = Raises ValueError.
Proof.
  intros Hd Hlen. unfold index_of_group, int_of_digits.
  rewrite (truthy_nonempty _ Hd).
  destruct (Nat.ltb_spec int_max_str_digits (String.length d));
    [reflexivity | lia].
Qed.

(** When every index is short enough the loop returns, and what it
    returns keeps the well-formed segments. *)
Lemma parse_segments_within_limit (segments : list string) :
  (forall t d newline,
      In (segment_text t (Some d) newline) segments ->
      tag_token t -> all_chars is_digit d = true ->
      (String.length d <= int_max_str_digits)%nat) ->
  exists parts,
    parse_segments segments = Returns parts
    /\ keeps_well_formed segments parts.
Proof.
  induction segments as [|segment rest IH]; intros Hlimit.
  - exists []. split; [reflexivity | constructor].
  - destruct IH as (parts & Hparts & Hkeeps).
    { intros t d newline Hin. apply (Hlimit t d newline). now right. }
    cbn [parse_segments].
    destruct (match_segment segment) as [[t g]|] eqn:E.
    + destruct (match_segment_spec _ _ _ E) as (Ht & Hg & newline & ->).
      rewrite (index_of_group_returns g Hg), Hparts.
      * eexists. split; [reflexivity|]. now constructor.
      * destruct g as [d|]; [|exact I].
        apply (Hlimit t d newline); [now left | exact Ht | apply Hg].
    + exists parts. split; [exact Hparts|].
      apply skips_segment; [|exact Hkeeps].
      now apply match_segment_well_formed.
Qed.

(** When the loop returns, no segment it matched has too long an
    index. *)
Lemma parse_segments_returned (segments : list string) (parts : list part) :
  parse_segments segments = Returns parts ->
  forall t d newline,
    In (segment_text t (Some d) newline) segments ->
    tag_token t -> all_chars is_digit d = true ->
    (String.length d <= int_max_str_digits)%nat.
Proof.
  revert parts. induction segments as [|segment rest IH];
    intros parts Hparse t d newline Hin Ht Hd; [destruct Hin|].
  cbn [parse_segments] in Hparse.
  destruct Hin as [->|Hin].
  - destruct (Nat.le_gt_cases (String.length d) int_max_str_digits)
      as [Hle|Hgt]; [exact Hle|].
    assert (Hdig : d <> "") by (intros ->; simpl in Hgt; lia).
    rewrite (match_segment_complete t (Some d) newline Ht (conj Hdig Hd)),
      (index_of_group_raises d Hdig Hgt) in Hparse.
    discriminate.
  - destruct (match_segment segment) as [[t' g']|].
    + destruct (index_of_group g'); [|discriminate].
      destruct (parse_segments rest) as [parts'|] eqn:E; [|discriminate].
      exact (IH parts' eq_refl t d newline Hin Ht Hd).
    + exact (IH parts Hparse t d newline Hin Ht Hd).
Qed.

(** Each part the loop returns is what the pattern reads from the
    part's own text. *)
Lemma parse_segments_parts (segments : list string) (parts : list part) :
  parse_segments segments = Returns parts ->
  Forall (fun p => exists g,
                     match_segment (original p) = Some (tag p, g)
                     /\ index_of_group g = Returns (index p))
         parts.
Proof.
  revert parts. induction segments as [|segment rest IH]; intros parts;
    cbn [parse_segments].
  - intros [= <-]. constructor.
  - destruct (match_segment segment) as [[t g]|] eqn:E; [|apply IH].
    destruct (index_of_group g) as [i|] eqn:Ei; [|discriminate].
    destruct (parse_segments rest) as [parts'|]; [|discriminate].
    intros [= <-]. constructor; [|now apply IH].
    exists g. auto.
Qed.

Lemma keeps_all (segments : list string) (parts : list part) :
  keeps_well_formed segments parts ->
  Forall well_formed_segment segments ->
  map original parts = segments.
Proof.
  induction 1 as [|t g newline segments parts Ht Hg _ IH
                  |segment segments parts Hbad _ IH];
    intros Hall; [reflexivity| |];
    inversion Hall as [|? ? Hhead Htail]; subst.
  - simpl. f_equal. now apply IH.
  - contradiction.
Qed.

Lemma parse_xpath_returns (xpath : string) :
  index_digits_within_limit xpath ->
  exists parts,
    _parse_xpath xpath = Returns parts
    /\ keeps_well_formed (segments_of xpath) parts.
Proof. intros H. exact (parse_segments_within_limit _ H). Qed.

(** A path without long segments has no long index. *)
Lemma short_segments_within_limit (xpath : string) :
  short_segments xpath = true -> index_digits_within_limit xpath.
Proof.
  unfold short_segments. rewrite forallb_forall.
  intros H t d newline Hin _ _. apply H, Nat.leb_le in Hin.
  unfold segment_text in Hin. rewrite !length_append in Hin. lia.
Qed.
End ParserFacts.

(** C2, as the code has it.  For a path none of whose bracketed
    indices has more than 4300 digits, parsing returns, and what it
    returns keeps, in order, exactly the segments of the path (leading
    separators removed, split on the separator) that consist of a tag
    token and an optional bracketed index, each with its tag, the
    number its digits denote and its original text; every other
    segment is skipped.  When no segment is skipped, joining the
    originals with the separator gives the path without its leading
    separators. *)
Theorem parse_xpath_keeps_well_formed_segments :
  forall xpath : string,
    index_digits_within_limit xpath ->
    exists parts,
      xpath_optimizer._parse_xpath xpath = Returns parts
      /\ keeps_well_formed (segments_of xpath) parts
      /\ (Forall well_formed_segment (segments_of xpath) ->
          PyStr.join "/" (map xpath_optimizer.original parts)
          = PyStr.lstrip_char "/"%char xpath).
Proof.
  intros xpath Hlimit.
  destruct (parse_xpath_returns xpath Hlimit) as (parts & Hparse & Hkeeps).
  exists parts. repeat split; auto.
  intros Hall. rewrite (keeps_all _ _ Hkeeps Hall).
  apply join_split_on.
Qed.

Lemma parse_xpath_keeps_well_formed_segments_witness :
  exists parts,
    xpath_optimizer._parse_xpath license_xpath = Returns parts
    /\ keeps_well_formed (segments_of license_xpath) parts
    /\ (Forall well_formed_segment (segments_of license_xpath) ->
        PyStr.join "/" (map xpath_optimizer.original parts)
        = "html/body/form/div[3]/table/tbody/tr[2]/td[3]/a").
Proof.
  apply (parse_xpath_keeps_well_formed_segments license_xpath).
  apply short_segments_within_limit. vm_compute. reflexivity.
Defined.

(** C2, as the specification words it, fails: a segment that carries an
    attribute predicate is skipped, and the leading separator is not
    part of any segment, so the originals do not give the path back,
    with or without a separator put in front. *)
Lemma parse_xpath_rejoin_differs :
  exists parts,
    xpath_optimizer._parse_xpath "/html/body/div[@id='main']/a"
    = Returns parts
    /\ map xpath_optimizer.original parts = ["html"; "body"; "a"]
    /\ PyStr.join "/" (map xpath_optimizer.original parts)
       <> "/html/body/div[@id='main']/a"
    /\ "/" ^ PyStr.join "/" (map xpath_optimizer.original parts)
       <> "/html/body/div[@id='main']/a".
Proof.
  eexists. split; [vm_compute; reflexivity|].
  split; [reflexivity|]. split; vm_compute; discriminate.
Qed.

(* ================================================================== *)
(** * The path optimizer *)
(* ================================================================== *)

Section OptimizerFacts.
Import PyStr xpath_optimizer.

Lemma mem_In (x : string) (l : list string) : mem x l = true <-> In x l.
Proof.
  unfold mem. rewrite existsb_exists. split.
  - intros (y & Hy & E). apply String.eqb_eq in E. now subst.
  - intros H. exists x. split; [exact H | apply String.eqb_refl].
Qed.

(** The duplicate-removing loop keeps neither a path it has seen nor
    the absolute path. *)
Lemma unique_spec (absolute_xpath : string) (alternatives seen : list string) :
  NoDup (unique seen absolute_xpath alternatives)
  /\ forall x, In x (unique seen absolute_xpath alternatives) ->
               x <> absolute_xpath /\ ~ In x seen /\ In x alternatives.
Proof.
  revert seen. induction alternatives as [|y l IH]; intros seen; simpl.
  - split; [constructor | contradiction].
  - destruct (mem y seen) eqn:Hm; simpl.
    + destruct (IH seen) as [Hn Hx]. split; [exact Hn|].
      intros x Hin. destruct (Hx x Hin) as (? & ? & ?). auto.
    + destruct (String.eqb_spec y absolute_xpath) as [->|Hne]; simpl.
      * destruct (IH seen) as [Hn Hx]. split; [exact Hn|].
        intros x Hin. destruct (Hx x Hin) as (? & ? & ?). auto.
      * destruct (IH (y :: seen)) as [Hn Hx]. split.
        -- constructor; [|exact Hn].
           intros Hin. destruct (Hx y Hin) as (_ & Hs & _).
           apply Hs. now left.
        -- intros x [<-|Hin].
           ++ repeat split; auto.
              intros Hs. apply mem_In in Hs. congruence.
           ++ destruct (Hx x Hin) as (? & Hs & ?).
              repeat split; auto. intros ?. apply Hs. now right.
Qed.

(** What the optimizer returns once the parser has returned. *)
Lemma optimize_xpath_parsed (absolute_xpath : string)
    (info : option element_info) (n : Z) (parts : list part) :
  _parse_xpath absolute_xpath = Returns parts ->
  optimize_xpath absolute_xpath info n
  = Returns
      (if (n <=? 1)%Z then [absolute_xpath]
       else firstn (Z.to_nat (n - 1))
              (distinct_candidates absolute_xpath info parts)
            ++ [absolute_xpath]).
Proof. intros H. unfold optimize_xpath. now rewrite H. Qed.

(** An exception of the parser is the outcome of the optimizer. *)
Lemma optimize_xpath_raises (absolute_xpath : string)
    (info : option element_info) (n : Z) (e : exception) :
  _parse_xpath absolute_xpath = Raises e ->
  optimize_xpath absolute_xpath info n = Raises e.
Proof. intros H. unfold optimize_xpath. now rewrite H. Qed.

(** Whatever the optimizer returns ends with the absolute path, and
    what comes before has no repetition and is not that path. *)
Lemma optimize_xpath_result (absolute_xpath : string)
    (info : option element_info) (n : Z) (result : list string) :
  optimize_xpath absolute_xpath info n = Returns result ->
  exists alternatives,
    result = alternatives ++ [absolute_xpath]
    /\ NoDup alternatives
    /\ ~ In absolute_xpath alternatives.
Proof.
  unfold optimize_xpath.
  destruct (_parse_xpath absolute_xpath) as [parts|]; [|discriminate].
  intros [= <-]. destruct (n <=? 1)%Z.
  - exists []. repeat split; [constructor | intros []].
  - eexists. split; [reflexivity|].
    destruct (unique_spec absolute_xpath
                (candidates absolute_xpath info parts) []) as [Hnd Hin].
    split; [now apply NoDup_firstn|].
    intros H. apply In_firstn in H. destruct (Hin _ H) as [Hne _].
    now apply Hne.
Qed.
End OptimizerFacts.

(** C1, at the failing input.  A one-segment path whose descriptor has
    neither text nor attributes yields no candidate: asked for two
    alternatives, the optimizer returns the absolute path alone, one
    entry where its docstring promises exactly two. *)
Theorem optimize_xpath_fewer_than_requested :
  xpath_optimizer.optimize_xpath "/a"
    (Some (xpath_optimizer.mkInfo "a" "" [])) 2
  = Returns ["/a"]
  /\ distinct_candidates "/a" (Some (xpath_optimizer.mkInfo "a" "" []))
       [xpath_optimizer.mkPart "a" None "a"] = [].
Proof. split; vm_compute; reflexivity. Qed.

(** C5, at the failing input.  A path whose last segment has an index
    of 4301 digits makes the parser raise [ValueError]; the optimizer
    parses before it looks at [max_alternatives], so it raises as well,
    also with [max_alternatives = 1], where its docstring promises the
    absolute path alone. *)
Theorem optimize_xpath_cap_one_raises :
  String.length long_index = 4301%nat
  /\ xpath_optimizer._parse_xpath long_index_xpath = Raises ValueError
  /\ forall (info : option xpath_optimizer.element_info) (n : Z),
       xpath_optimizer.optimize_xpath long_index_xpath info n
       = Raises ValueError.
Proof.
  assert (H : xpath_optimizer._parse_xpath long_index_xpath
              = Raises ValueError) by (vm_compute; reflexivity).
  split; [vm_compute; reflexivity|]. split; [exact H|].
  intros info n. now apply optimize_xpath_raises.
Qed.

(* ================================================================== *)
(** * The strategy generator *)
(* ================================================================== *)

Section GeneratorFacts.
Import PyStr selector_generator.

Ltac split_ifs :=
  repeat match goal with
         | |- context [if ?c then _ else _] => destruct c
         end.

(** Every branch of the priority function answers between 2 and 10. *)
Lemma xpath_priority_bounds (x : string) (is_absolute : bool) :
  (2 <= _calculate_xpath_priority x is_absolute <= 10)%Z.
Proof. unfold _calculate_xpath_priority. split_ifs; lia. Qed.

Lemma optimized_priorities (tag absolute_xpath : string) (n : nat)
    (l : list string) (i : nat) :
  Forall (fun s => (2 <= priority s)%Z)
         (optimized_strategies tag absolute_xpath n i l).
Proof.
  revert i. induction l as [|x l IH]; intros i; simpl; [constructor|].
  apply Forall_app. split; [|apply IH].
  destruct (String.eqb x absolute_xpath && (i <? n - 1)%nat); constructor;
    [|constructor].
  simpl. apply xpath_priority_bounds.
Qed.

Lemma fallback_priorities (tag : string) (x : option string) :
  Forall (fun s => (2 <= priority s)%Z) (fallback_strategy tag x).
Proof.
  unfold fallback_strategy. destruct x as [v|]; [|constructor].
  destruct (truthy v); repeat constructor. simpl. lia.
Qed.

Lemma xpath_strategies_priorities (self : SelectorGenerator)
    (e : element_data) (tag text : string) :
  Forall (fun s => (2 <= priority s)%Z) (xpath_strategies self e tag text).
Proof.
  unfold xpath_strategies.
  destruct (enable_xpath_optimization self); [|apply fallback_priorities].
  destruct (truthy _); [|apply fallback_priorities].
  destruct (xpath_optimizer.optimize_xpath _ _ _);
    [apply optimized_priorities | apply fallback_priorities].
Qed.

(** With a text, the list of semantic strategies opens with
    [text_exact] at priority 1 and goes on at priority 2 or more. *)
Lemma semantic_strategies_text (tag text : string) (attrs : attrs) :
  truthy text = true ->
  exists rest,
    semantic_strategies tag text attrs
    = mkStrategy "text_exact" text 1 [("tag", MStr tag)] :: rest
    /\ Forall (fun s => (2 <= priority s)%Z) rest.
Proof.
  intros Ht. unfold semantic_strategies. rewrite Ht.
  eexists. split; [reflexivity|].
  repeat (apply Forall_app; split);
    repeat match goal with
           | |- context [match ?c with _ => _ end] => destruct c
           end;
    repeat constructor; simpl; lia.
Qed.

Lemma limit_keeps_head (cap : option Z) (s : SelectorStrategy)
    (l : list SelectorStrategy) :
  match cap with Some m => (0 <= m)%Z | None => True end ->
  exists rest, limit cap (s :: l) = s :: rest.
Proof.
  unfold limit. destruct cap as [m|]; [|eauto]. intros Hm.
  destruct (Z.eqb_spec m 0) as [->|Hne]; simpl negb; cbn [andb]; [eauto|].
  destruct (m <? _)%Z; [|eauto].
  unfold PyList.prefix. destruct (Z.leb_spec 0 m); [|lia].
  destruct (Z.to_nat m) as [|k] eqn:E; [lia|].
  rewrite firstn_cons. eauto.
Qed.

(** A negative cap is counted from the end of the list, as slices
    are. *)
Remark limit_negative_cap (s : SelectorStrategy) :
  limit (Some (-1)%Z) [s] = [].
Proof. reflexivity. Qed.
End GeneratorFacts.

(** C3, as the code has it.  For a descriptor whose trimmed text is
    not empty, and a generator whose total cap is [None] or not
    negative, the first generated strategy is [text_exact] with
    priority 1 and the trimmed text as value, whether or not path
    expressions are added and whether or not the optimizer raises; the
    priority computed for a path expression is never below 2. *)
Theorem generate_strategies_text_exact_first :
  forall (self : selector_generator.SelectorGenerator)
         (e : selector_generator.element_data)
         (include_xpath_fallback : bool),
    nonnegative_cap self ->
    PyStr.strip (selector_generator.text e) <> "" ->
    (exists first rest,
        selector_generator.generate_strategies self e include_xpath_fallback
        = first :: rest
        /\ selector_generator.type first = "text_exact"
        /\ selector_generator.priority first = 1%Z
        /\ selector_generator.value first
           = PyStr.strip (selector_generator.text e))
    /\ (forall x is_absolute,
           (2 <= selector_generator._calculate_xpath_priority x is_absolute)%Z).
Proof.
  intros self e inc Hcap Htext. split.
  - unfold selector_generator.generate_strategies.
    destruct (semantic_strategies_text
                (PyStr.lower (selector_generator.tag_name e))
                (PyStr.strip (selector_generator.text e))
                (selector_generator.attributes e)
                (truthy_nonempty _ Htext)) as (sem & -> & Hsem).
    rewrite <- app_comm_cons, sorted_head.
    + match goal with
      | |- context [selector_generator.limit ?cap (?s :: ?l)] =>
          destruct (limit_keeps_head cap s l Hcap) as (rest & ->)
      end.
      eexists _, rest. repeat split.
    + apply Forall_app. split.
      * eapply Forall_impl; [|exact Hsem]. simpl. intros; lia.
      * destruct inc; [|constructor].
        eapply Forall_impl; [|apply xpath_strategies_priorities].
        simpl. intros; lia.
  - intros x b. apply xpath_priority_bounds.
Qed.

Lemma generate_strategies_text_exact_first_witness :
  nonnegative_cap default_generator
  /\ PyStr.strip (selector_generator.text license_element) <> ""
  /\ exists first rest,
      selector_generator.generate_strategies default_generator
        license_element true = first :: rest
      /\ selector_generator.type first = "text_exact"
      /\ selector_generator.priority first = 1%Z
      /\ selector_generator.value first = "License 12345".
Proof.
  assert (Hcap : nonnegative_cap default_generator)
    by (unfold nonnegative_cap; simpl; lia).
  assert (Htext : PyStr.strip (selector_generator.text license_element) <> "")
    by (vm_compute; discriminate).
  split; [exact Hcap|]. split; [exact Htext|].
  exact (proj1 (generate_strategies_text_exact_first
                  default_generator license_element true Hcap Htext)).
Defined.

(** C3, as the specification words it, fails: a negative total cap
    is counted from the end of the sorted list, as slices are, and
    with the cap -2 the two strategies of a [span] that has only a
    text are both dropped; with the cap -1 and no path expressions the
    single strategy is. *)
Lemma generate_strategies_negative_cap_empty :
  PyStr.strip (selector_generator.text text_only_span) <> ""
  /\ selector_generator.generate_strategies
       (selector_generator.mkGenerator true 2 (Some (-2)%Z))
       text_only_span true = []
  /\ selector_generator.generate_strategies
       (selector_generator.mkGenerator true 2 (Some (-1)%Z))
       text_only_span false = [].
Proof.
  split; [vm_compute; discriminate|]. split; vm_compute; reflexivity.
Qed.

Section GeneratorKeys.
Import PyStr selector_generator.

Lemma optimize_xpath_NoDup (absolute_xpath : string)
    (info : option xpath_optimizer.element_info) (n : Z)
    (result : list string) :
  xpath_optimizer.optimize_xpath absolute_xpath info n = Returns result ->
  NoDup result.
Proof.
  intros H.
  destruct (optimize_xpath_result _ _ _ _ H) as (l & -> & Hnd & Hin).
  apply NoDup_app; [exact Hnd | repeat constructor; simpl; tauto|].
  intros x Hx [<-|[]]. contradiction.
Qed.

(** The loop over the optimized paths emits at most one strategy per
    path, of kind [xpath], with the path as value. *)
Lemma optimized_values_In (tag absolute_xpath : string) (n : nat)
    (l : list string) (i : nat) (v : string) :
  In v (map value (optimized_strategies tag absolute_xpath n i l)) ->
  In v l.
Proof.
  revert i. induction l as [|x l IH]; intros i; simpl; [tauto|].
  rewrite map_app, in_app_iff. intros [H|H]; [|right; eapply IH, H].
  destruct (String.eqb x absolute_xpath && (i <? n - 1)%nat);
    simpl in H; [tauto|]. left. tauto.
Qed.

Lemma optimized_values_NoDup (tag absolute_xpath : string) (n : nat)
    (l : list string) (i : nat) :
  NoDup l ->
  NoDup (map value (optimized_strategies tag absolute_xpath n i l)).
Proof.
  revert i. induction l as [|x l IH]; intros i Hnd; simpl; [constructor|].
  inversion Hnd as [|? ? Hx Hl]; subst.
  destruct (String.eqb x absolute_xpath && (i <? n - 1)%nat); simpl.
  - apply IH, Hl.
  - constructor; [|apply IH, Hl].
    intros H. apply optimized_values_In in H. contradiction.
Qed.

Lemma optimized_types (tag absolute_xpath : string) (n : nat)
    (l : list string) (i : nat) :
  Forall (fun s => type s = "xpath")
         (optimized_strategies tag absolute_xpath n i l).
Proof.
  revert i. induction l as [|x l IH]; intros i; simpl; [constructor|].
  apply Forall_app. split; [|apply IH].
  destruct (String.eqb x absolute_xpath && (i <? n - 1)%nat);
    repeat constructor.
Qed.

Lemma fallback_shape (tag : string) (x : option string) :
  Forall (fun s => type s = "xpath") (fallback_strategy tag x)
  /\ NoDup (map value (fallback_strategy tag x)).
Proof.
  unfold fallback_strategy. destruct x as [v|]; [destruct (truthy v)|];
    split; repeat constructor; simpl; tauto.
Qed.

Lemma xpath_strategies_shape (self : SelectorGenerator)
    (e : element_data) (tag text : string) :
  Forall (fun s => type s = "xpath") (xpath_strategies self e tag text)
  /\ NoDup (map value (xpath_strategies self e tag text)).
Proof.
  unfold xpath_strategies.
  destruct (enable_xpath_optimization self); [|apply fallback_shape].
  destruct (truthy _); [|apply fallback_shape].
  destruct (xpath_optimizer.optimize_xpath _ _ _) as [optimized|] eqn:E;
    [|apply fallback_shape].
  split; [apply optimized_types|].
  eapply optimized_values_NoDup, optimize_xpath_NoDup, E.
Qed.

(** Each semantic kind is emitted at most once, and none of them is
    [xpath]. *)
Lemma semantic_strategies_shape (tag text : string) (attrs : attrs) :
  NoDup (map type (semantic_strategies tag text attrs))
  /\ Forall (fun s => type s <> "xpath") (semantic_strategies tag text attrs).
Proof.
  unfold semantic_strategies.
  destruct (truthy text); destruct (_infer_role tag attrs) as [r|];
    try destruct (truthy r);
    destruct (attrs_get_truthy "aria-label" attrs);
    destruct (attrs_get_truthy "placeholder" attrs);
    destruct (attrs_get_truthy "title" attrs);
    destruct (attrs_get_truthy "alt" attrs);
    destruct (3 <? String.length text)%nat;
    simpl; split;
    repeat constructor; simpl; intuition discriminate.
Qed.

Lemma NoDup_map_pair {A B C : Type} (f : A -> B) (g : A -> C) (l : list A) :
  NoDup (map f l) \/ NoDup (map g l) ->
  NoDup (map (fun x => (f x, g x)) l).
Proof.
  induction l as [|x l IH]; simpl; [constructor|].
  intros H. constructor.
  - intros Hin. apply in_map_iff in Hin as (y & E & Hy).
    injection E as Ef Eg.
    destruct H as [H|H]; inversion H as [|? ? Hx _]; subst; apply Hx;
      apply in_map_iff; eauto.
  - apply IH. destruct H as [H|H]; inversion H; subst; auto.
Qed.
End GeneratorKeys.

(** C4.  For every generator and every descriptor, no two entries of
    the generated list have the same kind and the same value. *)
Theorem generate_strategies_distinct_keys :
  forall (self : selector_generator.SelectorGenerator)
         (e : selector_generator.element_data)
         (include_xpath_fallback : bool),
    NoDup (map strategy_key
             (selector_generator.generate_strategies self e
                include_xpath_fallback)).
Proof.
  intros self e inc. unfold selector_generator.generate_strategies.
  set (tag := PyStr.lower (selector_generator.tag_name e)).
  set (text := PyStr.strip (selector_generator.text e)).
  set (sem := selector_generator.semantic_strategies tag text
                (selector_generator.attributes e)).
  set (xp := if inc then selector_generator.xpath_strategies self e tag text
             else []).
  assert (Hall : NoDup (map strategy_key (sem ++ xp))).
  { destruct (semantic_strategies_shape tag text
                (selector_generator.attributes e)) as [Hsem Hne].
    assert (Hxp : Forall (fun s => selector_generator.type s = "xpath") xp
                  /\ NoDup (map selector_generator.value xp)).
    { subst xp. destruct inc; [apply xpath_strategies_shape|].
      split; constructor. }
    destruct Hxp as [Hty Hval].
    rewrite map_app. apply NoDup_app.
    - apply (NoDup_map_pair selector_generator.type selector_generator.value).
      now left.
    - apply (NoDup_map_pair selector_generator.type selector_generator.value).
      now right.
    - intros k H1 H2.
      apply in_map_iff in H1 as (s1 & <- & Hs1).
      apply in_map_iff in H2 as (s2 & E & Hs2).
      rewrite Forall_forall in Hne, Hty.
      apply (Hne _ Hs1). injection E as <- _. apply Hty, Hs2. }
  assert (Hsorted : NoDup (map strategy_key
                             (PyList.sorted selector_generator.priority
                                (sem ++ xp)))).
  { eapply Permutation_NoDup; [|exact Hall].
    apply Permutation_map, Permutation_sym, sorted_perm. }
  unfold selector_generator.limit.
  destruct (selector_generator.max_total_strategies self) as [m|];
    [|exact Hsorted].
  destruct (_ && _); [|exact Hsorted].
  destruct (prefix_firstn m
              (PyList.sorted selector_generator.priority (sem ++ xp)))
    as (k & ->).
  rewrite <- firstn_map. apply NoDup_firstn, Hsorted.
Qed.

(* ================================================================== *)
(** * The element locator *)
(* ================================================================== *)

Section LocatorFacts.
Import PyStr element_finder.

Variable session : browser_session.
Variable target_text : option string.

(** The loop either exhausts its list, recording one failure per
    strategy, or stops at the first strategy that locates something,
    recording the failures before it and then the success. *)
Lemma attempt_loop_spec (l : list strategy) (acc : list StrategyAttempt) :
  (Forall (fails session target_text) l
   /\ attempt_loop session target_text l acc
      = (None, acc ++ map (failed_attempt session target_text) l))
  \/ (exists pre s post found,
         l = pre ++ s :: post
         /\ Forall (fails session target_text) pre
         /\ try_strategy session target_text s = inl found
         /\ attempt_loop session target_text l acc
            = (Some (found, s),
               acc ++ map (failed_attempt session target_text) pre
                   ++ [attempt_of s true None])).
Proof.
  revert acc. induction l as [|s l IH]; intros acc; simpl.
  - left. split; [constructor | now rewrite app_nil_r].
  - destruct (try_strategy session target_text s) as [found|msg] eqn:E.
    + right. exists [], s, l, found. simpl. repeat split; auto.
    + assert (Hf : failed_attempt session target_text s
                   = attempt_of s false (Some msg))
        by (unfold failed_attempt; now rewrite E).
      destruct (IH (acc ++ [attempt_of s false (Some msg)]))
        as [[Hall Heq]|(pre & s' & post & found & -> & Hpre & Hs' & Heq)].
      * left. split; [constructor; [now exists msg | exact Hall]|].
        rewrite Heq, Hf, <- app_assoc. reflexivity.
      * right. exists (s :: pre), s', post, found.
        repeat split; auto; [constructor; [now exists msg | exact Hpre]|].
        rewrite Heq. simpl. rewrite Hf, <- app_assoc. reflexivity.
Qed.

Lemma failed_attempt_records (l : list strategy) :
  Forall2 records l (map (failed_attempt session target_text) l).
Proof.
  induction l as [|s l IH]; simpl; [constructor|].
  constructor; [|exact IH]. unfold records. simpl. auto.
Qed.

Lemma validate_visible (index : Z) (n : node) :
  visible n -> fst (_validate_element_in_map index n target_text) = true.
Proof.
  unfold visible, _validate_element_in_map.
  destruct (is_visible n) as [[|]|]; simpl; try congruence;
    intros _; destruct target_text as [t|]; try destruct (truthy t);
    reflexivity.
Qed.

Lemma validate_sound (index : Z) (n : node) :
  fst (_validate_element_in_map index n target_text) = true -> visible n.
Proof.
  unfold visible, _validate_element_in_map.
  destruct (is_visible n) as [[|]|]; simpl; congruence.
Qed.

(** The scan returns an entry of the map that matches and is
    visible. *)
Lemma find_semantic_sound (ty : option string) (v : string)
    (m : selector_generator.metadata_t) (selector_map : selector_map_t)
    (index : Z) (n : node) :
  _find_with_semantic_strategy ty v m selector_map target_text
  = Some (index, n) ->
  In (index, n) selector_map
  /\ _matches_strategy n ty v m = true
  /\ visible n.
Proof.
  induction selector_map as [|[j n'] rest IH]; simpl; [discriminate|].
  destruct (_matches_strategy n' ty v m
            && fst (_validate_element_in_map j n' target_text)) eqn:E.
  - intros [= -> ->]. apply andb_prop in E as [Hm Hv].
    split; [now left|]. split; [exact Hm|].
    exact (validate_sound _ _ Hv).
  - intros H. destruct (IH H) as (? & ? & ?). auto.
Qed.

(** The scan finds something as soon as one entry matches and is
    visible. *)
Lemma find_semantic_complete (ty : option string) (v : string)
    (m : selector_generator.metadata_t) (selector_map : selector_map_t)
    (index : Z) (n : node) :
  In (index, n) selector_map ->
  _matches_strategy n ty v m = true ->
  visible n ->
  exists index' n',
    _find_with_semantic_strategy ty v m selector_map target_text
    = Some (index', n').
Proof.
  induction selector_map as [|[j n'] rest IH]; simpl; [tauto|].
  intros Hin Hm Hv.
  destruct (_matches_strategy n' ty v m
            && fst (_validate_element_in_map j n' target_text)) eqn:E;
    [eauto|].
  destruct Hin as [[= -> ->]|Hin]; [|eauto].
  rewrite Hm, (validate_visible index n Hv) in E. discriminate.
Qed.

(** An index is only ever returned by a semantic strategy that found
    it in the selector map. *)
Lemma try_strategy_index (s : strategy) (index : Z) :
  try_strategy session target_text s = inl (ElementIndex index) ->
  exists selector_map n,
    get_selector_map session = Some selector_map
    /\ _find_with_semantic_strategy (type s) (value s) (metadata s)
         selector_map target_text = Some (index, n).
Proof.
  unfold try_strategy.
  destruct (match type s with
            | Some ty => String.eqb ty "xpath"
            | None => false
            end).
  - destruct (_find_with_xpath _ _ _) as [[? ?]|]; simpl; congruence.
  - destruct (get_selector_map session) as [[|entry rest]|];
      cbn [usable_map]; try congruence.
    destruct (is_semantic (type s)); [|congruence].
    destruct (_find_with_semantic_strategy _ _ _ _ _) as [[j n]|] eqn:E;
      [|congruence].
    intros [= ->]. eauto.
Qed.
End LocatorFacts.

Section LocatorOrder.
Import PyStr element_finder.

Lemma records_priorities (tried : list strategy)
    (attempts : list StrategyAttempt) :
  Forall2 records tried attempts ->
  map attempt_priority attempts = map priority_of tried.
Proof.
  induction 1 as [|s a l l' (_ & _ & Hp & _) _ IH]; simpl;
    [reflexivity | now rewrite Hp, IH].
Qed.

Lemma sorted_keys {A : Type} (key : A -> Z) (l : list A) :
  StronglySorted (key_le key) l -> StronglySorted Z.le (map key l).
Proof.
  induction 1 as [|x l _ IH Hx]; simpl; constructor; [exact IH|].
  apply Forall_map. exact Hx.
Qed.

Lemma sorted_prefix {A : Type} (R : A -> A -> Prop) (l l' : list A) :
  StronglySorted R (l ++ l') -> StronglySorted R l.
Proof.
  intros H. apply (StronglySorted_firstn R (List.length l)) in H.
  now rewrite firstn_app, Nat.sub_diag, firstn_all, firstn_O, app_nil_r in H.
Qed.

(** A dict has one value per key. *)
Lemma NoDup_keys_functional {K V : Type} (m : list (K * V)) (k : K)
    (a b : V) :
  NoDup (map fst m) -> In (k, a) m -> In (k, b) m -> a = b.
Proof.
  induction m as [|[k' v] m IH]; simpl; [tauto|].
  intros Hnd Ha Hb. inversion Hnd as [|? ? Hk Hm]; subst.
  assert (Hfresh : forall x, In (k', x) m -> False).
  { intros x Hx. apply Hk. apply in_map_iff. now exists (k', x). }
  destruct Ha as [Ea|Ha]; destruct Hb as [Eb|Hb].
  - congruence.
  - injection Ea as -> _. destruct (Hfresh _ Hb).
  - injection Eb as -> _. destruct (Hfresh _ Ha).
  - auto.
Qed.

(** What the loop over the sorted strategies leaves behind, from an
    empty audit list. *)
Lemma attempt_loop_trace (session : browser_session)
    (target_text : option string) (l : list strategy)
    (result : option (located * strategy))
    (attempts : list StrategyAttempt) :
  attempt_loop session target_text l [] = (result, attempts) ->
  exists tried untried,
    l = tried ++ untried
    /\ Forall2 records tried attempts
    /\ match result with
       | Some (found, s) =>
           exists pre,
             tried = pre ++ [s]
             /\ Forall (fails session target_text) pre
             /\ try_strategy session target_text s = inl found
       | None => Forall (fails session target_text) tried
       end.
Proof.
  destruct (attempt_loop_spec session target_text l [])
    as [[Hall ->]|(pre & s & post & found & -> & Hpre & Hs & ->)];
    intros [= <- <-].
  - exists l, []. rewrite app_nil_r. simpl.
    auto using failed_attempt_records.
  - exists (pre ++ [s]), post. rewrite <- app_assoc. simpl.
    repeat split.
    + apply Forall2_app; [apply failed_attempt_records|].
      repeat constructor.
    + exists pre. auto.
Qed.
End LocatorOrder.

(** C6.  Whatever the order of the input list, the locator tries the
    strategies in ascending order of priority and returns the match of
    the first one that succeeds.  The strategies are taken from the
    stably sorted input, one after the other and none left out, as
    soon as the page is at hand: either all of them fail, and the call
    returns no match with one failure record per strategy, in that
    order, or the sorted input splits at a first strategy that locates
    something, all before it having failed, and the call returns that
    strategy and its match, with the failure records of the earlier
    ones and then its own.  Without a page no strategy is tried.  In
    every case the priorities of the audit records ascend.  In
    particular, for the input [[aria_label at 3; text_exact at 1]] and
    a snapshot with a visible node whose trimmed text is the value,
    [text_exact] is the only strategy tried and its match is
    returned. *)
Theorem find_element_tries_ascending_priority :
  (forall (strategies : list element_finder.strategy)
          (session : element_finder.browser_session)
          (target_text : option string),
      let sorted_strategies :=
        PyList.sorted element_finder.priority_of strategies in
      let answer :=
        element_finder.find_element_with_strategies strategies session
          target_text in
      Permutation sorted_strategies strategies
      /\ StronglySorted (key_le element_finder.priority_of) sorted_strategies
      /\ StronglySorted Z.le
           (map element_finder.attempt_priority (snd answer))
      /\ match element_finder.get_current_page session with
         | element_finder.PageOk =>
             (Forall (fails session target_text) sorted_strategies
              /\ answer
                 = (None,
                    map (failed_attempt session target_text)
                      sorted_strategies))
             \/ (exists pre s post found,
                    sorted_strategies = pre ++ s :: post
                    /\ Forall (fails session target_text) pre
                    /\ element_finder.try_strategy session target_text s
                       = inl found
                    /\ answer
                       = (Some (found, s),
                          map (failed_attempt session target_text) pre
                          ++ [element_finder.attempt_of s true None]))
         | _ => answer = (None, [])
         end)
  /\ (forall (session : element_finder.browser_session)
             (target_text : option string)
             (aria_value text_value : string)
             (aria_md text_md : selector_generator.metadata_t)
             (selector_map : element_finder.selector_map_t)
             (index : Z) (n : element_finder.node),
         element_finder.get_current_page session = element_finder.PageOk ->
         element_finder.get_selector_map session = Some selector_map ->
         In (index, n) selector_map ->
         PyStr.strip (element_finder.text n) = text_value ->
         visible n ->
         exists index' n',
           In (index', n') selector_map
           /\ PyStr.strip (element_finder.text n') = text_value
           /\ visible n'
           /\ element_finder.find_element_with_strategies
                [aria_label_strategy aria_value aria_md;
                 text_exact_strategy text_value text_md]
                session target_text
              = (Some (element_finder.ElementIndex index',
                       text_exact_strategy text_value text_md),
                 [element_finder.attempt_of
                    (text_exact_strategy text_value text_md) true None])).
Proof.
  split.
  - intros strategies session target_text sorted_strategies answer.
    pose proof (sorted_perm element_finder.priority_of strategies) as Hperm.
    pose proof (sorted_sorted element_finder.priority_of strategies) as Hsort.
    fold sorted_strategies in Hperm, Hsort.
    split; [exact Hperm|]. split; [exact Hsort|].
    assert (Hidle : element_finder.get_current_page session
                    <> element_finder.PageOk ->
                    answer = (None, [])).
    { intros Hpage. subst answer.
      unfold element_finder.find_element_with_strategies.
      destruct strategies; [reflexivity|].
      now destruct (element_finder.get_current_page session). }
    destruct (element_finder.get_current_page session) eqn:Hpage;
      try (rewrite Hidle by discriminate; split; [constructor | reflexivity]).
    clear Hidle.
    assert (Hanswer : answer
                      = element_finder.attempt_loop session target_text
                          sorted_strategies []).
    { subst answer sorted_strategies.
      unfold element_finder.find_element_with_strategies.
      rewrite Hpage. now destruct strategies. }
    assert (Hprio : forall l,
               map element_finder.attempt_priority
                 (map (failed_attempt session target_text) l)
               = map element_finder.priority_of l).
    { intros l. rewrite map_map. reflexivity. }
    destruct (attempt_loop_spec session target_text sorted_strategies [])
      as [[Hall Heq]|(pre & s & post & found & Hsplit & Hpre & Hs & Heq)];
      rewrite <- Hanswer in Heq; simpl in Heq.
    + split; [|left; split; [exact Hall | exact Heq]].
      rewrite Heq. cbn [snd]. rewrite Hprio. now apply sorted_keys.
    + split; [|right; exists pre, s, post, found; auto].
      rewrite Heq. cbn [snd]. rewrite map_app, Hprio. cbn [map].
      change (element_finder.attempt_priority
                (element_finder.attempt_of s true None))
        with (element_finder.priority_of s).
      change (map element_finder.priority_of pre
              ++ [element_finder.priority_of s])
        with (map element_finder.priority_of pre
              ++ map element_finder.priority_of [s]).
      rewrite <- map_app. apply sorted_keys.
      apply (sorted_prefix _ (pre ++ [s]) post).
      rewrite <- app_assoc. simpl. now rewrite <- Hsplit.
  - intros session target_text aria_value text_value aria_md text_md
           selector_map index n Hpage Hmap Hin Htext Hvis.
    assert (Hmatch : element_finder._matches_strategy n (Some "text_exact")
                       text_value text_md = true).
    { simpl. apply String.eqb_eq. exact Htext. }
    destruct (find_semantic_complete target_text (Some "text_exact")
                text_value text_md selector_map index n Hin Hmatch Hvis)
      as (index' & n' & Hfound).
    destruct (find_semantic_sound target_text _ _ _ _ _ _ Hfound)
      as (Hin' & Hmatch' & Hvis').
    exists index', n'. repeat split; auto.
    + simpl in Hmatch'. now apply String.eqb_eq in Hmatch'.
    + unfold element_finder.find_element_with_strategies. rewrite Hpage.
      change (PyList.sorted element_finder.priority_of
                [aria_label_strategy aria_value aria_md;
                 text_exact_strategy text_value text_md])
        with [text_exact_strategy text_value text_md;
              aria_label_strategy aria_value aria_md].
      cbn [element_finder.attempt_loop].
      assert (Htry : element_finder.try_strategy session target_text
                       (text_exact_strategy text_value text_md)
                     = inl (element_finder.ElementIndex index')).
      { unfold element_finder.try_strategy. rewrite Hmap.
        destruct selector_map as [|entry rest]; [contradiction|].
        cbn [element_finder.usable_map text_exact_strategy
             element_finder.type element_finder.value
             element_finder.metadata].
        change (String.eqb "text_exact" "xpath") with false.
        change (element_finder.is_semantic (Some "text_exact")) with true.
        cbv iota. rewrite Hfound. reflexivity. }
      rewrite Htry. reflexivity.
Qed.

Lemma find_element_tries_ascending_priority_witness :
  exists index' n',
    In (index', n') [(2%Z, submit_button false); (4%Z, submit_button true)]
    /\ PyStr.strip (element_finder.text n') = "Submit"
    /\ visible n'
    /\ element_finder.find_element_with_strategies
         [aria_label_strategy "Send" []; text_exact_strategy "Submit" []]
         submit_page None
       = (Some (element_finder.ElementIndex index',
                text_exact_strategy "Submit" []),
          [element_finder.attempt_of (text_exact_strategy "Submit" [])
             true None]).
Proof.
  apply (proj2 find_element_tries_ascending_priority
           submit_page None "Send" "Submit" [] []
           [(2%Z, submit_button false); (4%Z, submit_button true)]
           4%Z (submit_button true)).
  - reflexivity.
  - reflexivity.
  - simpl. tauto.
  - reflexivity.
  - unfold visible. simpl. discriminate.
Defined.

(** C7.  A node whose [is_visible] field is false is rejected by the
    validation whatever the hint, is never the node a semantic scan
    returns, whatever the strategy and even when it matches, and its
    index is never what the locator returns. *)
Theorem invisible_node_never_located :
  forall n : element_finder.node,
    element_finder.is_visible n = Some false ->
    (forall (index : Z) (target_text : option string),
        fst (element_finder._validate_element_in_map index n target_text)
        = false)
    /\ (forall (ty : option string) (v : string)
               (m : selector_generator.metadata_t)
               (selector_map : element_finder.selector_map_t)
               (target_text : option string) (index : Z),
           element_finder._find_with_semantic_strategy ty v m selector_map
             target_text <> Some (index, n))
    /\ (forall (strategies : list element_finder.strategy)
               (session : element_finder.browser_session)
               (target_text : option string)
               (selector_map : element_finder.selector_map_t)
               (index : Z) (s : element_finder.strategy)
               (attempts : list element_finder.StrategyAttempt),
           element_finder.get_selector_map session = Some selector_map ->
           NoDup (map fst selector_map) ->
           In (index, n) selector_map ->
           element_finder.find_element_with_strategies strategies session
             target_text
           <> (Some (element_finder.ElementIndex index, s), attempts)).
Proof.
  intros n Hinv. split; [|split].
  - intros index target_text.
    unfold element_finder._validate_element_in_map. now rewrite Hinv.
  - intros ty v m selector_map target_text index H.
    apply find_semantic_sound in H as (_ & _ & Hvis). now apply Hvis.
  - intros strategies session target_text selector_map index s attempts
           Hmap Hnd Hin Hfind.
    unfold element_finder.find_element_with_strategies in Hfind.
    destruct strategies as [|s0 l0]; [discriminate|].
    destruct (element_finder.get_current_page session); try discriminate.
    destruct (attempt_loop_trace _ _ _ _ _ Hfind)
      as (tried & untried & _ & _ & pre & _ & _ & Htry).
    destruct (try_strategy_index _ _ _ _ Htry) as (m' & n' & Hm' & Hfound).
    rewrite Hmap in Hm'. injection Hm' as <-.
    apply find_semantic_sound in Hfound as (Hin' & _ & Hvis).
    rewrite (NoDup_keys_functional _ _ _ _ Hnd Hin Hin') in Hinv.
    now apply Hvis.
Qed.

Lemma invisible_node_never_located_witness :
  element_finder.is_visible (submit_button false) = Some false
  /\ element_finder._matches_strategy (submit_button false)
       (Some "text_exact") "Submit" [] = true
  /\ element_finder._find_with_semantic_strategy (Some "text_exact")
       "Submit" [] [(2%Z, submit_button false)] None
     <> Some (2%Z, submit_button false).
Proof.
  split; [reflexivity|]. split; [reflexivity|].
  apply (proj1 (proj2 (invisible_node_never_located
                         (submit_button false) eq_refl))).
Defined.

Section AdvisoryHint.
Import PyStr element_finder.

Lemma validate_ignores_hint (index : Z) (n : node)
    (target_text : option string) :
  fst (_validate_element_in_map index n target_text)
  = fst (_validate_element_in_map index n None).
Proof.
  unfold _validate_element_in_map.
  destruct (negb _); [reflexivity|].
  destruct target_text as [t|]; [destruct (truthy t)|]; reflexivity.
Qed.

Lemma find_semantic_ignores_hint (ty : option string) (v : string)
    (m : selector_generator.metadata_t) (selector_map : selector_map_t)
    (target_text : option string) :
  _find_with_semantic_strategy ty v m selector_map target_text
  = _find_with_semantic_strategy ty v m selector_map None.
Proof.
  induction selector_map as [|[j n] rest IH]; simpl; [reflexivity|].
  now rewrite IH, (validate_ignores_hint j n target_text).
Qed.

Lemma try_strategy_ignores_hint (session : browser_session)
    (target_text : option string) (s : strategy) :
  try_strategy session target_text s = try_strategy session None s.
Proof.
  unfold try_strategy, _find_with_xpath.
  destruct (match type s with
            | Some ty => String.eqb ty "xpath"
            | None => false
            end); [reflexivity|].
  destruct (usable_map (get_selector_map session)) as [selector_map|];
    [|reflexivity].
  destruct (is_semantic (type s)); [|reflexivity].
  now rewrite (find_semantic_ignores_hint _ _ _ _ target_text).
Qed.

Lemma attempt_loop_ignores_hint (session : browser_session)
    (target_text : option string) (l : list strategy)
    (acc : list StrategyAttempt) :
  attempt_loop session target_text l acc = attempt_loop session None l acc.
Proof.
  revert acc. induction l as [|s l IH]; intros acc; simpl; [reflexivity|].
  rewrite (try_strategy_ignores_hint session target_text s).
  destruct (try_strategy session None s); [reflexivity | apply IH].
Qed.
End AdvisoryHint.

(** C8.  The target-text hint is advisory.  On a visible node a hint
    that matches none of the text sources is only noted: the validation
    still accepts the node.  The semantic scan and the whole locate
    call return the same match and the same audit trail with the hint
    as without it. *)
Theorem target_text_mismatch_never_rejects :
  (forall (index : Z) (n : element_finder.node) (hint : string),
      visible n ->
      PyStr.truthy hint = true ->
      element_finder.found_match n hint = false ->
      element_finder._validate_element_in_map index n (Some hint)
      = (true, Some element_finder.TargetNotFound))
  /\ (forall (ty : option string) (v : string)
             (m : selector_generator.metadata_t)
             (selector_map : element_finder.selector_map_t) (hint : string),
         element_finder._find_with_semantic_strategy ty v m selector_map
           (Some hint)
         = element_finder._find_with_semantic_strategy ty v m selector_map
             None)
  /\ (forall (strategies : list element_finder.strategy)
             (session : element_finder.browser_session) (hint : string),
         element_finder.find_element_with_strategies strategies session
           (Some hint)
         = element_finder.find_element_with_strategies strategies session
             None).
Proof.
  split; [|split].
  - intros index n hint Hvis Hhint Hmiss.
    unfold element_finder._validate_element_in_map, visible in *.
    rewrite Hhint, Hmiss.
    destruct (element_finder.is_visible n) as [[|]|]; simpl;
      congruence.
  - intros. apply find_semantic_ignores_hint.
  - intros strategies session hint.
    unfold element_finder.find_element_with_strategies.
    destruct strategies; [reflexivity|].
    destruct (element_finder.get_current_page session); try reflexivity.
    apply attempt_loop_ignores_hint.
Qed.

Lemma target_text_mismatch_never_rejects_witness :
  visible (submit_button true)
  /\ element_finder.found_match (submit_button true) "Cancel order" = false
  /\ element_finder._validate_element_in_map 4 (submit_button true)
       (Some "Cancel order")
     = (true, Some element_finder.TargetNotFound).
Proof.
  assert (Hvis : visible (submit_button true))
    by (unfold visible; simpl; discriminate).
  split; [exact Hvis|]. split; [reflexivity|].
  apply (proj1 target_text_mismatch_never_rejects 4%Z (submit_button true)
           "Cancel order" Hvis); reflexivity.
Defined.

(** C10.  When the current page cannot be obtained, because the fetch
    returns nothing or raises, the locator answers not-found with an
    empty audit trail, whatever strategies it was given. *)
Theorem find_element_without_page :
  forall (strategies : list element_finder.strategy)
         (session : element_finder.browser_session)
         (target_text : option string),
    element_finder.get_current_page session <> element_finder.PageOk ->
    element_finder.find_element_with_strategies strategies session
      target_text = (None, []).
Proof.
  intros strategies session target_text Hpage.
  unfold element_finder.find_element_with_strategies.
  destruct strategies; [reflexivity|].
  destruct (element_finder.get_current_page session);
    [congruence | reflexivity | reflexivity].
Qed.

Lemma find_element_without_page_witness :
  element_finder.get_current_page no_page <> element_finder.PageOk
  /\ element_finder.find_element_with_strategies
       [text_exact_strategy "Submit" [];
        element_finder.mkStrategyDict (Some "xpath") "//a" (Some 8%Z) []]
       no_page None = (None, []).
Proof.
  assert (H : element_finder.get_current_page no_page
              <> element_finder.PageOk) by (simpl; discriminate).
  split; [exact H|].
  exact (find_element_without_page _ no_page None H).
Defined.

Section MatcherFuel.
Import difflib.
Local Open Scope nat_scope.
Variables a b : list ascii.

Lemma j2len_get_below (r j : nat) (j2len : list (nat * nat)) :
  lengths_below r j2len -> j2len_get j j2len <= r.
Proof.
  induction j2len as [|[j' k] l IH]; intros H; simpl; [lia|].
  destruct (j =? j').
  - apply (H j' k). now left.
  - apply IH. intros j0 k0 Hin. apply (H j0 k0). now right.
Qed.

Lemma scan_row_within (alo i blo bhi : nat) (j2len : list (nat * nat))
    (js : list nat) (newj2len : list (nat * nat)) (best : nat * nat * nat) :
  alo <= i ->
  lengths_below (i - alo) j2len ->
  lengths_below (i - alo + 1) newj2len ->
  block_within alo (i + 1) best ->
  lengths_below (i - alo + 1) (fst (scan_row i blo bhi j2len js newj2len best))
  /\ block_within alo (i + 1)
       (snd (scan_row i blo bhi j2len js newj2len best)).
Proof.
  intros Hi Hold. revert newj2len best.
  induction js as [|j js IH]; intros newj2len best Hnew Hbest; simpl.
  - now split.
  - destruct (j <? blo); [now apply IH|].
    destruct (bhi <=? j); [now split|].
    destruct best as [[bi bj] bk].
    set (k := match j with O => 0 | S j' => j2len_get j' j2len end + 1).
    assert (Hk : k <= i - alo + 1).
    { subst k. destruct j as [|j']; [lia|].
      pose proof (j2len_get_below _ j' _ Hold). lia. }
    apply IH.
    + intros j0 k0 [[= <- <-]|Hin]; [exact Hk | now apply (Hnew j0 k0)].
    + destruct (bk <? k); [|exact Hbest]. simpl. lia.
Qed.

Lemma scan_rows_within (alo blo bhi n i : nat) (j2len : list (nat * nat))
    (best : nat * nat * nat) :
  alo <= i ->
  lengths_below (i - alo) j2len ->
  block_within alo i best ->
  block_within alo (i + n) (scan_rows a b n i blo bhi j2len best).
Proof.
  revert i j2len best. induction n as [|n IH]; intros i j2len best Hi Hl Hb;
    simpl.
  - now rewrite Nat.add_0_r.
  - assert (Hb' : block_within alo (i + 1) best).
    { destruct best as [[bi bj] bk]. simpl in *. lia. }
    destruct (scan_row_within alo i blo bhi j2len (b2j b (at_ a i)) [] best
                Hi Hl) as [Hl' Hbest']; [intros ? ? [] | exact Hb' |].
    destruct (scan_row i blo bhi j2len (b2j b (at_ a i)) [] best)
      as [newj2len best'].
    simpl in Hl', Hbest'.
    replace (i + S n) with (S i + n) by lia. apply IH; [lia | |].
    + replace (S i - alo) with (i - alo + 1) by lia. exact Hl'.
    + replace (S i) with (i + 1) by lia. exact Hbest'.
Qed.

Lemma extend_left_within (fuel alo blo bi bj bk : nat) :
  alo <= bi ->
  let '(i, _, k) := extend_left a b fuel alo blo bi bj bk in
  alo <= i /\ i + k = bi + bk.
Proof.
  revert bi bj bk. induction fuel as [|fuel IH]; intros bi bj bk Hb; simpl;
    [lia|].
  destruct ((alo <? bi) && (blo <? bj)
            && Ascii.eqb (at_ a (bi - 1)) (at_ b (bj - 1))) eqn:E; [|lia].
  apply andb_prop in E as [E _]. apply andb_prop in E as [E _].
  apply Nat.ltb_lt in E.
  specialize (IH (bi - 1) (bj - 1) (bk + 1)).
  destruct (extend_left a b fuel alo blo (bi - 1) (bj - 1) (bk + 1))
    as [[i j] k]. lia.
Qed.

Lemma extend_right_within (fuel ahi bhi bi bj bk : nat) :
  bi + bk <= ahi ->
  let '(i, _, k) := extend_right a b fuel ahi bhi bi bj bk in
  i = bi /\ i + k <= ahi.
Proof.
  revert bk. induction fuel as [|fuel IH]; intros bk Hb; simpl; [lia|].
  destruct ((bi + bk <? ahi) && (bj + bk <? bhi)
            && Ascii.eqb (at_ a (bi + bk)) (at_ b (bj + bk))) eqn:E; [|lia].
  apply andb_prop in E as [E _]. apply andb_prop in E as [E _].
  apply Nat.ltb_lt in E. apply IH. lia.
Qed.

(** The longest match lies inside the window it was looked for in. *)
Lemma find_longest_match_within (alo ahi blo bhi : nat) :
  alo <= ahi ->
  let '(i, _, k) := find_longest_match a b alo ahi blo bhi in
  alo <= i /\ i + k <= ahi.
Proof.
  intros H. unfold find_longest_match.
  pose proof (scan_rows_within alo blo bhi (ahi - alo) alo [] (alo, blo, 0)
                (le_n _)) as Hs.
  destruct (scan_rows a b (ahi - alo) alo blo bhi [] (alo, blo, 0))
    as [[bi bj] bk].
  simpl in Hs. destruct Hs as [Hs1 Hs2]; [intros ? ? [] | lia |].
  pose proof (extend_left_within bi alo blo bi bj bk Hs1) as Hl.
  destruct (extend_left a b bi alo blo bi bj bk) as [[bi' bj'] bk'].
  pose proof (extend_right_within ahi ahi bhi bi' bj' bk') as Hr.
  destruct (extend_right a b ahi ahi bhi bi' bj' bk') as [[i j] k].
  lia.
Qed.

(** Once the fuel exceeds the width of the window, more fuel changes
    nothing. *)
Lemma matched_fuel (fuel extra alo ahi blo bhi : nat) :
  alo <= ahi -> ahi - alo < fuel ->
  matched a b (fuel + extra) alo ahi blo bhi
  = matched a b fuel alo ahi blo bhi.
Proof.
  revert alo ahi blo bhi.
  induction fuel as [|fuel IH]; intros alo ahi blo bhi Hle Hlt; [lia|].
  simpl.
  pose proof (find_longest_match_within alo ahi blo bhi Hle) as Hw.
  destruct (find_longest_match a b alo ahi blo bhi) as [[i j] k].
  destruct (Nat.eqb_spec k 0) as [|Hk]; [reflexivity|].
  f_equal; [f_equal|].
  - destruct ((alo <? i) && (blo <? j)); [|reflexivity].
    apply IH; lia.
  - destruct ((i + k <? ahi) && (j + k <? bhi)); [|reflexivity].
    apply IH; lia.
Qed.
End MatcherFuel.

Section FuzzyFacts.
Import PyStr.

Lemma lower_char_idempotent (a : ascii) :
  lower_char (lower_char a) = lower_char a.
Proof.
  destruct a as [[] [] [] [] [] [] [] []]; vm_compute; reflexivity.
Qed.

Lemma lower_idempotent (s : string) : lower (lower s) = lower s.
Proof.
  induction s as [|a s IH]; simpl; [reflexivity|].
  now rewrite lower_char_idempotent, IH.
Qed.
End FuzzyFacts.

(** C9.  The fuzzy matcher accepts a candidate exactly when the
    similarity ratio of the two lower-cased strings, the double that
    [ratio()] returns, reaches the threshold; two targets, or two
    candidates, that differ in letter case only are treated alike.
    [Submit] against [Submitt] has the double nearest to 12/13 as
    ratio and matches at 0.8; [Submit] against [Submit Form] has the
    double nearest to 12/17 and matches at 0.7 but not at 0.8, the
    thresholds being the doubles of these literals.  The ratio is the
    one the matcher reaches: more recursion depth than the length of
    the first string changes nothing. *)
Theorem fuzzy_match_threshold_case_insensitive :
  (forall (target candidate : string) (threshold : Q),
      element_finder._fuzzy_match target candidate threshold = true
      <-> (threshold
           <= difflib.string_ratio (PyStr.lower target)
                (PyStr.lower candidate))%Q)
  /\ (forall (target target' candidate candidate' : string) (threshold : Q),
         PyStr.lower target = PyStr.lower target' ->
         PyStr.lower candidate = PyStr.lower candidate' ->
         element_finder._fuzzy_match target candidate threshold
         = element_finder._fuzzy_match target' candidate' threshold)
  /\ (forall (target candidate : string) (threshold : Q),
         element_finder._fuzzy_match target candidate threshold
         = element_finder._fuzzy_match (PyStr.lower target)
             (PyStr.lower candidate) threshold)
  /\ difflib.string_ratio "submit" "submitt" = PyFloat.fl (12 # 13)
  /\ (PyFloat.fl (12 # 13) == 4157168886803535 # 4503599627370496)%Q
  /\ (PyFloat.fl (8 # 10) == 3602879701896397 # 4503599627370496)%Q
  /\ element_finder._fuzzy_match "Submit" "Submitt" (PyFloat.fl (8 # 10))
     = true
  /\ difflib.string_ratio "submit" "submit form" = PyFloat.fl (12 # 17)
  /\ (PyFloat.fl (12 # 17) == 6358023003346583 # 9007199254740992)%Q
  /\ (PyFloat.fl (7 # 10) == 3152519739159347 # 4503599627370496)%Q
  /\ element_finder._fuzzy_match "Submit" "Submit Form" (PyFloat.fl (7 # 10))
     = true
  /\ element_finder._fuzzy_match "Submit" "Submit Form" (PyFloat.fl (8 # 10))
     = false
  /\ element_finder._fuzzy_match "SUBMIT" "submit" 1 = true
  /\ (forall (a b : list ascii) (extra : nat),
         difflib.matched a b (S (List.length a) + extra)
           0 (List.length a) 0 (List.length b)
         = difflib.matched a b (S (List.length a))
             0 (List.length a) 0 (List.length b)).
Proof.
  split; [|split; [|split]].
  - intros target candidate threshold.
    unfold element_finder._fuzzy_match. apply Qle_bool_iff.
  - intros target target' candidate candidate' threshold Ht Hc.
    unfold element_finder._fuzzy_match. now rewrite Ht, Hc.
  - intros target candidate threshold.
    unfold element_finder._fuzzy_match. now rewrite !lower_idempotent.
  - repeat split; try (vm_compute; reflexivity).
    intros a b extra. apply matched_fuel; lia.
Qed.

Lemma fuzzy_match_threshold_case_insensitive_witness :
  element_finder._fuzzy_match "Submit" "SUBMIT FORM" (PyFloat.fl (7 # 10))
  = element_finder._fuzzy_match "sUbMiT" "Submit Form" (PyFloat.fl (7 # 10)).
Proof.
  apply (proj1 (proj2 fuzzy_match_threshold_case_insensitive)
           "Submit" "sUbMiT" "SUBMIT FORM" "Submit Form");
    vm_compute; reflexivity.
Defined.

(* ================================================================== *)
(** * Further properties of the path optimizer *)
(* ================================================================== *)


Section ReparseFacts.
Import PyStr xpath_optimizer.

Lemma tag_char_not_slash (a : ascii) :
  is_tag_char a = true -> not_slash a = true.
Proof.
  unfold not_slash. destruct (Ascii.eqb_spec a "/"%char) as [->|];
    [discriminate | reflexivity].
Qed.

Lemma digit_not_slash (a : ascii) : is_digit a = true -> not_slash a = true.
Proof.
  unfold not_slash. destruct (Ascii.eqb_spec a "/"%char) as [->|];
    [discriminate | reflexivity].
Qed.

(** A kept segment has no separator in it and starts with a character
    of its tag. *)
Lemma kept_segment_shape (s t : string) (g : option string) :
  match_segment s = Some (t, g) ->
  all_chars not_slash s = true
  /\ exists a r, s = String a r /\ not_slash a = true.
Proof.
  intros H. destruct (match_segment_spec _ _ _ H)
    as ((Ht & Hc) & Hd & newline & ->).
  pose proof (all_chars_impl _ _ _ tag_char_not_slash Hc) as Hns.
  split.
  - unfold segment_text. rewrite !all_chars_append, Hns.
    destruct g as [d|], newline; simpl;
      try reflexivity;
      destruct Hd as (_ & Hdc);
      now rewrite all_chars_append,
        (all_chars_impl _ _ _ digit_not_slash Hdc).
  - destruct t as [|a t]; [congruence|]. simpl in Hns.
    apply andb_prop in Hns as [Ha _].
    unfold segment_text. simpl. eexists _, _. split; [reflexivity | exact Ha].
Qed.

Lemma split_on_free (c : ascii) (s : string) :
  all_chars (fun a => negb (Ascii.eqb a c)) s = true -> split_on c s = [s].
Proof.
  induction s as [|a s IH]; simpl; [reflexivity|].
  intros H. apply andb_prop in H as [Ha Hs].
  destruct (Ascii.eqb a c); [discriminate|]. now rewrite (IH Hs).
Qed.

Lemma split_on_app_sep (c : ascii) (s rest : string) :
  all_chars (fun a => negb (Ascii.eqb a c)) s = true ->
  split_on c (s ^ String c rest) = s :: split_on c rest.
Proof.
  induction s as [|a s IH]; simpl.
  - now rewrite Ascii.eqb_refl.
  - intros H. apply andb_prop in H as [Ha Hs].
    destruct (Ascii.eqb a c); [discriminate|]. now rewrite (IH Hs).
Qed.

(** Splitting a joined list gives the list back when no element holds
    the separator. *)
Lemma split_on_join (c : ascii) (l : list string) :
  l <> [] ->
  Forall (fun s => all_chars (fun a => negb (Ascii.eqb a c)) s = true) l ->
  split_on c (join (String c "") l) = l.
Proof.
  unfold join. induction l as [|x l IH]; [congruence|].
  intros _ H. inversion H as [|? ? Hx Hl]; subst.
  destruct l as [|y l].
  - simpl. now apply split_on_free.
  - rewrite concat_cons. change (String c "" ^ ?z) with (String c z).
    rewrite (split_on_app_sep _ _ _ Hx). f_equal.
    apply IH; [discriminate | exact Hl].
Qed.

(** The loop run again on the texts of its own parts returns them. *)
Lemma reparse_kept (parts : list part) :
  Forall (fun p => exists g,
                     match_segment (original p) = Some (tag p, g)
                     /\ index_of_group g = Returns (index p))
         parts ->
  parse_segments (map original parts) = Returns parts.
Proof.
  induction 1 as [|p l (g & Hp & Hg) _ IH]; simpl; [reflexivity|].
  rewrite Hp, Hg, IH. now destruct p.
Qed.

(** What a part shows of the segment it was read from. *)
Lemma keeps_well_formed_parts (segments : list string) (parts : list part) :
  keeps_well_formed segments parts ->
  Forall (fun p => tag_token (tag p)
                   /\ exists digits newline,
                        index_digits digits
                        /\ original p = segment_text (tag p) digits newline
                        /\ index p = option_map digits_value digits
                        /\ In (original p) segments)
         parts.
Proof.
  induction 1 as [|t g newline segments parts Ht Hg _ IH
                  |segment segments parts _ _ IH].
  - constructor.
  - constructor.
    + split; [exact Ht|]. exists g, newline. simpl. auto.
    + eapply Forall_impl; [|exact IH].
      intros p (Hp & d & nl & Hd & Ho & Hi & Hin).
      split; [exact Hp|]. exists d, nl. simpl. auto.
  - eapply Forall_impl; [|exact IH].
    intros p (Hp & d & nl & Hd & Ho & Hi & Hin).
    split; [exact Hp|]. exists d, nl. simpl. auto.
Qed.
End ReparseFacts.

(** X1.  For a path none of whose bracketed indices has more than
    4300 digits, parsing returns, and parsing what the kept segments
    re-join to, behind one separator, returns the same parts again:
    the parts of a path are a fixed point of join-then-parse. *)
Theorem parse_xpath_rejoined_originals :
  forall xpath : string,
    index_digits_within_limit xpath ->
    exists parts,
      xpath_optimizer._parse_xpath xpath = Returns parts
      /\ xpath_optimizer._parse_xpath
           ("/" ^ PyStr.join "/" (map xpath_optimizer.original parts))
         = Returns parts.
Proof.
  intros xpath Hlimit.
  destruct (parse_xpath_returns xpath Hlimit) as (parts & Hparse & _).
  exists parts. split; [exact Hparse|].
  pose proof (parse_segments_parts _ _ Hparse) as Hparts.
  unfold xpath_optimizer._parse_xpath.
  change (PyStr.lstrip_char "/" ("/" ^ ?s)) with (PyStr.lstrip_char "/" s).
  destruct parts as [|p l] eqn:E; [reflexivity|].
  rewrite <- E in *.
  assert (Hshape : Forall (fun s => all_chars not_slash s = true)
                     (map xpath_optimizer.original parts)).
  { apply Forall_map. eapply Forall_impl; [|exact Hparts].
    intros q (g & Hq & _). exact (proj1 (kept_segment_shape _ _ _ Hq)). }
  assert (Hhead : PyStr.lstrip_char "/"
                    (PyStr.join "/" (map xpath_optimizer.original parts))
                  = PyStr.join "/" (map xpath_optimizer.original parts)).
  { rewrite E in *. inversion Hparts as [|? ? (g & Hp & _) _]; subst.
    destruct (kept_segment_shape _ _ _ Hp) as (_ & a & r & Ha & Hns).
    unfold PyStr.join. simpl map.
    destruct (map xpath_optimizer.original l);
      [simpl | rewrite concat_cons]; rewrite Ha; simpl;
      unfold not_slash in Hns; now destruct (Ascii.eqb a "/"). }
  rewrite Hhead, split_on_join.
  - apply reparse_kept, Hparts.
  - rewrite E. discriminate.
  - exact Hshape.
Qed.

Lemma parse_xpath_rejoined_originals_witness :
  exists parts,
    xpath_optimizer._parse_xpath "//html/body/div[@id='main']/a[2]"
    = Returns parts
    /\ xpath_optimizer._parse_xpath
         ("/" ^ PyStr.join "/" (map xpath_optimizer.original parts))
       = Returns parts.
Proof.
  apply (parse_xpath_rejoined_originals "//html/body/div[@id='main']/a[2]").
  apply short_segments_within_limit. vm_compute. reflexivity.
Defined.

(** X2.  For a path none of whose bracketed indices has more than
    4300 digits, parsing returns, and every part it returns has a
    non-empty tag of letters, digits, [_] and [-]; its original text is
    a segment of the path and consists of that tag, then the index in
    brackets when there is one, then at most a newline; and the index
    is the number the bracketed digits denote. *)
Theorem parse_xpath_part_structure :
  forall xpath : string,
    index_digits_within_limit xpath ->
    exists parts,
      xpath_optimizer._parse_xpath xpath = Returns parts
      /\ Forall (fun p =>
                   xpath_optimizer.tag p <> ""
                   /\ all_chars xpath_optimizer.is_tag_char
                        (xpath_optimizer.tag p) = true
                   /\ In (xpath_optimizer.original p) (segments_of xpath)
                   /\ exists digits newline,
                        xpath_optimizer.original p
                        = segment_text (xpath_optimizer.tag p) digits newline
                        /\ match digits with
                           | Some d =>
                               d <> ""
                               /\ all_chars PyStr.is_digit d = true
                               /\ (String.length d
                                   <= PyStr.int_max_str_digits)%nat
                               /\ PyStr.int_of_digits d
                                  = Returns (digits_value d)
                               /\ xpath_optimizer.index p
                                  = Some (digits_value d)
                           | None => xpath_optimizer.index p = None
                           end)
                parts.
Proof.
  intros xpath Hlimit.
  destruct (parse_xpath_returns xpath Hlimit) as (parts & Hparse & Hkeeps).
  exists parts. split; [exact Hparse|].
  eapply Forall_impl; [|apply (keeps_well_formed_parts _ _ Hkeeps)].
  intros p ((Ht & Hc) & digits & newline & Hd & Ho & Hi & Hin).
  repeat split; auto. exists digits, newline. split; [exact Ho|].
  destruct digits as [d|]; [|exact Hi].
  destruct Hd as [Hne Hdc].
  assert (Hlen : (String.length d <= PyStr.int_max_str_digits)%nat).
  { apply (Hlimit (xpath_optimizer.tag p) d newline);
      [now rewrite <- Ho | now split | exact Hdc]. }
  repeat split; auto.
  unfold PyStr.int_of_digits.
  destruct (Nat.ltb_spec PyStr.int_max_str_digits (String.length d));
    [lia | reflexivity].
Qed.

Lemma parse_xpath_part_structure_witness :
  exists parts,
    xpath_optimizer._parse_xpath license_xpath = Returns parts
    /\ Forall (fun p =>
                 xpath_optimizer.tag p <> ""
                 /\ all_chars xpath_optimizer.is_tag_char
                      (xpath_optimizer.tag p) = true
                 /\ In (xpath_optimizer.original p)
                      (segments_of license_xpath)
                 /\ exists digits newline,
                      xpath_optimizer.original p
                      = segment_text (xpath_optimizer.tag p) digits newline
                      /\ match digits with
                         | Some d =>
                             d <> ""
                             /\ all_chars PyStr.is_digit d = true
                             /\ (String.length d
                                 <= PyStr.int_max_str_digits)%nat
                             /\ PyStr.int_of_digits d
                                = Returns (digits_value d)
                             /\ xpath_optimizer.index p
                                = Some (digits_value d)
                         | None => xpath_optimizer.index p = None
                         end)
              parts.
Proof.
  apply (parse_xpath_part_structure license_xpath).
  apply short_segments_within_limit. vm_compute. reflexivity.
Defined.

Section ShortenFacts.
Import PyStr xpath_optimizer.

Lemma last_stable_none (i acc : nat) (ps : list part) :
  existsb stable_part ps = false -> last_stable i acc ps = acc.
Proof.
  revert i acc. induction ps as [|p ps IH]; intros i acc;
    cbn [last_stable existsb]; [reflexivity|].
  intros H. apply orb_false_elim in H as [Hp Hps].
  unfold stable_part in Hp. rewrite Hp. now apply IH.
Qed.

(** A stable tag at position [k] or later puts the index there. *)
Lemma last_stable_reaches (ps : list part) (i acc k : nat) :
  existsb stable_part (skipn k ps) = true ->
  (i + k <= last_stable i acc ps)%nat.
Proof.
  revert i acc k. induction ps as [|p ps IH]; intros i acc k.
  - now destruct k.
  - destruct k as [|k]; cbn [last_stable existsb skipn].
    + destruct (existsb stable_part ps) eqn:E.
      * intros _.
        specialize (IH (S i) (if mem (tag p) stable_tags then i else acc)
                      0%nat).
        cbn [skipn] in IH. specialize (IH E). lia.
      * rewrite orb_false_r. intros Hp. unfold stable_part in Hp.
        rewrite Hp, (last_stable_none _ _ _ E). lia.
    + intros H. specialize (IH (S i)
                              (if mem (tag p) stable_tags then i else acc) k H).
      lia.
Qed.

(** Without a stable tag at position [k] or later the index stays
    below, or is the initial one. *)
Lemma last_stable_below (ps : list part) (i acc k : nat) :
  existsb stable_part (skipn k ps) = false ->
  (last_stable i acc ps < i + k)%nat \/ last_stable i acc ps = acc.
Proof.
  revert i acc k. induction ps as [|p ps IH]; intros i acc k H.
  - right. reflexivity.
  - destruct k as [|k].
    + right. now apply last_stable_none.
    + cbn [last_stable skipn] in *.
      destruct (IH (S i) (if mem (tag p) stable_tags then i else acc) k H)
        as [Hlt|Heq]; [left; lia|].
      rewrite Heq. destruct (mem (tag p) stable_tags); [left; lia | now right].
Qed.
End ShortenFacts.

(** X3.  A path of four parts or fewer is not shortened, nor is one
    with a stable tag among its last three parts; every other path is
    shortened to exactly its last three segments, whatever stable tags
    come earlier. *)
Theorem shorten_keeps_last_three :
  forall parts : list xpath_optimizer.part,
    let n := List.length parts in
    xpath_optimizer._shorten_absolute_xpath parts
    = if (n <=? 4)%nat || existsb stable_part (skipn (n - 3) parts)
      then None
      else Some ("/" ^ PyStr.join "/"
                         (map xpath_optimizer.original
                            (skipn (n - 3) parts))).
Proof.
  intros parts n. unfold xpath_optimizer._shorten_absolute_xpath.
  fold n. destruct (Nat.leb_spec n 4) as [|Hn]; [reflexivity|]. simpl.
  destruct (existsb stable_part (skipn (n - 3) parts)) eqn:E.
  - pose proof (last_stable_reaches parts 0 0 (n - 3) E) as H.
    destruct (Nat.ltb_spec (xpath_optimizer.last_stable 0 0 parts) (n - 3));
      [lia | reflexivity].
  - assert (H : (xpath_optimizer.last_stable 0 0 parts < n - 3)%nat).
    { destruct (last_stable_below parts 0 0 (n - 3) E); lia. }
    destruct (Nat.ltb_spec (xpath_optimizer.last_stable 0 0 parts) (n - 3));
      [|lia].
    now rewrite Nat.max_r by lia.
Qed.

Section OptimizerResults.
Import PyStr xpath_optimizer.

Lemma firstn_le_split {A : Type} (n m : nat) (l : list A) :
  (n <= m)%nat ->
  firstn m l = firstn n l ++ firstn (m - n) (skipn n l).
Proof.
  revert m l. induction n as [|n IH]; intros m l H; simpl.
  - now rewrite Nat.sub_0_r.
  - destruct m as [|m]; [lia|]. destruct l as [|x l]; simpl.
    + now rewrite firstn_nil.
    + f_equal. apply IH. lia.
Qed.
End OptimizerResults.

(** X4.  Asking for more alternatives never changes the ones already
    given: for a path none of whose bracketed indices has more than
    4300 digits and [2 <= n <= m], the optimizer returns for both, and
    the result for [m] is the result for [n] without its final
    absolute path, then further candidates, then the absolute path. *)
Theorem optimize_xpath_monotone :
  forall (absolute_xpath : string)
         (info : option xpath_optimizer.element_info) (n m : Z),
    index_digits_within_limit absolute_xpath ->
    (2 <= n)%Z -> (n <= m)%Z ->
    exists for_n for_m more,
      xpath_optimizer.optimize_xpath absolute_xpath info n = Returns for_n
      /\ xpath_optimizer.optimize_xpath absolute_xpath info m = Returns for_m
      /\ for_m = removelast for_n ++ more ++ [absolute_xpath].
Proof.
  intros absolute_xpath info n m Hlimit Hn Hm.
  destruct (parse_xpath_returns _ Hlimit) as (parts & Hparse & _).
  rewrite !(optimize_xpath_parsed _ _ _ _ Hparse).
  destruct (Z.leb_spec n 1); [lia|]. destruct (Z.leb_spec m 1); [lia|].
  eexists _, _,
    (firstn (Z.to_nat (m - 1) - Z.to_nat (n - 1))
       (skipn (Z.to_nat (n - 1))
          (distinct_candidates absolute_xpath info parts))).
  split; [reflexivity|]. split; [reflexivity|].
  rewrite removelast_last, app_assoc. f_equal.
  apply firstn_le_split. lia.
Qed.

Lemma optimize_xpath_monotone_witness :
  exists for_n for_m more,
    xpath_optimizer.optimize_xpath license_xpath (Some license_info) 2
    = Returns for_n
    /\ xpath_optimizer.optimize_xpath license_xpath (Some license_info) 4
       = Returns for_m
    /\ for_m = removelast for_n ++ more ++ [license_xpath].
Proof.
  apply (optimize_xpath_monotone license_xpath (Some license_info) 2 4);
    [|lia|lia].
  apply short_segments_within_limit. vm_compute. reflexivity.
Defined.

(** X5.  For a path none of whose bracketed indices has more than
    4300 digits the optimizer returns, whatever the cap; the result
    contains the absolute path, and every other entry is one of the
    candidates the four generation steps produced from the parsed
    path. *)
Theorem optimize_xpath_entries :
  forall (absolute_xpath : string)
         (info : option xpath_optimizer.element_info) (n : Z),
    index_digits_within_limit absolute_xpath ->
    exists parts result,
      xpath_optimizer._parse_xpath absolute_xpath = Returns parts
      /\ xpath_optimizer.optimize_xpath absolute_xpath info n
         = Returns result
      /\ In absolute_xpath result
      /\ forall x,
           In x result ->
           x = absolute_xpath
           \/ In x (xpath_optimizer.candidates absolute_xpath info parts).
Proof.
  intros absolute_xpath info n Hlimit.
  destruct (parse_xpath_returns _ Hlimit) as (parts & Hparse & _).
  exists parts. eexists. split; [exact Hparse|].
  split; [apply (optimize_xpath_parsed _ _ _ _ Hparse)|].
  destruct (n <=? 1)%Z.
  - split; [now left|]. intros x [<-|[]]. now left.
  - split; [apply in_or_app; right; now left|].
    intros x Hx. apply in_app_or in Hx as [Hx|[<-|[]]]; [|now left].
    right. apply In_firstn in Hx.
    destruct (unique_spec absolute_xpath
                (xpath_optimizer.candidates absolute_xpath info parts) [])
      as [_ Hin].
    now destruct (Hin x Hx) as (_ & _ & ?).
Qed.

Lemma optimize_xpath_entries_witness :
  exists parts result,
    xpath_optimizer._parse_xpath license_xpath = Returns parts
    /\ xpath_optimizer.optimize_xpath license_xpath (Some license_info) 3
       = Returns result
    /\ In license_xpath result
    /\ forall x,
         In x result ->
         x = license_xpath
         \/ In x (xpath_optimizer.candidates license_xpath
                    (Some license_info) parts).
Proof.
  apply (optimize_xpath_entries license_xpath (Some license_info) 3).
  apply short_segments_within_limit. vm_compute. reflexivity.
Defined.

(** X27.  For a path none of whose bracketed indices has more than
    4300 digits and [max_alternatives = n >= 2], the optimizer returns
    the first [n - 1] distinct candidates, or all of them when there
    are fewer, followed by the absolute path: at most [n] entries, the
    last one the absolute path, the earlier ones pairwise distinct and
    distinct from the absolute path. *)
Theorem optimize_xpath_at_most_max_alternatives :
  forall (absolute_xpath : string)
         (info : option xpath_optimizer.element_info) (n : Z),
    index_digits_within_limit absolute_xpath ->
    (2 <= n)%Z ->
    exists parts result,
      xpath_optimizer._parse_xpath absolute_xpath = Returns parts
      /\ xpath_optimizer.optimize_xpath absolute_xpath info n
         = Returns result
      /\ List.length result
         = (Nat.min (Z.to_nat (n - 1))
              (List.length (distinct_candidates absolute_xpath info parts))
            + 1)%nat
      /\ (Z.of_nat (List.length result) <= n)%Z
      /\ last result "" = absolute_xpath
      /\ NoDup (removelast result)
      /\ ~ In absolute_xpath (removelast result).
Proof.
  intros absolute_xpath info n Hlimit Hn.
  destruct (parse_xpath_returns _ Hlimit) as (parts & Hparse & _).
  exists parts. eexists. split; [exact Hparse|].
  split; [apply (optimize_xpath_parsed _ _ _ _ Hparse)|].
  destruct (Z.leb_spec n 1); [lia|].
  rewrite length_app, length_firstn, last_last, removelast_last. simpl.
  destruct (unique_spec absolute_xpath
              (xpath_optimizer.candidates absolute_xpath info parts) [])
    as [Hnd Hin].
  repeat split.
  - lia.
  - apply NoDup_firstn. exact Hnd.
  - intros H'. apply In_firstn in H'. destruct (Hin _ H') as [Hne _].
    now apply Hne.
Qed.

Lemma optimize_xpath_at_most_max_alternatives_witness :
  xpath_optimizer.optimize_xpath license_xpath (Some license_info) 3
  = Returns ["//a[contains(@class, 'license-link')]";
             "//a[text()='License 12345']";
             license_xpath]
  /\ exists parts result,
       xpath_optimizer._parse_xpath license_xpath = Returns parts
       /\ xpath_optimizer.optimize_xpath license_xpath (Some license_info) 3
          = Returns result
       /\ List.length result
          = (Nat.min (Z.to_nat (3 - 1))
               (List.length
                  (distinct_candidates license_xpath (Some license_info)
                     parts))
             + 1)%nat
       /\ (Z.of_nat (List.length result) <= 3)%Z
       /\ last result "" = license_xpath
       /\ NoDup (removelast result)
       /\ ~ In license_xpath (removelast result).
Proof.
  split; [vm_compute; reflexivity|].
  apply (optimize_xpath_at_most_max_alternatives
           license_xpath (Some license_info) 3); [|lia].
  apply short_segments_within_limit. vm_compute. reflexivity.
Defined.

(** X28.  For a path none of whose bracketed indices has more than
    4300 digits and [max_alternatives <= 1], the optimizer returns the
    one-element list that holds the absolute path and nothing else,
    for every descriptor or none. *)
Theorem optimize_xpath_cap_one_within_limit :
  forall (absolute_xpath : string)
         (info : option xpath_optimizer.element_info) (n : Z),
    index_digits_within_limit absolute_xpath ->
    (n <= 1)%Z ->
    xpath_optimizer.optimize_xpath absolute_xpath info n
    = Returns [absolute_xpath].
Proof.
  intros absolute_xpath info n Hlimit Hn.
  destruct (parse_xpath_returns _ Hlimit) as (parts & Hparse & _).
  rewrite (optimize_xpath_parsed _ _ _ _ Hparse).
  apply Z.leb_le in Hn. now rewrite Hn.
Qed.

Lemma optimize_xpath_cap_one_within_limit_witness :
  xpath_optimizer.optimize_xpath license_xpath (Some license_info) 1
  = Returns [license_xpath].
Proof.
  apply (optimize_xpath_cap_one_within_limit
           license_xpath (Some license_info) 1); [|lia].
  apply short_segments_within_limit. vm_compute. reflexivity.
Defined.

(** X29.  The parser returns exactly for the paths none of whose
    well-formed segments has an index of more than 4300 digits; for
    every other path it raises, and so does the optimizer, whatever
    the descriptor and the cap. *)
Theorem parse_xpath_returns_iff_within_limit :
  forall xpath : string,
    ((exists parts, xpath_optimizer._parse_xpath xpath = Returns parts)
     <-> index_digits_within_limit xpath)
    /\ (forall e,
           xpath_optimizer._parse_xpath xpath = Raises e ->
           e = ValueError
           /\ ~ index_digits_within_limit xpath
           /\ forall info n,
                xpath_optimizer.optimize_xpath xpath info n
                = Raises ValueError).
Proof.
  intros xpath. split; [split|].
  - intros (parts & Hparse). exact (parse_segments_returned _ _ Hparse).
  - intros Hlimit.
    destruct (parse_xpath_returns _ Hlimit) as (parts & Hparse & _). eauto.
  - intros e He. destruct e. split; [reflexivity|]. split.
    + intros Hlimit.
      destruct (parse_xpath_returns _ Hlimit) as (parts & Hparse & _).
      congruence.
    + intros info n. now apply optimize_xpath_raises.
Qed.

Lemma parse_xpath_returns_iff_within_limit_witness :
  index_digits_within_limit license_xpath
  /\ ~ index_digits_within_limit long_index_xpath.
Proof.
  split.
  - apply (proj1 (parse_xpath_returns_iff_within_limit license_xpath)).
    eexists. vm_compute. reflexivity.
  - apply (proj2 (parse_xpath_returns_iff_within_limit long_index_xpath)
             ValueError).
    vm_compute. reflexivity.
Defined.

(** X6.  A value that lacks one of the two quote characters is escaped
    to itself between two quotes of a kind that does not occur in it. *)
Theorem escape_xpath_string_delimits :
  forall value : string,
    free_of PyStr.sq value \/ free_of PyStr.dq value ->
    exists q,
      (q = PyStr.sq \/ q = PyStr.dq)
      /\ free_of q value
      /\ xpath_optimizer.escape_xpath_string value = q ^ value ^ q.
Proof.
  intros value H. unfold xpath_optimizer.escape_xpath_string, free_of in *.
  destruct value as [|a v].
  - exists PyStr.sq. repeat split; auto.
  - cbn [PyStr.truthy negb].
    destruct (PyStr.contains PyStr.sq (String a v)) eqn:Es; cbn [negb].
    + destruct H as [H|H]; [discriminate|]. rewrite H. cbn [negb].
      exists PyStr.dq. auto.
    + exists PyStr.sq. auto.
Qed.

Lemma escape_xpath_string_delimits_witness :
  exists q,
    (q = PyStr.sq \/ q = PyStr.dq)
    /\ free_of q "O'Brien"
    /\ xpath_optimizer.escape_xpath_string "O'Brien" = q ^ "O'Brien" ^ q.
Proof.
  apply (escape_xpath_string_delimits "O'Brien"). right. reflexivity.
Defined.

(* ================================================================== *)
(** * Further properties of the strategy generator *)
(* ================================================================== *)

Section GeneratorOrder.
Import PyStr selector_generator.

Lemma semantic_priorities (tag text : string) (attrs : attrs) :
  Forall (fun s => (1 <= priority s <= 10)%Z)
         (semantic_strategies tag text attrs).
Proof.
  unfold semantic_strategies.
  repeat (apply Forall_app; split);
    repeat match goal with
           | |- context [match ?c with _ => _ end] => destruct c
           end;
    repeat constructor; simpl; lia.
Qed.

Lemma limit_firstn (cap : option Z) (l : list SelectorStrategy) :
  exists k, limit cap l = firstn k l.
Proof.
  unfold limit. destruct cap as [m|];
    [destruct (_ && _)|]; try apply prefix_firstn;
    exists (List.length l); now rewrite firstn_all.
Qed.

(** A sorted list is left as it is by the sort. *)
Lemma sorted_fixed {A : Type} (key : A -> Z) (l : list A) :
  StronglySorted (key_le key) l -> PyList.sorted key l = l.
Proof.
  induction 1 as [|x l _ IH Hx]; simpl; [reflexivity|].
  rewrite IH. apply insert_below. exact Hx.
Qed.
End GeneratorOrder.

(** X7.  The generated list is in ascending order of priority, and
    every priority in it lies between 1 and 10. *)
Theorem generate_strategies_sorted :
  forall (self : selector_generator.SelectorGenerator)
         (e : selector_generator.element_data)
         (include_xpath_fallback : bool),
    StronglySorted (key_le selector_generator.priority)
      (selector_generator.generate_strategies self e include_xpath_fallback)
    /\ Forall (fun s => (1 <= selector_generator.priority s <= 10)%Z)
         (selector_generator.generate_strategies self e
            include_xpath_fallback).
Proof.
  intros self e inc. unfold selector_generator.generate_strategies.
  match goal with
  | |- context [selector_generator.limit ?cap ?l] =>
      destruct (limit_firstn cap l) as (k & ->)
  end.
  split.
  - apply StronglySorted_firstn, sorted_sorted.
  - rewrite Forall_forall. intros s Hs. apply In_firstn in Hs.
    eapply Permutation_in in Hs; [|apply sorted_perm].
    apply in_app_or in Hs as [Hs|Hs].
    + pose proof (semantic_priorities
                    (PyStr.lower (selector_generator.tag_name e))
                    (PyStr.strip (selector_generator.text e))
                    (selector_generator.attributes e)) as H.
      rewrite Forall_forall in H. now apply H.
    + destruct inc; [|contradiction].
      pose proof (xpath_strategies_shape self e
                    (PyStr.lower (selector_generator.tag_name e))
                    (PyStr.strip (selector_generator.text e))) as [Hty _].
      rewrite Forall_forall in Hty. pose proof (Hty s Hs) as Hx.
      unfold selector_generator.xpath_strategies in Hs.
      assert (Hopt : forall tag a n l i,
                 In s (selector_generator.optimized_strategies tag a n i l) ->
                 (1 <= selector_generator.priority s <= 10)%Z).
      { intros tag a n l. induction l as [|x l IH]; intros i; simpl;
          [contradiction|].
        intros Hin. apply in_app_or in Hin as [Hin|Hin]; [|eauto].
        destruct (_ && _); simpl in Hin; [contradiction|].
        destruct Hin as [<-|[]]. simpl.
        pose proof (xpath_priority_bounds x (String.eqb x a)). lia. }
      assert (Hfb : forall tag x,
                 In s (selector_generator.fallback_strategy tag x) ->
                 (1 <= selector_generator.priority s <= 10)%Z).
      { intros tag x. unfold selector_generator.fallback_strategy.
        destruct x as [v|]; [destruct (PyStr.truthy v)|]; simpl;
          try contradiction.
        intros [<-|[]]. simpl. lia. }
      destruct (selector_generator.enable_xpath_optimization self);
        [destruct (PyStr.truthy _);
         [destruct (xpath_optimizer.optimize_xpath _ _ _)|]|]; eauto.
Qed.

(** X8.  A positive total cap bounds the length of the generated
    list. *)
Theorem generate_strategies_capped :
  forall (self : selector_generator.SelectorGenerator)
         (e : selector_generator.element_data)
         (include_xpath_fallback : bool) (m : Z),
    selector_generator.max_total_strategies self = Some m ->
    (0 < m)%Z ->
    (Z.of_nat
       (List.length
          (selector_generator.generate_strategies self e
             include_xpath_fallback)) <= m)%Z.
Proof.
  intros self e inc m Hcap Hm.
  unfold selector_generator.generate_strategies, selector_generator.limit.
  rewrite Hcap.
  destruct (Z.eqb_spec m 0); [lia|]. cbn [negb andb].
  match goal with
  | |- context [(m <? ?len)%Z] => destruct (Z.ltb_spec m len); [|lia]
  end.
  unfold PyList.prefix. destruct (Z.leb_spec 0 m); [|lia].
  rewrite length_firstn. lia.
Qed.

Lemma generate_strategies_capped_witness :
  (Z.of_nat
     (List.length
        (selector_generator.generate_strategies default_generator
           license_element true)) <= 2)%Z.
Proof.
  apply (generate_strategies_capped default_generator license_element true 2);
    [reflexivity | lia].
Defined.

(** X9.  Without the path fallback no path expression is generated. *)
Theorem generate_strategies_without_fallback :
  forall (self : selector_generator.SelectorGenerator)
         (e : selector_generator.element_data),
    Forall (fun s => ~ is_path_strategy s)
           (selector_generator.generate_strategies self e false).
Proof.
  intros self e. unfold selector_generator.generate_strategies.
  match goal with
  | |- context [selector_generator.limit ?cap ?l] =>
      destruct (limit_firstn cap l) as (k & ->)
  end.
  rewrite Forall_forall. intros s Hs. apply In_firstn in Hs.
  eapply Permutation_in in Hs; [|apply sorted_perm].
  rewrite app_nil_r in Hs.
  destruct (semantic_strategies_shape
              (PyStr.lower (selector_generator.tag_name e))
              (PyStr.strip (selector_generator.text e))
              (selector_generator.attributes e)) as [_ H].
  rewrite Forall_forall in H. exact (H s Hs).
Qed.

Section GeneratorSources.
Import PyStr selector_generator.

Lemma truthy_true (s : string) : truthy s = true -> s <> "".
Proof. destruct s; [discriminate | discriminate]. Qed.

(** Each semantic strategy has the priority of its kind and the value
    of the source its kind reads. *)
Lemma semantic_strategies_sources (tag text : string) (a : attrs)
    (s : SelectorStrategy) :
  In s (semantic_strategies tag text a) -> semantic_source tag text a s.
Proof.
  unfold semantic_strategies, semantic_source. intros H.
  repeat (apply in_app_or in H as [H|H]).
  - destruct (truthy text) eqn:E; [|contradiction].
    destruct H as [<-|[]]. left. simpl. auto using truthy_true.
  - destruct (_infer_role tag a) as [r|] eqn:Er; [|contradiction].
    destruct (truthy r) eqn:Et; [|contradiction].
    destruct (truthy text) eqn:E; [|contradiction].
    destruct H as [<-|[]]. right; left. simpl.
    repeat split; auto using truthy_true. exists r. auto using truthy_true.
  - destruct (attrs_get_truthy "aria-label" a) eqn:E; [|contradiction].
    destruct H as [<-|[]]. do 2 right; left. simpl. auto.
  - destruct (attrs_get_truthy "placeholder" a) eqn:E; [|contradiction].
    destruct H as [<-|[]]. do 3 right; left. simpl. auto.
  - destruct (attrs_get_truthy "title" a) eqn:E; [|contradiction].
    destruct H as [<-|[]]. do 4 right; left. simpl. auto.
  - destruct (attrs_get_truthy "alt" a) eqn:E; [|contradiction].
    destruct H as [<-|[]]. do 5 right; left. simpl. auto.
  - destruct (truthy text && (3 <? String.length text)%nat) eqn:E;
      [|contradiction].
    apply andb_prop in E as [_ E]. apply Nat.ltb_lt in E.
    destruct H as [<-|[]]. do 6 right. simpl. auto.
Qed.

Lemma generated_In (self : SelectorGenerator) (e : element_data)
    (inc : bool) (s : SelectorStrategy) :
  In s (generate_strategies self e inc) ->
  In s (semantic_strategies (lower (tag_name e)) (strip (text e))
          (attributes e))
  \/ (inc = true
      /\ In s (xpath_strategies self e (lower (tag_name e))
                 (strip (text e)))).
Proof.
  unfold generate_strategies.
  match goal with
  | |- context [limit ?cap ?l] => destruct (limit_firstn cap l) as (k & ->)
  end.
  intros Hs. apply In_firstn in Hs.
  eapply Permutation_in in Hs; [|apply sorted_perm].
  apply in_app_or in Hs as [Hs|Hs]; [now left|].
  destruct inc; [now right | contradiction].
Qed.

Lemma generated_In_uncapped (self : SelectorGenerator) (e : element_data)
    (inc : bool) (s : SelectorStrategy) :
  max_total_strategies self = None ->
  In s (semantic_strategies (lower (tag_name e)) (strip (text e))
          (attributes e)) ->
  In s (generate_strategies self e inc).
Proof.
  intros Hcap Hs. unfold generate_strategies, limit. rewrite Hcap.
  eapply Permutation_in; [apply Permutation_sym, sorted_perm|].
  apply in_or_app. now left.
Qed.
End GeneratorSources.

(** X10.  Every generated strategy is either a path expression or a
    semantic strategy that has the priority of its kind and, as value,
    the trimmed text or the non-empty attribute its kind reads:
    [text_exact] 1, [role_text] 2, [aria_label] 3, [placeholder] 4,
    [title] 5, [alt_text] 6, [text_fuzzy] 7. *)
Theorem generate_strategies_sources :
  forall (self : selector_generator.SelectorGenerator)
         (e : selector_generator.element_data)
         (include_xpath_fallback : bool),
    Forall (fun s =>
              is_path_strategy s
              \/ semantic_source
                   (PyStr.lower (selector_generator.tag_name e))
                   (PyStr.strip (selector_generator.text e))
                   (selector_generator.attributes e) s)
           (selector_generator.generate_strategies self e
              include_xpath_fallback).
Proof.
  intros self e inc. rewrite Forall_forall. intros s Hs.
  apply generated_In in Hs as [Hs|[_ Hs]].
  - right. now apply semantic_strategies_sources.
  - left. destruct (xpath_strategies_shape self e
                      (PyStr.lower (selector_generator.tag_name e))
                      (PyStr.strip (selector_generator.text e))) as [H _].
    rewrite Forall_forall in H. exact (H s Hs).
Qed.

(** X11.  With no total cap, a [text_fuzzy] strategy is generated
    exactly when the trimmed text has more than three characters. *)
Theorem text_fuzzy_iff_long_text :
  forall (self : selector_generator.SelectorGenerator)
         (e : selector_generator.element_data)
         (include_xpath_fallback : bool),
    selector_generator.max_total_strategies self = None ->
    ((exists s,
         In s (selector_generator.generate_strategies self e
                 include_xpath_fallback)
         /\ selector_generator.type s = "text_fuzzy")
     <-> (3 < String.length (PyStr.strip (selector_generator.text e)))%nat).
Proof.
  intros self e inc Hcap. split.
  - intros (s & Hs & Hty). apply generated_In in Hs as [Hs|[_ Hs]].
    + apply semantic_strategies_sources in Hs.
      unfold semantic_source in Hs. rewrite Hty in Hs.
      repeat (destruct Hs as [Hs|Hs]; [destruct Hs as [Hs _]; discriminate|]).
      now destruct Hs as (_ & _ & _ & Hs).
    + destruct (xpath_strategies_shape self e
                  (PyStr.lower (selector_generator.tag_name e))
                  (PyStr.strip (selector_generator.text e))) as [H _].
      rewrite Forall_forall in H. rewrite (H s Hs) in Hty. discriminate.
  - intros Hlen.
    exists (selector_generator.mkStrategy "text_fuzzy"
              (PyStr.strip (selector_generator.text e)) 7
              [("threshold", selector_generator.MNum (PyFloat.fl (8 # 10)));
               ("tag", selector_generator.MStr
                         (PyStr.lower (selector_generator.tag_name e)))]).
    split; [|reflexivity].
    apply generated_In_uncapped; [exact Hcap|].
    unfold selector_generator.semantic_strategies.
    repeat (apply in_or_app; right).
    apply Nat.ltb_lt in Hlen. rewrite Hlen.
    destruct (PyStr.strip (selector_generator.text e));
      [discriminate | now left].
Qed.

Lemma text_fuzzy_iff_long_text_witness :
  (exists s,
      In s (selector_generator.generate_strategies
              (selector_generator.mkGenerator true 2 None)
              license_element true)
      /\ selector_generator.type s = "text_fuzzy")
  <-> (3 < String.length
             (PyStr.strip (selector_generator.text license_element)))%nat.
Proof.
  apply (text_fuzzy_iff_long_text
           (selector_generator.mkGenerator true 2 None) license_element true).
  reflexivity.
Defined.

(** X12.  A descriptor with no text and without [aria-label],
    [placeholder], [title] and [alt] yields path expressions only. *)
Theorem generate_strategies_nothing_semantic :
  forall (self : selector_generator.SelectorGenerator)
         (e : selector_generator.element_data)
         (include_xpath_fallback : bool),
    PyStr.strip (selector_generator.text e) = "" ->
    no_semantic_attribute (selector_generator.attributes e) ->
    Forall is_path_strategy
           (selector_generator.generate_strategies self e
              include_xpath_fallback).
Proof.
  intros self e inc Htext (Ha & Hp & Ht & Hl).
  rewrite Forall_forall. intros s Hs.
  apply generated_In in Hs as [Hs|[_ Hs]].
  2: { destruct (xpath_strategies_shape self e
                   (PyStr.lower (selector_generator.tag_name e))
                   (PyStr.strip (selector_generator.text e))) as [H _].
       rewrite Forall_forall in H. exact (H s Hs). }
  apply semantic_strategies_sources in Hs.
  unfold semantic_source in Hs. rewrite Htext, Ha, Hp, Ht, Hl in Hs.
  simpl in Hs. exfalso.
  repeat match goal with
         | H : _ \/ _ |- _ => destruct H
         | H : _ /\ _ |- _ => destruct H
         end; try congruence; lia.
Qed.

Lemma generate_strategies_nothing_semantic_witness :
  Forall is_path_strategy
         (selector_generator.generate_strategies default_generator
            (selector_generator.mkElement "div" "  " [("id", "main")]
               (Some license_xpath)) true).
Proof.
  apply generate_strategies_nothing_semantic;
    [reflexivity | repeat split].
Defined.

Section AbsoluteLast.
Import PyStr selector_generator.

(** An element whose key is not below any other, appended last, is
    still last after the sort. *)
Lemma insert_before_last {A : Type} (key : A -> Z) (y x : A) (l : list A) :
  (key y <= key x)%Z ->
  PyList.insert key y (l ++ [x]) = PyList.insert key y l ++ [x].
Proof.
  intros H. induction l as [|z l IH]; simpl.
  - apply Z.leb_le in H. now rewrite H.
  - destruct (key y <=? key z)%Z; [reflexivity|]. now rewrite IH.
Qed.

Lemma sorted_last {A : Type} (key : A -> Z) (x : A) (l : list A) :
  Forall (fun y => (key y <= key x)%Z) l ->
  PyList.sorted key (l ++ [x]) = PyList.sorted key l ++ [x].
Proof.
  induction 1 as [|y l Hy _ IH]; simpl; [reflexivity|].
  rewrite IH. now apply insert_before_last.
Qed.

Lemma optimized_strategies_app (tag a : string) (n : nat)
    (l1 l2 : list string) (i : nat) :
  optimized_strategies tag a n i (l1 ++ l2)
  = optimized_strategies tag a n i l1
    ++ optimized_strategies tag a n (i + List.length l1) l2.
Proof.
  revert i. induction l1 as [|x l1 IH]; intros i; simpl.
  - now rewrite Nat.add_0_r.
  - rewrite IH, <- app_assoc.
    now replace (i + S (List.length l1))%nat
      with (S i + List.length l1)%nat by lia.
Qed.

(** What the optimizer returns for a path within the limit ends with
    the absolute path. *)
Lemma optimize_xpath_ends (a : string)
    (info : option xpath_optimizer.element_info) (n : Z) :
  index_digits_within_limit a ->
  exists init,
    xpath_optimizer.optimize_xpath a info n = Returns (init ++ [a]).
Proof.
  intros Hlimit.
  destruct (parse_xpath_returns _ Hlimit) as (parts & Hparse & _).
  rewrite (optimize_xpath_parsed _ _ _ _ Hparse).
  destruct (n <=? 1)%Z; [now exists [] | eauto].
Qed.
End AbsoluteLast.

(** X13.  With optimization on, a captured absolute path none of
    whose bracketed indices has more than 4300 digits, the fallback
    requested and no total cap, the last generated strategy is the
    absolute path itself, as a path expression of priority 10. *)
Theorem generate_strategies_absolute_last :
  forall (self : selector_generator.SelectorGenerator)
         (e : selector_generator.element_data) (absolute_xpath : string),
    selector_generator.enable_xpath_optimization self = true ->
    selector_generator.max_total_strategies self = None ->
    selector_generator.xpath e = Some absolute_xpath ->
    absolute_xpath <> "" ->
    index_digits_within_limit absolute_xpath ->
    exists init s,
      selector_generator.generate_strategies self e true = init ++ [s]
      /\ selector_generator.type s = "xpath"
      /\ selector_generator.value s = absolute_xpath
      /\ selector_generator.priority s = 10%Z.
Proof.
  intros self e a Hen Hcap Hx Ha Hlimit.
  unfold selector_generator.generate_strategies, selector_generator.limit,
    selector_generator.xpath_strategies.
  rewrite Hcap, Hen, Hx, (truthy_nonempty _ Ha).
  set (tag := PyStr.lower (selector_generator.tag_name e)).
  set (text := PyStr.strip (selector_generator.text e)).
  destruct (optimize_xpath_ends a
              (Some (xpath_optimizer.mkInfo tag text
                       (selector_generator.attributes e)))
              (selector_generator.max_xpath_alternatives self) Hlimit)
    as (init & ->).
  rewrite optimized_strategies_app, length_app. cbn [List.length].
  cbn [selector_generator.optimized_strategies].
  rewrite String.eqb_refl, app_nil_r.
  replace (0 + List.length init <? List.length init + 1 - 1)%nat
    with false by (symmetry; apply Nat.ltb_ge; lia).
  cbn [andb]. rewrite app_assoc.
  rewrite sorted_last.
  - eexists _, _. split; [reflexivity|]. cbn.
    unfold selector_generator._calculate_xpath_priority. auto.
  - cbn [selector_generator.priority].
    change (selector_generator._calculate_xpath_priority a true) with 10%Z.
    apply Forall_app. split.
    + eapply Forall_impl; [|apply semantic_priorities].
      simpl. intros; lia.
    + assert (H : forall n i l,
                 Forall (fun s => (selector_generator.priority s <= 10)%Z)
                   (selector_generator.optimized_strategies tag a n i l)).
      { intros n i l. revert i.
        induction l as [|x l IH]; intros i; simpl; [constructor|].
        apply Forall_app. split; [|apply IH].
        destruct (_ && _); repeat constructor. simpl.
        pose proof (xpath_priority_bounds x (String.eqb x a)). lia. }
      apply H.
Qed.

Lemma generate_strategies_absolute_last_witness :
  exists init s,
    selector_generator.generate_strategies
      (selector_generator.mkGenerator true 3 None) license_element true
    = init ++ [s]
    /\ selector_generator.type s = "xpath"
    /\ selector_generator.value s = license_xpath
    /\ selector_generator.priority s = 10%Z.
Proof.
  apply (generate_strategies_absolute_last
           (selector_generator.mkGenerator true 3 None) license_element
           license_xpath); try reflexivity.
  - discriminate.
  - apply short_segments_within_limit. vm_compute. reflexivity.
Defined.

(** X30.  When the optimizer raises, the generator catches the
    exception and goes on with the single fallback path expression of
    priority 8: with optimization on and a captured path on which the
    parser raises, the generated list is the semantic strategies and
    that fallback, sorted and capped.  The path whose last index has
    4301 digits is such a path, and the [div] captured with it and an
    [id] gets its text first and the fallback on that [id] last. *)
Theorem generate_strategies_optimizer_failure :
  (forall (self : selector_generator.SelectorGenerator)
          (e : selector_generator.element_data) (absolute_xpath : string)
          (err : exception),
      selector_generator.enable_xpath_optimization self = true ->
      selector_generator.xpath e = Some absolute_xpath ->
      absolute_xpath <> "" ->
      xpath_optimizer._parse_xpath absolute_xpath = Raises err ->
      let tag := PyStr.lower (selector_generator.tag_name e) in
      let text := PyStr.strip (selector_generator.text e) in
      selector_generator.generate_strategies self e true
      = selector_generator.limit
          (selector_generator.max_total_strategies self)
          (PyList.sorted selector_generator.priority
             (selector_generator.semantic_strategies tag text
                (selector_generator.attributes e)
              ++ selector_generator.fallback_strategy tag
                   (selector_generator._generate_xpath tag text
                      (selector_generator.attributes e)))))
  /\ map (fun s => (selector_generator.type s, selector_generator.value s,
                    selector_generator.priority s))
         (selector_generator.generate_strategies
            (selector_generator.mkGenerator true 2 None)
            long_index_element true)
     = [("text_exact", "Go", 1%Z); ("xpath", "//div[@id='main']", 8%Z)].
Proof.
  split.
  - intros self e a err Hen Hx Ha Hraise tag text.
    unfold selector_generator.generate_strategies,
      selector_generator.xpath_strategies.
    rewrite Hen, Hx, (truthy_nonempty _ Ha).
    now rewrite (optimize_xpath_raises _ _ _ _ Hraise).
  - vm_compute. reflexivity.
Qed.

Lemma generate_strategies_optimizer_failure_witness :
  selector_generator.generate_strategies
    (selector_generator.mkGenerator true 2 None) long_index_element true
  = selector_generator.limit None
      (PyList.sorted selector_generator.priority
         (selector_generator.semantic_strategies "div" "Go" [("id", "main")]
          ++ selector_generator.fallback_strategy "div"
               (selector_generator._generate_xpath "div" "Go"
                  [("id", "main")]))).
Proof.
  apply (proj1 generate_strategies_optimizer_failure
           (selector_generator.mkGenerator true 2 None) long_index_element
           long_index_xpath ValueError).
  - reflexivity.
  - reflexivity.
  - discriminate.
  - vm_compute. reflexivity.
Defined.

Section FallbackXPath.
Import PyStr selector_generator.

Lemma data_items_exists (a : attrs) :
  data_items a <> [] ->
  existsb (fun kv => startswith (fst kv) "data-") a = true.
Proof.
  unfold data_items. induction a as [|kv a IH]; simpl; [congruence|].
  destruct (startswith (fst kv) "data-"); [reflexivity|]. exact IH.
Qed.

Lemma first_data_condition_empty (a : attrs) :
  Forall (fun kv => snd kv = "") (data_items a) ->
  first_data_condition a = [].
Proof.
  unfold data_items. induction a as [|[k v] a IH]; simpl; [reflexivity|].
  destruct (startswith k "data-"); simpl; [|exact IH].
  intros H. inversion H as [|? ? Hv Ha]; subst. simpl in Hv. subst v.
  simpl. now apply IH.
Qed.
End FallbackXPath.

(** X14.  In the fallback path expression an empty [data-*] attribute
    hides everything after it: without [id] and [name], when some
    attribute is [data-*] and all of those are empty, no expression is
    generated, whatever [aria-label], [placeholder] and text are. *)
Theorem generate_xpath_empty_data_attribute :
  forall (tag text : string) (a : attrs),
    attrs_get_truthy "id" a = None ->
    attrs_get_truthy "name" a = None ->
    data_items a <> [] ->
    Forall (fun kv => snd kv = "") (data_items a) ->
    selector_generator._generate_xpath tag text a = None.
Proof.
  intros tag text a Hid Hname Hsome Hempty.
  unfold selector_generator._generate_xpath.
  now rewrite Hid, Hname, (data_items_exists _ Hsome),
    (first_data_condition_empty _ Hempty).
Qed.

Lemma generate_xpath_empty_data_attribute_witness :
  attrs_get_truthy "aria-label" empty_data_widget = Some "Close"
  /\ selector_generator._generate_xpath "input" "Close" empty_data_widget
     = None.
Proof.
  split; [reflexivity|].
  apply generate_xpath_empty_data_attribute;
    [reflexivity | reflexivity | discriminate | repeat constructor].
Defined.

(** Closes a goal about tiers once label and priority are known. *)
Ltac settle_tiers :=
  repeat split; intros; try discriminate; try lia;
  repeat match goal with H : _ \/ _ |- _ => destruct H end;
  try discriminate; auto.

(** X15.  The label and the priority of a path expression that is not
    flagged absolute agree on the upper tiers: the label is
    [absolute-fallback] exactly at priority 10; [id-based],
    [name-based] or [data-attribute] exactly at priority 2;
    [aria-based] or [role-based] exactly at priority 3;
    [table-anchored] or [form-anchored] exactly at priority 4. *)
Theorem xpath_label_matches_priority :
  forall x : string,
    let p := selector_generator._calculate_xpath_priority x false in
    let label := selector_generator._determine_xpath_strategy x in
    (label = "absolute-fallback" <-> p = 10%Z)
    /\ (label = "id-based" \/ label = "name-based"
        \/ label = "data-attribute" <-> p = 2%Z)
    /\ (label = "aria-based" \/ label = "role-based" <-> p = 3%Z)
    /\ (label = "table-anchored" \/ label = "form-anchored" <-> p = 4%Z).
Proof.
  intros x p label. subst p label.
  unfold selector_generator._calculate_xpath_priority,
    selector_generator._determine_xpath_strategy.
  cbn [orb].
  destruct (PyStr.startswith x "/html/body"); [settle_tiers|].
  destruct (PyStr.contains "@id=" x || PyStr.contains "@id =" x);
    [settle_tiers|].
  destruct (PyStr.contains "@name=" x || PyStr.contains "@name =" x);
    [settle_tiers|].
  destruct (PyStr.contains "@data-" x); [settle_tiers|].
  destruct (PyStr.contains "@aria-label=" x),
    (PyStr.contains "@aria-labelledby=" x), (PyStr.contains "@role=" x);
    cbn [orb]; try (settle_tiers; fail).
  destruct (PyStr.contains "//table//" x
            && (PyStr.contains "tr[" x || PyStr.contains "td[" x));
    [settle_tiers|].
  destruct (PyStr.contains "//form//" x); [settle_tiers|].
  repeat (match goal with
          | |- context [if ?c then _ else _] => destruct c
          end; cbv iota);
    settle_tiers.
Qed.


Section GeneratedDicts.
Import selector_generator.

Lemma read_to_dict (s : SelectorStrategy) :
  selector_strategy.read (selector_strategy.to_dict s)
  = element_finder.to_dict s.
Proof. now destruct s. Qed.

Lemma sorted_map_key {A B : Type} (f : A -> B) (key : B -> Z)
    (l : list A) :
  StronglySorted (key_le (fun x => key (f x))) l ->
  StronglySorted (key_le key) (map f l).
Proof.
  induction 1 as [|x l _ IH Hx]; simpl; constructor; [exact IH|].
  apply Forall_map. exact Hx.
Qed.
End GeneratedDicts.

(** X17.  The locator's own sort leaves a generated list as it is: the
    dicts of [generate_strategies_dict], read the way the locator reads
    them, are already in the order in which the locator tries them. *)
Theorem locator_sort_keeps_generated_order :
  forall (self : selector_generator.SelectorGenerator)
         (e : selector_generator.element_data),
    PyList.sorted element_finder.priority_of
      (map selector_strategy.read
         (selector_strategy.generate_strategies_dict self e))
    = map selector_strategy.read
        (selector_strategy.generate_strategies_dict self e).
Proof.
  intros self e. apply sorted_fixed.
  unfold selector_strategy.generate_strategies_dict. rewrite map_map.
  apply (sorted_map_key
           (fun s => selector_strategy.read (selector_strategy.to_dict s))
           element_finder.priority_of).
  unfold selector_generator.generate_strategies.
  match goal with
  | |- context [selector_generator.limit ?cap ?l] =>
      destruct (limit_firstn cap l) as (k & ->)
  end.
  apply StronglySorted_firstn.
  exact (sorted_sorted selector_generator.priority _).
Qed.

Section CssFacts.
Import PyStr css_selector.

Lemma first_data_selector_none (a : attrs) :
  first_data_selector a = None
  <-> Forall (fun kv => snd kv = "") (data_items a).
Proof.
  unfold data_items. induction a as [|[k v] a IH]; simpl.
  - split; [constructor | reflexivity].
  - destruct (startswith k "data-"); simpl; [|exact IH].
    destruct v as [|c v]; simpl.
    + rewrite IH. split; [now constructor|].
      intros H. now inversion H.
    + split; [discriminate|]. intros H. inversion H. discriminate.
Qed.
End CssFacts.

(** X18.  A CSS selector is generated unless there is nothing to
    select by: no non-empty [id], [name], [aria-label] or
    [placeholder] and no non-empty [data-*] attribute.  The text plays
    no part, and an empty [data-*] attribute hides nothing here. *)
Theorem generate_css_selector_none_iff :
  forall (tag text : string) (a : attrs),
    css_selector._generate_css_selector tag text a = None
    <-> attrs_get_truthy "id" a = None
        /\ attrs_get_truthy "name" a = None
        /\ Forall (fun kv => snd kv = "") (data_items a)
        /\ attrs_get_truthy "aria-label" a = None
        /\ attrs_get_truthy "placeholder" a = None.
Proof.
  intros tag text a. unfold css_selector._generate_css_selector.
  rewrite <- first_data_selector_none.
  destruct (attrs_get_truthy "id" a);
    [split; [discriminate | intros (H & _); discriminate]|].
  destruct (attrs_get_truthy "name" a);
    [split; [discriminate | intros (_ & H & _); discriminate]|].
  destruct (css_selector.first_data_selector a);
    [split; [discriminate | intros (_ & _ & H & _); discriminate]|].
  destruct (attrs_get_truthy "aria-label" a);
    [split; [discriminate | intros (_ & _ & _ & H & _); discriminate]|].
  destruct (attrs_get_truthy "placeholder" a);
    [split; [discriminate | intros (_ & _ & _ & _ & H); discriminate]|].
  tauto.
Qed.

Section EscapeValue.
Import PyStr.

Lemma contains_char (c : ascii) (s : string) :
  contains (String c "") s
  = negb (all_chars (fun a => negb (Ascii.eqb a c)) s).
Proof.
  induction s as [|a s IH]; [reflexivity|].
  cbn [contains all_chars String.prefix].
  destruct (ascii_dec c a) as [->|Hne].
  - rewrite Ascii.eqb_refl. now destruct s.
  - rewrite IH. destruct (Ascii.eqb_spec a c); [congruence|]. reflexivity.
Qed.

(** No part that [split] returns holds the separator. *)
Lemma split_on_parts_free (c : ascii) (s : string) :
  Forall (fun p => all_chars (fun a => negb (Ascii.eqb a c)) p = true)
         (split_on c s).
Proof.
  induction s as [|a s IH]; simpl; [repeat constructor|].
  destruct (Ascii.eqb a c) eqn:E; [constructor; auto|].
  destruct (split_on c s) as [|w ws];
    [repeat constructor; simpl; now rewrite E|].
  inversion IH as [|? ? Hw Hws]; subst.
  constructor; [simpl; now rewrite E, Hw | exact Hws].
Qed.
End EscapeValue.

(** X19.  For a value that holds both quote characters the
    generator's escaping is a [concat] of single-quoted parts that hold
    no single quote, with a quoted single quote between them, and the
    parts joined by single quotes are the value. *)
Theorem escape_xpath_value_concat :
  forall value : string,
    PyStr.contains PyStr.sq value = true ->
    PyStr.contains PyStr.dq value = true ->
    exists parts,
      selector_generator._escape_xpath_value value
      = "concat('"
        ^ PyStr.join (PyStr.sq ^ ", " ^ PyStr.dq ^ PyStr.sq ^ PyStr.dq
                        ^ ", " ^ PyStr.sq) parts
        ^ "')"
      /\ Forall (free_of PyStr.sq) parts
      /\ PyStr.join PyStr.sq parts = value.
Proof.
  intros value Hs Hd. exists (PyStr.split_on PyStr.sq_char value).
  unfold selector_generator._escape_xpath_value. rewrite Hs, Hd.
  split; [reflexivity|]. split; [|apply join_split_on].
  eapply Forall_impl; [|apply split_on_parts_free].
  intros p Hp. unfold free_of, PyStr.sq. now rewrite contains_char, Hp.
Qed.

Lemma escape_xpath_value_concat_witness :
  exists parts,
    selector_generator._escape_xpath_value
      ("say " ^ PyStr.dq ^ "it's" ^ PyStr.dq)
    = "concat('"
      ^ PyStr.join (PyStr.sq ^ ", " ^ PyStr.dq ^ PyStr.sq ^ PyStr.dq
                      ^ ", " ^ PyStr.sq) parts
      ^ "')"
    /\ Forall (free_of PyStr.sq) parts
    /\ PyStr.join PyStr.sq parts = "say " ^ PyStr.dq ^ "it's" ^ PyStr.dq.
Proof.
  apply escape_xpath_value_concat; reflexivity.
Defined.

(* ================================================================== *)
(** * Further properties of the element locator *)
(* ================================================================== *)

Section LocatorEvidence.
Import PyStr element_finder.

Variable session : browser_session.
Variable target_text : option string.

(** A strategy that locates something is backed by the page. *)
Lemma try_strategy_backed (s : strategy) (found : located) :
  try_strategy session target_text s = inl found ->
  backed_by session s found.
Proof.
  unfold try_strategy, backed_by.
  destruct (type s) as [ty|] eqn:Ety.
  - destruct (String.eqb_spec ty "xpath") as [->|Hne].
    + unfold _find_with_xpath.
      destruct (evaluate session (normalize_xpath (value s)))
        as [| |[] t x|] eqn:E; try discriminate.
      intros [= <-]. left. eauto.
    + destruct (get_selector_map session) as [[|entry rest]|] eqn:Em;
        cbn [usable_map]; try discriminate.
      destruct (is_semantic (Some ty)) eqn:Es; [|discriminate].
      destruct (_find_with_semantic_strategy _ _ _ _ _) as [[i n]|] eqn:Ef;
        [|discriminate].
      intros [= <-]. right. split; [reflexivity|].
      apply find_semantic_sound in Ef as (Hin & Hm & Hv).
      exists i, n, (entry :: rest). auto.
  - destruct (usable_map (get_selector_map session)); discriminate.
Qed.

Lemma try_strategy_needs_map (s : strategy) :
  usable_map (get_selector_map session) = None ->
  not_xpath s ->
  fails session target_text s.
Proof.
  intros Hmap Hs. unfold fails, try_strategy. rewrite Hmap.
  destruct (type s) as [ty|] eqn:Ety; [|eauto].
  destruct (String.eqb_spec ty "xpath") as [->|]; [|eauto].
  unfold not_xpath in Hs. congruence.
Qed.

Lemma attempt_loop_all_fail (l : list strategy) (acc : list StrategyAttempt) :
  Forall (fails session target_text) l ->
  attempt_loop session target_text l acc
  = (None, acc ++ map (failed_attempt session target_text) l).
Proof.
  intros H.
  destruct (attempt_loop_spec session target_text l acc)
    as [[_ Heq]|(pre & s & post & found & -> & _ & Hs & _)]; [exact Heq|].
  apply Forall_app in H as [_ H]. inversion H as [|? ? [msg Hmsg] _]; subst.
  congruence.
Qed.
End LocatorEvidence.

(** X20.  On an available page the audit trail has, when nothing is
    found, one failed record with an error message for every strategy,
    and, when something is found, failed records followed by a single
    successful one without error message, never more records than
    strategies. *)
Theorem audit_trail_shape :
  forall (strategies : list element_finder.strategy)
         (session : element_finder.browser_session)
         (target_text : option string)
         (result : option (element_finder.located * element_finder.strategy))
         (attempts : list element_finder.StrategyAttempt),
    element_finder.get_current_page session = element_finder.PageOk ->
    element_finder.find_element_with_strategies strategies session
      target_text = (result, attempts) ->
    match result with
    | None =>
        List.length attempts = List.length strategies
        /\ Forall (fun a => element_finder.success a = false
                            /\ element_finder.error_message a <> None)
                  attempts
    | Some _ =>
        (List.length attempts <= List.length strategies)%nat
        /\ exists failures final,
             attempts = failures ++ [final]
             /\ Forall (fun a => element_finder.success a = false) failures
             /\ element_finder.success final = true
             /\ element_finder.error_message final = None
    end.
Proof.
  intros strategies session target_text result attempts Hpage.
  unfold element_finder.find_element_with_strategies. rewrite Hpage.
  destruct strategies as [|s0 l0] eqn:E;
    [intros [= <- <-]; split; [reflexivity | constructor]|].
  rewrite <- E. clear E s0 l0.
  pose proof (Permutation_length
                (sorted_perm element_finder.priority_of strategies)) as Hlen.
  destruct (attempt_loop_spec session target_text
              (PyList.sorted element_finder.priority_of strategies) [])
    as [[Hall ->]|(pre & s & post & found & Hsplit & Hpre & Hs & ->)];
    intros [= <- <-].
  - simpl. rewrite length_map. split; [exact Hlen|].
    apply Forall_map. eapply Forall_impl; [|exact Hall].
    intros s [msg Hmsg]. unfold failed_attempt. rewrite Hmsg. simpl.
    split; [reflexivity | discriminate].
  - simpl. rewrite Hsplit in Hlen. split.
    + rewrite length_app, length_map in *. simpl in *. lia.
    + eexists _, _. split; [reflexivity|].
      split; [|split; reflexivity].
      apply Forall_map. apply Forall_forall. reflexivity.
Qed.

Lemma audit_trail_shape_witness :
  List.length
    (snd (element_finder.find_element_with_strategies
            [aria_label_strategy "Send" [];
             element_finder.mkStrategyDict (Some "css") "#send" None []]
            submit_page None)) = 2%nat.
Proof.
  pose proof (audit_trail_shape
                [aria_label_strategy "Send" [];
                 element_finder.mkStrategyDict (Some "css") "#send" None []]
                submit_page None None _ eq_refl eq_refl) as H.
  exact (proj1 H).
Defined.

(** X21.  A match is backed by the page: the strategy returned is one
    of the input; if it is a path expression, the match is the
    normalized expression and the page answered that expression with a
    visible element; otherwise the strategy is of a semantic kind and
    the match is the index of a visible node of the selector map that
    satisfies it.  A strategy of any other kind is never returned. *)
Theorem match_is_backed :
  forall (strategies : list element_finder.strategy)
         (session : element_finder.browser_session)
         (target_text : option string)
         (found : element_finder.located) (s : element_finder.strategy)
         (attempts : list element_finder.StrategyAttempt),
    element_finder.find_element_with_strategies strategies session
      target_text = (Some (found, s), attempts) ->
    In s strategies /\ backed_by session s found.
Proof.
  intros strategies session target_text found s attempts Hfind.
  unfold element_finder.find_element_with_strategies in Hfind.
  destruct strategies as [|s0 l0] eqn:E; [discriminate|].
  rewrite <- E in *. clear E s0 l0.
  destruct (element_finder.get_current_page session); try discriminate.
  destruct (attempt_loop_trace _ _ _ _ _ Hfind)
    as (tried & untried & Hsplit & _ & pre & -> & _ & Htry).
  split.
  - eapply Permutation_in; [apply sorted_perm|]. rewrite Hsplit.
    apply in_or_app. left. apply in_or_app. right. now left.
  - eapply try_strategy_backed, Htry.
Qed.

Lemma match_is_backed_witness :
  In (text_exact_strategy "Submit" [])
     [aria_label_strategy "Send" []; text_exact_strategy "Submit" []]
  /\ backed_by submit_page (text_exact_strategy "Submit" [])
       (element_finder.ElementIndex 4).
Proof.
  apply (match_is_backed
           [aria_label_strategy "Send" []; text_exact_strategy "Submit" []]
           submit_page None (element_finder.ElementIndex 4)
           (text_exact_strategy "Submit" [])
           [element_finder.attempt_of (text_exact_strategy "Submit" [])
              true None]).
  reflexivity.
Defined.

(** X22.  On an available page whose selector map is missing or
    empty, strategies that are not path expressions cannot find
    anything: the answer is not-found, with one record per strategy,
    each saying that the selector map is not available. *)
Theorem no_selector_map_no_semantic_match :
  forall (strategies : list element_finder.strategy)
         (session : element_finder.browser_session)
         (target_text : option string),
    element_finder.get_current_page session = element_finder.PageOk ->
    element_finder.usable_map (element_finder.get_selector_map session)
    = None ->
    Forall not_xpath strategies ->
    exists attempts,
      element_finder.find_element_with_strategies strategies session
        target_text = (None, attempts)
      /\ List.length attempts = List.length strategies
      /\ Forall (fun a =>
                   element_finder.success a = false
                   /\ element_finder.error_message a
                      = Some "Selector map not available for semantic strategy")
                attempts.
Proof.
  intros strategies session target_text Hpage Hmap Hall.
  unfold element_finder.find_element_with_strategies. rewrite Hpage.
  destruct strategies as [|s0 l0] eqn:E;
    [exists []; repeat split; constructor|].
  rewrite <- E in *. clear E s0 l0.
  assert (Hsorted : Forall not_xpath
                      (PyList.sorted element_finder.priority_of strategies)).
  { eapply Permutation_Forall; [apply Permutation_sym, sorted_perm|].
    exact Hall. }
  rewrite attempt_loop_all_fail.
  - eexists. split; [reflexivity|]. simpl. rewrite length_map. split.
    + apply Permutation_length, sorted_perm.
    + apply Forall_map. eapply Forall_impl; [|exact Hsorted].
      intros s Hs. unfold failed_attempt, element_finder.try_strategy.
      rewrite Hmap. unfold not_xpath in Hs.
      destruct (element_finder.type s) as [ty|]; [|split; reflexivity].
      destruct (String.eqb_spec ty "xpath") as [->|];
        [congruence | split; reflexivity].
  - eapply Forall_impl; [|exact Hsorted].
    intros s Hs. now apply try_strategy_needs_map.
Qed.

Lemma no_selector_map_no_semantic_match_witness :
  exists attempts,
    element_finder.find_element_with_strategies
      [text_exact_strategy "Submit" []; aria_label_strategy "Send" []]
      (element_finder.mkSession element_finder.PageOk (Some [])
         (fun _ => element_finder.JsNull))
      None = (None, attempts)
    /\ List.length attempts = 2%nat
    /\ Forall (fun a =>
                 element_finder.success a = false
                 /\ element_finder.error_message a
                    = Some "Selector map not available for semantic strategy")
              attempts.
Proof.
  apply (no_selector_map_no_semantic_match
           [text_exact_strategy "Submit" []; aria_label_strategy "Send" []]
           (element_finder.mkSession element_finder.PageOk (Some [])
              (fun _ => element_finder.JsNull)) None).
  - reflexivity.
  - reflexivity.
  - repeat constructor; discriminate.
Defined.

(** X23.  Normalizing a path expression is idempotent, and what is
    sent to the page is empty or starts with [/] or with an opening
    parenthesis. *)
Theorem normalize_xpath_idempotent :
  forall xpath : string,
    element_finder.normalize_xpath (element_finder.normalize_xpath xpath)
    = element_finder.normalize_xpath xpath
    /\ (element_finder.normalize_xpath xpath = ""
        \/ PyStr.startswith (element_finder.normalize_xpath xpath) "/" = true
        \/ PyStr.startswith (element_finder.normalize_xpath xpath) "("
           = true).
Proof.
  intros xpath. unfold element_finder.normalize_xpath.
  destruct xpath as [|a x]; [auto|].
  cbn [PyStr.truthy andb].
  destruct (PyStr.startswith (String a x) "/") eqn:E1; cbn [negb andb].
  - rewrite E1. cbn [negb andb]. auto.
  - destruct (PyStr.startswith (String a x) "(") eqn:E2; cbn [negb andb].
    + rewrite E1, E2. cbn [negb andb]. auto.
    + split; [reflexivity | right; left; reflexivity].
Qed.

Section DistinctPriorities.

(** Two ascending lists with the same elements and pairwise distinct
    keys are the same list. *)
Lemma sorted_unique {A : Type} (key : A -> Z) (l1 l2 : list A) :
  StronglySorted (key_le key) l1 ->
  StronglySorted (key_le key) l2 ->
  Permutation l1 l2 ->
  NoDup (map key l1) ->
  l1 = l2.
Proof.
  intros H1. revert l2. induction H1 as [|x t1 Ht1 IH Hx]; intros l2 H2 Hp Hnd.
  - apply Permutation_nil in Hp. now subst.
  - destruct l2 as [|y t2];
      [apply Permutation_sym, Permutation_nil in Hp; discriminate|].
    inversion H2 as [|? ? Ht2 Hy]; subst.
    inversion Hnd as [|? ? Hxk Hndt]; subst.
    assert (Hxy : x = y).
    { assert (Hin1 : In x (y :: t2))
        by (eapply Permutation_in; [exact Hp | now left]).
      assert (Hin2 : In y (x :: t1))
        by (eapply Permutation_in; [apply Permutation_sym, Hp | now left]).
      destruct Hin2 as [->|Hin2]; [reflexivity|].
      destruct Hin1 as [<-|Hin1]; [reflexivity|].
      rewrite Forall_forall in Hx, Hy.
      pose proof (Hx y Hin2) as Hle1. pose proof (Hy x Hin1) as Hle2.
      unfold key_le in *. exfalso. apply Hxk.
      replace (key x) with (key y) by lia. now apply in_map. }
    subst y. f_equal. apply IH; auto.
    eapply Permutation_cons_inv, Hp.
Qed.
End DistinctPriorities.

(** X24.  When the priorities of the strategies are pairwise distinct,
    the order in which they are given does not matter: any reordering
    of the list gives the same match and the same audit trail. *)
Theorem locate_ignores_input_order :
  forall (strategies strategies' : list element_finder.strategy)
         (session : element_finder.browser_session)
         (target_text : option string),
    Permutation strategies strategies' ->
    NoDup (map element_finder.priority_of strategies) ->
    element_finder.find_element_with_strategies strategies session
      target_text
    = element_finder.find_element_with_strategies strategies' session
        target_text.
Proof.
  intros strategies strategies' session target_text Hp Hnd.
  assert (Hs : PyList.sorted element_finder.priority_of strategies
               = PyList.sorted element_finder.priority_of strategies').
  { apply (sorted_unique element_finder.priority_of).
    - apply sorted_sorted.
    - apply sorted_sorted.
    - eapply perm_trans; [apply sorted_perm|].
      eapply perm_trans; [exact Hp | apply Permutation_sym, sorted_perm].
    - eapply Permutation_NoDup; [|exact Hnd].
      apply Permutation_map, Permutation_sym, sorted_perm. }
  unfold element_finder.find_element_with_strategies.
  destruct strategies as [|s l], strategies' as [|s' l'].
  - reflexivity.
  - apply Permutation_nil in Hp. discriminate.
  - apply Permutation_sym, Permutation_nil in Hp. discriminate.
  - now rewrite Hs.
Qed.

Lemma locate_ignores_input_order_witness :
  element_finder.find_element_with_strategies
    [aria_label_strategy "Send" []; text_exact_strategy "Submit" []]
    submit_page None
  = element_finder.find_element_with_strategies
      [text_exact_strategy "Submit" []; aria_label_strategy "Send" []]
      submit_page None.
Proof.
  apply locate_ignores_input_order.
  - apply perm_swap.
  - repeat constructor; simpl; intuition discriminate.
Defined.

Section MatcherColumns.
Import difflib.
Local Open Scope nat_scope.
Variables a b : list ascii.

Lemma j2len_get_columns (blo j : nat) (j2len : list (nat * nat)) :
  runs_in_columns blo j2len -> j2len_get j j2len <= j + 1 - blo.
Proof.
  induction j2len as [|[j' k] l IH]; intros H; simpl; [lia|].
  destruct (Nat.eqb_spec j j') as [->|].
  - apply (H j' k). now left.
  - apply IH. intros j0 k0 Hin. apply (H j0 k0). now right.
Qed.

Lemma scan_row_columns (i blo bhi : nat) (j2len : list (nat * nat))
    (js : list nat) (newj2len : list (nat * nat)) (best : nat * nat * nat) :
  runs_in_columns blo j2len ->
  runs_in_columns blo newj2len ->
  block_in_columns blo bhi best ->
  runs_in_columns blo (fst (scan_row i blo bhi j2len js newj2len best))
  /\ block_in_columns blo bhi
       (snd (scan_row i blo bhi j2len js newj2len best)).
Proof.
  intros Hold. revert newj2len best.
  induction js as [|j js IH]; intros newj2len best Hnew Hbest; simpl.
  - now split.
  - destruct (Nat.ltb_spec j blo); [now apply IH|].
    destruct (Nat.leb_spec bhi j); [now split|].
    destruct best as [[bi bj] bk].
    set (k := match j with O => 0 | S j' => j2len_get j' j2len end + 1).
    assert (Hk : k <= j + 1 - blo).
    { subst k. destruct j as [|j']; [lia|].
      pose proof (j2len_get_columns blo j' _ Hold).
      assert (j2len_get j' j2len = 0 \/ blo <= j') as [->|];
        [|lia|lia].
      destruct (Nat.le_gt_cases blo j'); [now right|]. left.
      clear -Hold H2. induction j2len as [|[j0 k0] l IHl]; simpl;
        [reflexivity|].
      destruct (Nat.eqb_spec j' j0) as [->|].
      - destruct (Hold j0 k0 (or_introl eq_refl)). lia.
      - apply IHl. intros j1 k1 Hin. apply (Hold j1 k1). now right. }
    apply IH.
    + intros j0 k0 [[= <- <-]|Hin]; [split; [lia | exact Hk]|].
      now apply (Hnew j0 k0).
    + destruct (bk <? k); [|exact Hbest]. simpl. lia.
Qed.

Lemma scan_rows_columns (blo bhi n i : nat) (j2len : list (nat * nat))
    (best : nat * nat * nat) :
  runs_in_columns blo j2len ->
  block_in_columns blo bhi best ->
  block_in_columns blo bhi (scan_rows a b n i blo bhi j2len best).
Proof.
  revert i j2len best. induction n as [|n IH]; intros i j2len best Hl Hb;
    simpl; [exact Hb|].
  destruct (scan_row_columns i blo bhi j2len (b2j b (at_ a i)) [] best Hl)
    as [Hl' Hb']; [intros ? ? [] | exact Hb |].
  destruct (scan_row i blo bhi j2len (b2j b (at_ a i)) [] best)
    as [newj2len best'].
  now apply IH.
Qed.

Lemma extend_left_columns (fuel alo blo bi bj bk : nat) :
  blo <= bj ->
  let '(_, j, k) := extend_left a b fuel alo blo bi bj bk in
  blo <= j /\ j + k = bj + bk.
Proof.
  revert bi bj bk. induction fuel as [|fuel IH]; intros bi bj bk Hb; simpl;
    [lia|].
  destruct ((alo <? bi) && (blo <? bj)
            && Ascii.eqb (at_ a (bi - 1)) (at_ b (bj - 1))) eqn:E; [|lia].
  apply andb_prop in E as [E _]. apply andb_prop in E as [_ E].
  apply Nat.ltb_lt in E.
  specialize (IH (bi - 1) (bj - 1) (bk + 1)).
  destruct (extend_left a b fuel alo blo (bi - 1) (bj - 1) (bk + 1))
    as [[i j] k]. lia.
Qed.

Lemma extend_right_columns (fuel ahi bhi bi bj bk : nat) :
  bj + bk <= bhi ->
  let '(_, j, k) := extend_right a b fuel ahi bhi bi bj bk in
  j = bj /\ j + k <= bhi.
Proof.
  revert bk. induction fuel as [|fuel IH]; intros bk Hb; simpl; [lia|].
  destruct ((bi + bk <? ahi) && (bj + bk <? bhi)
            && Ascii.eqb (at_ a (bi + bk)) (at_ b (bj + bk))) eqn:E; [|lia].
  apply andb_prop in E as [E _]. apply andb_prop in E as [_ E].
  apply Nat.ltb_lt in E. apply IH. lia.
Qed.

Lemma find_longest_match_columns (alo ahi blo bhi : nat) :
  blo <= bhi ->
  let '(_, j, k) := find_longest_match a b alo ahi blo bhi in
  blo <= j /\ j + k <= bhi.
Proof.
  intros H. unfold find_longest_match.
  pose proof (scan_rows_columns blo bhi (ahi - alo) alo [] (alo, blo, 0))
    as Hs.
  destruct (scan_rows a b (ahi - alo) alo blo bhi [] (alo, blo, 0))
    as [[bi bj] bk].
  simpl in Hs. destruct Hs as [Hs1 Hs2]; [intros ? ? [] | lia |].
  pose proof (extend_left_columns bi alo blo bi bj bk Hs1) as Hl.
  destruct (extend_left a b bi alo blo bi bj bk) as [[bi' bj'] bk'].
  pose proof (extend_right_columns ahi ahi bhi bi' bj' bk') as Hr.
  destruct (extend_right a b ahi ahi bhi bi' bj' bk') as [[i j] k].
  lia.
Qed.

(** The matched total of a window fits in the window, both ways. *)
Lemma matched_fits (fuel alo ahi blo bhi : nat) :
  alo <= ahi -> blo <= bhi ->
  matched a b fuel alo ahi blo bhi <= Nat.min (ahi - alo) (bhi - blo).
Proof.
  revert alo ahi blo bhi.
  induction fuel as [|fuel IH]; intros alo ahi blo bhi Ha Hb; simpl; [lia|].
  pose proof (find_longest_match_within a b alo ahi blo bhi Ha) as Hw.
  pose proof (find_longest_match_columns alo ahi blo bhi Hb) as Hc.
  destruct (find_longest_match a b alo ahi blo bhi) as [[i j] k].
  destruct (Nat.eqb_spec k 0); [lia|].
  assert (Hl : (if (alo <? i) && (blo <? j)
                then matched a b fuel alo i blo j else 0)
               <= Nat.min (i - alo) (j - blo)).
  { destruct ((alo <? i) && (blo <? j)); [apply IH; lia | lia]. }
  assert (Hr : (if (i + k <? ahi) && (j + k <? bhi)
                then matched a b fuel (i + k) ahi (j + k) bhi else 0)
               <= Nat.min (ahi - (i + k)) (bhi - (j + k))).
  { destruct ((i + k <? ahi) && (j + k <? bhi)); [apply IH; lia | lia]. }
  lia.
Qed.
End MatcherColumns.

Section FloatFacts.
Import PyFloat.
Local Open Scope Z_scope.

Lemma round_half_even_nonneg (n : Z) (d : positive) :
  0 <= n -> 0 <= round_half_even n d.
Proof.
  intros Hn. unfold round_half_even.
  assert (0 <= n / Z.pos d) by (apply Z.div_pos; lia).
  destruct (2 * (n mod Z.pos d) ?= Z.pos d);
    [destruct (Z.even _)| |]; lia.
Qed.

(** A quotient that does not exceed an integer is not rounded beyond
    it. *)
Lemma round_half_even_le (n k : Z) (d : positive) :
  n <= Z.pos d * k -> round_half_even n d <= k.
Proof.
  intros Hn. unfold round_half_even.
  assert (Hq : n / Z.pos d <= k)
    by (apply Z.div_le_upper_bound; lia).
  pose proof (Z.div_mod n (Z.pos d) ltac:(lia)) as Hdm.
  pose proof (Z.mod_pos_bound n (Z.pos d) ltac:(lia)) as Hr.
  destruct (Z.eq_dec (n / Z.pos d) k) as [E|E].
  - assert (Hz : n mod Z.pos d = 0) by nia.
    rewrite Hz. simpl. lia.
  - destruct (2 * (n mod Z.pos d) ?= Z.pos d);
      [destruct (Z.even _)| |]; lia.
Qed.

Lemma binade_unit (n : Z) (d : positive) :
  0 < n -> n <= Z.pos d -> binade n d <= 0.
Proof.
  intros Hn Hd. unfold binade.
  pose proof (Z.log2_le_mono n (Z.pos d) Hd).
  destruct (if 0 <=? _ then _ else _); lia.
Qed.

(** Rounding keeps a number of the unit interval in it. *)
Lemma fl_unit_interval (q : Q) :
  (0 <= q)%Q -> (q <= 1)%Q -> (0 <= fl q)%Q /\ (fl q <= 1)%Q.
Proof.
  destruct q as [n d]. unfold Qle. cbn [Qnum Qden]. intros Hn Hd.
  unfold fl. cbn [Qnum Qden].
  destruct (Z.eqb_spec n 0) as [|Hne]; [cbn [Qnum Qden]; lia|].
  assert (Hpos : 0 < n) by lia.
  pose proof (binade_unit n d Hpos ltac:(lia)) as Hb.
  rewrite (Z.abs_eq n), (Z.sgn_pos n) by lia.
  set (e := Z.max (binade n d - 52) (-1074)).
  assert (He : -1074 <= e <= -52) by (subst e; lia).
  destruct (Z.leb_spec 0 e); [lia|]. cbn [Qnum Qden].
  assert (Hk : 0 < 2 ^ (- e)) by (apply Z.pow_pos_nonneg; lia).
  rewrite Z2Pos.id by exact Hk.
  pose proof (round_half_even_nonneg (n * 2 ^ (- e)) d ltac:(nia)).
  pose proof (round_half_even_le (n * 2 ^ (- e)) (2 ^ (- e)) d ltac:(nia)).
  lia.
Qed.

(** The doubles of 0.1, 1/3 and 5/9, the last one above the quotient
    it stands for; a tie, which goes to the even significand; and a
    number the format holds exactly. *)
Remark fl_known_doubles :
  (fl (1 # 10) == 3602879701896397 # 36028797018963968)%Q
  /\ (fl (1 # 3) == 6004799503160661 # 18014398509481984)%Q
  /\ (fl (5 # 9) == 2501999792983609 # 4503599627370496)%Q
  /\ (5 # 9 < fl (5 # 9))%Q
  /\ (fl (9007199254740993 # 1) == 9007199254740992 # 1)%Q
  /\ (fl (3 # 4) == 3 # 4)%Q.
Proof. repeat split; vm_compute; reflexivity. Qed.
End FloatFacts.

(** X25.  The similarity ratio of two strings lies between 0 and 1, so
    a fuzzy strategy with a threshold above 1 matches nothing and one
    with a threshold of 0 or less matches every candidate. *)
Theorem fuzzy_ratio_bounds :
  (forall a b : string,
      (0 <= difflib.string_ratio a b)%Q
      /\ (difflib.string_ratio a b <= 1)%Q)
  /\ (forall (target candidate : string) (threshold : Q),
         (1 < threshold)%Q ->
         element_finder._fuzzy_match target candidate threshold = false)
  /\ (forall (target candidate : string) (threshold : Q),
         (threshold <= 0)%Q ->
         element_finder._fuzzy_match target candidate threshold = true).
Proof.
  assert (Hb : forall a b : string,
             (0 <= difflib.string_ratio a b)%Q
             /\ (difflib.string_ratio a b <= 1)%Q).
  { intros a b. unfold difflib.string_ratio, difflib.ratio.
    set (la := list_ascii_of_string a). set (lb := list_ascii_of_string b).
    pose proof (matched_fits la lb (S (List.length la)) 0 (List.length la)
                  0 (List.length lb) (Nat.le_0_l _) (Nat.le_0_l _)) as Hm.
    destruct (Nat.eqb_spec (List.length la + List.length lb) 0) as [|Hne].
    - split; unfold Qle; simpl; lia.
    - assert (Hpos : Z.pos (Pos.of_nat (List.length la + List.length lb))
                     = Z.of_nat (List.length la + List.length lb)).
      { rewrite <- positive_nat_Z. f_equal. now apply Nat2Pos.id. }
      apply fl_unit_interval; unfold Qle; cbn [Qnum Qden];
        rewrite ?Hpos; lia. }
  split; [exact Hb|]. split.
  - intros target candidate threshold Hth.
    unfold element_finder._fuzzy_match.
    destruct (Qle_bool threshold _) eqn:E; [|reflexivity].
    apply Qle_bool_iff in E.
    destruct (Hb (PyStr.lower target) (PyStr.lower candidate)) as [_ Hle].
    exfalso. apply (Qlt_irrefl 1).
    eapply Qlt_le_trans; [exact Hth|]. eapply Qle_trans; eassumption.
  - intros target candidate threshold Hth.
    unfold element_finder._fuzzy_match. apply Qle_bool_iff.
    destruct (Hb (PyStr.lower target) (PyStr.lower candidate)) as [Hge _].
    eapply Qle_trans; eassumption.
Qed.

(** X26.  The node check for a path-expression result accepts in two
    cases only: two points of agreement, or a single comparison that
    was made and agreed; the ratio test lets nothing else through.  In
    particular an [id] that was compared and agrees is enough, and a
    pair with nothing to compare is rejected. *)
Theorem xpath_node_matches_cases :
  forall (n : xpath_node_match.dom_node)
         (e : xpath_node_match.element_data),
    (xpath_node_match._xpath_node_matches n e = true
     <-> (2 <= xpath_node_match.matches n e)%nat
         \/ (xpath_node_match.matches n e = 1%nat
             /\ xpath_node_match.checks n e = 1%nat))
    /\ (xpath_node_match.element_id n <> "" ->
        xpath_node_match.element_id n = xpath_node_match.id e ->
        xpath_node_match._xpath_node_matches n e = true)
    /\ (xpath_node_match.checks n e = 0%nat ->
        xpath_node_match._xpath_node_matches n e = false).
Proof.
  intros n e. unfold xpath_node_match._xpath_node_matches.
  split; [|split].
  - rewrite orb_true_iff, !andb_true_iff, Nat.leb_le, !Nat.ltb_lt,
      Nat.leb_le. lia.
  - intros Hid Heq.
    assert (H : (2 <= xpath_node_match.matches n e)%nat).
    { unfold xpath_node_match.matches, xpath_node_match.comparisons.
      cbn [map list_sum fst]. rewrite <- Heq, String.eqb_refl.
      rewrite (truthy_nonempty _ Hid). simpl. lia. }
    apply Nat.leb_le in H. now rewrite H.
  - intros Hc.
    assert (H : xpath_node_match.matches n e = 0%nat).
    { revert Hc.
      unfold xpath_node_match.matches, xpath_node_match.checks,
        xpath_node_match.comparisons, xpath_node_match.compare_with.
      cbn [map list_sum fst snd].
      repeat match goal with
             | |- context [if ?c then _ else _] => destruct c
             | |- context [match ?c with Some _ => _ | None => _ end] =>
                 destruct c
             end; simpl; lia. }
    rewrite H, Hc. reflexivity.
Qed.
